(** * flathunter captcha solvers: ImageTyperz and 2Captcha adapters

    Shallow embedding of [flathunter/captcha/imagetyperz_solver.py] and
    [flathunter/captcha/twocaptcha_solver.py], and the properties of the
    submit-then-poll protocol they implement; and of the part of
    [flathunter/crawler/immowelt.py] that turns one entry of the embedded
    search result into an expose.

    Conventions of the embedding.
    - A Python [str] is a [string]; a non-ASCII code point is its UTF-8
      byte sequence.  Every primitive used by the solvers ([in],
      [startswith], [split], [lower] against ASCII needles) gives the same
      answer on both views.
    - A Python value produced by [json.loads] is a [pyval].  Besides
      [json.JSONDecodeError], [json.loads] raises [ValueError] for an
      integer literal with more digits than the interpreter converts and
      [RecursionError] for containers nested deeper than it recurses;
      the two limits are a parameter of everything that decodes.
    - The HTTP backend is a script of replies, consumed one per request;
      every request and every [sleep] is recorded in a trace of events.
    - A decorated method keeps its name; its undecorated body has the
      suffix [_once].  The ceiling of the retry decorator is a
      parameter; as in [backoff], a ceiling of 0 is no ceiling.
    Left out: logging, [TwoCaptchaSolver.solve_awswaf] (it hands the work
    to the [twocaptcha] package and stops in [breakpoint()] without a
    return value) and [__submit_2captcha_v2_request] (never called); of
    the crawler, everything that reads the page through BeautifulSoup
    ([get_entries_from_json], [get_expose_details], [extract_data]), the
    JSON paths being taken as given. *)

From Stdlib Require Import String Ascii List Bool Arith NArith ZArith Lia.
From ExtLib Require Import Structures.Monad.
Import ListNotations.
Local Open Scope list_scope.
Local Open Scope string_scope.
Set Warnings "-register-all".

(** ** Python string primitives *)

Module Py.

(** [s.startswith(p)] *)
Fixpoint startswith (s p : string) {struct p} : bool :=
  match p, s with
  | EmptyString, _ => true
  | String a p', String b s' => Ascii.eqb a b && startswith s' p'
  | String _ _, EmptyString => false
  end.

(** [sub in s] *)
Fixpoint contains (sub s : string) : bool :=
  startswith s sub ||
  match s with
  | EmptyString => false
  | String _ s' => contains sub s'
  end.

(** [s.split(sep)] and [s.split(sep, maxsplit)] for a non-empty [sep]
    (every call site passes a non-empty literal).  The scan is left to
    right and non-overlapping: [skip] counts the characters of a matched
    separator still to be dropped, [budget] the splits still allowed
    ([None]: no limit).  The result is the first piece and the others. *)
Fixpoint split_from (sep : string) (budget : option nat) (skip : nat)
         (s : string) : string * list string :=
  match s with
  | EmptyString => (EmptyString, [])
  | String c s' =>
      match skip with
      | S k => split_from sep budget k s'
      | O =>
          let cut :=
            match budget with
            | Some O => false
            | _ => startswith s sep
            end in
          if cut then
            let budget' :=
              match budget with
              | Some (S b) => Some b
              | other => other
              end in
            let '(p, ps) := split_from sep budget' (String.length sep - 1) s' in
            (EmptyString, p :: ps)
          else
            let '(p, ps) := split_from sep budget O s' in
            (String c p, ps)
      end
  end.

Definition split (sep s : string) : list string :=
  let '(p, ps) := split_from sep None O s in p :: ps.

(** [s.count(sep)] for a non-empty [sep]: the occurrences met by the same
    left-to-right, non-overlapping scan. *)
Fixpoint count_from (sep : string) (skip : nat) (s : string) : nat :=
  match s with
  | EmptyString => O
  | String _ s' =>
      match skip with
      | S k => count_from sep k s'
      | O =>
          if startswith s sep
          then S (count_from sep (String.length sep - 1) s')
          else count_from sep O s'
      end
  end.

Definition count (sep s : string) : nat := count_from sep O s.

Definition split_max (sep : string) (maxsplit : nat) (s : string) : list string :=
  let '(p, ps) := split_from sep (Some maxsplit) O s in p :: ps.

(** [c.lower()] on one ASCII character; other bytes are unchanged. *)
Definition lower_ascii (c : ascii) : ascii :=
  let n := nat_of_ascii c in
  if (Nat.leb 65 n && Nat.leb n 90)%bool then ascii_of_nat (n + 32) else c.

(** [s.lower()], used only to look for the ASCII needle [error]; no
    non-ASCII code point lowers to one of the letters e, r, o. *)
Fixpoint lower (s : string) : string :=
  match s with
  | EmptyString => EmptyString
  | String c s' => String (lower_ascii c) (lower s')
  end.

(** [not s] on a string: true exactly on the empty string. *)
Definition is_empty (s : string) : bool :=
  match s with
  | EmptyString => true
  | String _ _ => false
  end.

End Py.

(** ** Exceptions *)

(** The exceptions a solver call can end with.  [HTTPError] and
    [ConnectionError] are [requests.RequestException]s; the two captcha
    errors come from [flathunter.captcha.captcha_solver]; the others are
    Python's own. *)
Inductive exn : Type :=
| HTTPError
| ConnectionError
| CaptchaUnsolvableError
| CaptchaBalanceEmpty
| JSONDecodeError
| KeyError
| IndexError
| TypeError
| ValueError
| RecursionError.

(** The spec's error taxonomy and the exceptions that stand for its kinds. *)
Inductive error_kind : Type :=
| TransientServiceError
| BalanceExhaustedError
| ChallengeUnsolvableError
| UnsupportedOperationError.

Definition classify (e : exn) : option error_kind :=
  match e with
  | HTTPError | ConnectionError => Some TransientServiceError
  | CaptchaBalanceEmpty => Some BalanceExhaustedError
  | CaptchaUnsolvableError => Some ChallengeUnsolvableError
  | JSONDecodeError | KeyError | IndexError | TypeError | ValueError
  | RecursionError => None
  end.

(** Result of a pure Python expression: a value or a raised exception. *)
Definition pure (A : Type) : Type := (exn + A)%type.

#[export] Instance Monad_pure : Monad pure := {
  ret := fun A (a : A) => inr a;
  bind := fun A B (c : pure A) (k : A -> pure B) =>
    match c with
    | inl e => inl e
    | inr a => k a
    end
}.

(** [try: body  except E: handler], [caught] telling the exceptions of
    class [E]. *)
Definition try_except {A} (body : pure A) (caught : exn -> bool)
           (handler : pure A) : pure A :=
  match body with
  | inl e => if caught e then handler else inl e
  | inr a => inr a
  end.

(** ** Python values and [json.loads] *)

Module Json.

(** The values [json.loads] builds.  A number keeps its lexeme (the
    solvers only compare values with strings and index them); a dict keeps
    its pairs in input order, duplicates included. *)
Inductive pyval : Type :=
| PyNone
| PyBool (b : bool)
| PyNum (lexeme : string)
| PyStr (s : string)
| PyList (items : list pyval)
| PyDict (pairs : list (string * pyval)).

(** What the interpreter allows a decoder: the number of digits an
    integer literal may have when it is converted
    ([sys.get_int_max_str_digits()], 4300 unless configured, [0] for no
    limit), and the number of containers that may be open at once before
    the scanner's recursion check fails (what the interpreter's recursion
    limit leaves at the call). *)
Record limits : Type := mkLimits {
  max_digits : nat;
  max_depth : nat
}.

(** Outcome of a scanner: a value and the unread input; a syntax error
    ([json.JSONDecodeError]); an integer literal with too many digits
    (a plain [ValueError]); containers nested too deep
    ([RecursionError]); or an exhausted budget of the model. *)
Inductive scan (A : Type) : Type :=
| Scanned (a : A) (rest : string)
| SyntaxError
| DigitLimit
| DepthLimit
| OutOfFuel.
Arguments Scanned {A} a rest.
Arguments SyntaxError {A}.
Arguments DigitLimit {A}.
Arguments DepthLimit {A}.
Arguments OutOfFuel {A}.

Definition dquote : ascii := "034"%char.
Definition backslash : ascii := "092"%char.

Definition is_ws (c : ascii) : bool :=
  Ascii.eqb c " " || Ascii.eqb c "009" || Ascii.eqb c "010" || Ascii.eqb c "013".

Fixpoint skip_ws (s : string) : string :=
  match s with
  | String c s' => if is_ws c then skip_ws s' else s
  | EmptyString => s
  end.

Definition is_digit (c : ascii) : bool :=
  let n := nat_of_ascii c in Nat.leb 48 n && Nat.leb n 57.

Definition hex_value (c : ascii) : option N :=
  let n := N_of_ascii c in
  if ((48 <=? n) && (n <=? 57))%N then Some (n - 48)%N
  else if ((65 <=? n) && (n <=? 70))%N then Some (n - 55)%N
  else if ((97 <=? n) && (n <=? 102))%N then Some (n - 87)%N
  else None.

Definition hex4 (a b c d : ascii) : option N :=
  match hex_value a, hex_value b, hex_value c, hex_value d with
  | Some x, Some y, Some z, Some w => Some (((x * 16 + y) * 16 + z) * 16 + w)%N
  | _, _, _, _ => None
  end.

Definition byte (n : N) : ascii := ascii_of_N n.

(** UTF-8 bytes of a code point (a lone surrogate gets its three-byte form). *)
Definition utf8 (cp : N) (tail : string) : string :=
  if (cp <? 128)%N then String (byte cp) tail
  else if (cp <? 2048)%N then
    String (byte (192 + cp / 64)%N) (String (byte (128 + cp mod 64)%N) tail)
  else if (cp <? 65536)%N then
    String (byte (224 + cp / 4096)%N)
      (String (byte (128 + (cp / 64) mod 64)%N)
         (String (byte (128 + cp mod 64)%N) tail))
  else
    String (byte (240 + cp / 262144)%N)
      (String (byte (128 + (cp / 4096) mod 64)%N)
         (String (byte (128 + (cp / 64) mod 64)%N)
            (String (byte (128 + cp mod 64)%N) tail))).

Definition is_high_surrogate (cp : N) : bool :=
  ((55296 <=? cp) && (cp <=? 56319))%N.
Definition is_low_surrogate (cp : N) : bool :=
  ((56320 <=? cp) && (cp <=? 57343))%N.

(** Code point of a surrogate pair. *)
Definition join_surrogates (hi lo : N) : N :=
  (65536 + (hi - 55296) * 1024 + (lo - 56320))%N.

(** The character a one-letter escape stands for. *)
Definition simple_escape (e : ascii) : option ascii :=
  if Ascii.eqb e dquote then Some dquote
  else if Ascii.eqb e backslash then Some backslash
  else if Ascii.eqb e "/" then Some "/"%char
  else if Ascii.eqb e "b" then Some "008"%char
  else if Ascii.eqb e "f" then Some "012"%char
  else if Ascii.eqb e "n" then Some "010"%char
  else if Ascii.eqb e "r" then Some "013"%char
  else if Ascii.eqb e "t" then Some "009"%char
  else None.

(** [scanstring] in strict mode, entered after the opening quote. *)
Fixpoint scanstring (s : string) : scan string :=
  match s with
  | EmptyString => SyntaxError
  | String c s1 =>
      if Ascii.eqb c dquote then Scanned EmptyString s1
      else if Ascii.eqb c backslash then
        match s1 with
        | EmptyString => SyntaxError
        | String e s2 =>
            if Ascii.eqb e "u" then
              match s2 with
              | String h1 (String h2 (String h3 (String h4 s6))) =>
                  match hex4 h1 h2 h3 h4 with
                  | None => SyntaxError
                  | Some hi =>
                      let alone :=
                        match scanstring s6 with
                        | Scanned str rest => Scanned (utf8 hi str) rest
                        | other => other
                        end in
                      if is_high_surrogate hi then
                        match s6 with
                        | String b1 (String u1 (String g1 (String g2
                            (String g3 (String g4 s12))))) =>
                            if Ascii.eqb b1 backslash && Ascii.eqb u1 "u" then
                              match hex4 g1 g2 g3 g4 with
                              | None => SyntaxError
                              | Some lo =>
                                  if is_low_surrogate lo then
                                    match scanstring s12 with
                                    | Scanned str rest =>
                                        Scanned
                                          (utf8 (join_surrogates hi lo) str)
                                          rest
                                    | other => other
                                    end
                                  else alone
                              end
                            else alone
                        | _ => alone
                        end
                      else alone
                  end
              | _ => SyntaxError
              end
            else
              match simple_escape e with
              | None => SyntaxError
              | Some ch =>
                  match scanstring s2 with
                  | Scanned str rest => Scanned (String ch str) rest
                  | other => other
                  end
              end
        end
      else if Nat.ltb (nat_of_ascii c) 32 then SyntaxError
      else
        match scanstring s1 with
        | Scanned str rest => Scanned (String c str) rest
        | other => other
        end
  end.

(** Numbers, as the scanner's pattern matches them, greedily: an optional
    minus sign, then a single 0 or a non-zero digit and any digits; then,
    optionally, a dot and one or more digits; then, optionally, e or E, an
    optional sign and one or more digits. *)
Fixpoint take_digits (s : string) : string * string :=
  match s with
  | String c s' =>
      if is_digit c then let '(d, r) := take_digits s' in (String c d, r)
      else (EmptyString, s)
  | EmptyString => (EmptyString, EmptyString)
  end.

Definition int_part (s : string) : option (string * string) :=
  let '(sign, s1) :=
    match s with
    | String c s' => if Ascii.eqb c "-" then ("-", s') else ("", s)
    | EmptyString => ("", s)
    end in
  match s1 with
  | String c s2 =>
      if Ascii.eqb c "0" then Some (sign ++ "0", s2)
      else if is_digit c then
        let '(d, r) := take_digits s2 in Some (sign ++ String c d, r)
      else None
  | EmptyString => None
  end.

Definition frac_part (s : string) : string * string :=
  match s with
  | String c s1 =>
      if Ascii.eqb c "." then
        match take_digits s1 with
        | (EmptyString, _) => (EmptyString, s)
        | (d, r) => (String c d, r)
        end
      else (EmptyString, s)
  | EmptyString => (EmptyString, s)
  end.

Definition exp_part (s : string) : string * string :=
  match s with
  | String e s1 =>
      if Ascii.eqb e "e" || Ascii.eqb e "E" then
        let '(sign, s2) :=
          match s1 with
          | String c s' =>
              if Ascii.eqb c "+" || Ascii.eqb c "-"
              then (String c EmptyString, s') else (EmptyString, s1)
          | EmptyString => (EmptyString, s1)
          end in
        match take_digits s2 with
        | (EmptyString, _) => (EmptyString, s)
        | (d, r) => (String e (sign ++ d), r)
        end
      else (EmptyString, s)
  | EmptyString => (EmptyString, s)
  end.

Definition match_number (s : string) : option (string * string) :=
  match int_part s with
  | None => None
  | Some (i, r1) =>
      let '(f, r2) := frac_part r1 in
      let '(e, r3) := exp_part r2 in
      Some (i ++ f ++ e, r3)
  end.

(** [s[len(p):]] when [s] starts with [p]. *)
Fixpoint strip_prefix (p s : string) : option string :=
  match p, s with
  | EmptyString, _ => Some s
  | String a p', String b s' => if Ascii.eqb a b then strip_prefix p' s' else None
  | String _ _, EmptyString => None
  end.

(** The digits of an integer lexeme; [None] for the lexeme of a float. *)
Fixpoint int_digits (lexeme : string) : option nat :=
  match lexeme with
  | EmptyString => Some O
  | String c more =>
      if is_digit c then option_map S (int_digits more)
      else if Ascii.eqb c "-" then int_digits more
      else None
  end.

(** [int(lexeme)] refuses more than [max] digits, unless [max] is 0. *)
Definition over_limit (max digits : nat) : bool :=
  negb (Nat.eqb max 0) && Nat.ltb max digits.

Section Scanner.

Variable l : limits.

(** The non-container, non-string cases of [scan_once], in its order:
    the three keywords, a number, then the three non-finite literals.  An
    integer is converted as soon as it is matched. *)
Definition scan_atom (s : string) : scan pyval :=
  match strip_prefix "null" s with
  | Some r => Scanned PyNone r
  | None =>
  match strip_prefix "true" s with
  | Some r => Scanned (PyBool true) r
  | None =>
  match strip_prefix "false" s with
  | Some r => Scanned (PyBool false) r
  | None =>
  match match_number s with
  | Some (lexeme, r) =>
      match int_digits lexeme with
      | Some digits =>
          if over_limit (max_digits l) digits then DigitLimit
          else Scanned (PyNum lexeme) r
      | None => Scanned (PyNum lexeme) r
      end
  | None =>
  match strip_prefix "NaN" s with
  | Some r => Scanned (PyNum "NaN") r
  | None =>
  match strip_prefix "Infinity" s with
  | Some r => Scanned (PyNum "Infinity") r
  | None =>
  match strip_prefix "-Infinity" s with
  | Some r => Scanned (PyNum "-Infinity") r
  | None => SyntaxError
  end end end end end end end.

Definition and_then {A B} (r : scan A) (k : A -> string -> scan B) : scan B :=
  match r with
  | Scanned a rest => k a rest
  | SyntaxError => SyntaxError
  | DigitLimit => DigitLimit
  | DepthLimit => DepthLimit
  | OutOfFuel => OutOfFuel
  end.

(** [scan_once], [JSONArray] and [JSONObject].  [array_items] is entered
    at the first character of an item, [object_pairs] just after the
    opening quote of a key.  [depth] is the number of containers that may
    still be opened: the recursion check is made at the opening bracket,
    before the container is read. *)
Fixpoint scan_once (fuel depth : nat) (s : string) : scan pyval :=
  match fuel with
  | O => OutOfFuel
  | S f =>
      match s with
      | EmptyString => SyntaxError
      | String c s' =>
          if Ascii.eqb c dquote then
            and_then (scanstring s') (fun str r => Scanned (PyStr str) r)
          else if Ascii.eqb c "{" then
            match depth with
            | O => DepthLimit
            | S deeper =>
                match skip_ws s' with
                | String d s2 =>
                    if Ascii.eqb d "}" then Scanned (PyDict []) s2
                    else if Ascii.eqb d dquote then
                      and_then (object_pairs f deeper s2)
                               (fun ps r => Scanned (PyDict ps) r)
                    else SyntaxError
                | EmptyString => SyntaxError
                end
            end
          else if Ascii.eqb c "[" then
            match depth with
            | O => DepthLimit
            | S deeper =>
                match skip_ws s' with
                | String d s2 =>
                    if Ascii.eqb d "]" then Scanned (PyList []) s2
                    else
                      and_then (array_items f deeper (String d s2))
                               (fun vs r => Scanned (PyList vs) r)
                | EmptyString => SyntaxError
                end
            end
          else scan_atom s
      end
  end

with array_items (fuel depth : nat) (s : string) : scan (list pyval) :=
  match fuel with
  | O => OutOfFuel
  | S f =>
      and_then (scan_once f depth s) (fun v r =>
        match skip_ws r with
        | String d r' =>
            if Ascii.eqb d "]" then Scanned [v] r'
            else if Ascii.eqb d "," then
              and_then (array_items f depth (skip_ws r'))
                       (fun vs r2 => Scanned (v :: vs) r2)
            else SyntaxError
        | EmptyString => SyntaxError
        end)
  end

with object_pairs (fuel depth : nat) (s : string)
  : scan (list (string * pyval)) :=
  match fuel with
  | O => OutOfFuel
  | S f =>
      and_then (scanstring s) (fun key r =>
        match skip_ws r with
        | String d r1 =>
            if Ascii.eqb d ":" then
              and_then (scan_once f depth (skip_ws r1)) (fun v r2 =>
                match skip_ws r2 with
                | String e r3 =>
                    if Ascii.eqb e "}" then Scanned [(key, v)] r3
                    else if Ascii.eqb e "," then
                      match skip_ws r3 with
                      | String q r4 =>
                          if Ascii.eqb q dquote then
                            and_then (object_pairs f depth r4)
                                     (fun ps r5 => Scanned ((key, v) :: ps) r5)
                          else SyntaxError
                      | EmptyString => SyntaxError
                      end
                    else SyntaxError
                | EmptyString => SyntaxError
                end)
            else SyntaxError
        | EmptyString => SyntaxError
        end)
  end.

(** [JSONDecoder.decode]: leading blanks, one value, trailing blanks, end
    of input.  The budget is two per character and two to spare: every
    call either consumes a character or is the first call on an item. *)
Definition decode (s : string) : scan pyval :=
  and_then (scan_once (2 * String.length s + 2) (max_depth l) (skip_ws s))
           (fun v rest =>
              match skip_ws rest with
              | EmptyString => Scanned v EmptyString
              | String _ _ => SyntaxError
              end).

(** [json.loads(s)] for a text [s]: the value, or the exception raised.
    [json.JSONDecodeError] is the only one of the three that an
    [except json.decoder.JSONDecodeError] catches.  The model's budget is
    never exhausted (see [decode_never_out_of_fuel]). *)
Definition loads (s : string) : exn + pyval :=
  match decode s with
  | Scanned v _ => inr v
  | SyntaxError => inl JSONDecodeError
  | DigitLimit => inl ValueError
  | DepthLimit => inl RecursionError
  | OutOfFuel => inl RecursionError
  end.

End Scanner.

(** A string literal of JSON source: the text between double quotes. *)
Definition quoted (s : string) : string :=
  String dquote (s ++ String dquote EmptyString).

End Json.
Export Json.

(** ** Subscripting and response values *)

(** [d[k]] on a dict built from pairs: the last pair with that key. *)
Fixpoint dict_get (pairs : list (string * pyval)) (k : string) : option pyval :=
  match pairs with
  | [] => None
  | (k', v) :: more =>
      match dict_get more k with
      | Some later => Some later
      | None => if String.eqb k' k then Some v else None
      end
  end.

(** [v[i]] for a literal index [i >= 0].  A list gives its item or
    [IndexError]; a string its character; a dict has only string keys, so
    [KeyError]; the other values are not subscriptable. *)
Definition subscript_int (v : pyval) (i : nat) : pure pyval :=
  match v with
  | PyList items =>
      match nth_error items i with
      | Some x => inr x
      | None => inl IndexError
      end
  | PyStr s =>
      match String.get i s with
      | Some c => inr (PyStr (String c EmptyString))
      | None => inl IndexError
      end
  | PyDict _ => inl KeyError
  | PyNone | PyBool _ | PyNum _ => inl TypeError
  end.

(** [v[k]] for a string key [k].  Only a dict accepts it. *)
Definition subscript_str (v : pyval) (k : string) : pure pyval :=
  match v with
  | PyDict pairs =>
      match dict_get pairs k with
      | Some x => inr x
      | None => inl KeyError
      end
  | PyList _ | PyStr _ | PyNone | PyBool _ | PyNum _ => inl TypeError
  end.

(** [v == s] for a string literal [s]. *)
Definition eq_str (v : pyval) (s : string) : bool :=
  match v with
  | PyStr t => String.eqb t s
  | _ => false
  end.

(** [parts[i]] on the list [str.split] returns. *)
Definition part (parts : list string) (i : nat) : pure string :=
  match nth_error parts i with
  | Some p => inr p
  | None => inl IndexError
  end.

(** Modelled from the spec: the response classes are declared in
    [flathunter/captcha/captcha_solver.py], which is not among the
    sources.  Spec 3: the GeeTest response is (challenge, validate,
    seccode), the reCAPTCHA response a single token.  A field holds
    whatever value the solver passes to the constructor. *)
Record GeetestResponse : Type := mkGeetestResponse {
  challenge : pyval;
  validate : pyval;
  seccode : pyval
}.

Record RecaptchaResponse : Type := mkRecaptchaResponse {
  token : pyval
}.

(** ** The scripted backend *)

Module Net.

Inductive reply : Type :=
| Text (body : string)
| Unreachable.

Inductive method : Type := GET | POST.

Record request : Type := mkRequest {
  verb : method;
  url : string;
  params : list (string * string);
  data : list (string * string)
}.

Inductive event : Type :=
| Sent (rq : request)
| Slept (seconds : Z)
| BackedOff.

(** How a call ends: it returns, it raises, or the script has no reply
    left for a request it is waiting on. *)
Inductive outcome (A : Type) : Type :=
| Returned (a : A)
| Raised (e : exn)
| Starved.
Arguments Returned {A} a.
Arguments Raised {A} e.
Arguments Starved {A}.

Record run (A : Type) : Type := mkRun {
  out : outcome A;
  trace : list event;
  unread : list reply
}.
Arguments mkRun {A} out trace unread.
Arguments out {A} r.
Arguments trace {A} r.
Arguments unread {A} r.

Definition M (A : Type) : Type := list reply -> run A.

(** Events [evs] happened, then [r]. *)
Definition after {A} (evs : list event) (r : run A) : run A :=
  mkRun (out r) (evs ++ trace r)%list (unread r).

Definition raise {A} (e : exn) : M A := fun script => mkRun (Raised e) [] script.

#[export] Instance Monad_M : Monad M := {
  ret := fun A (a : A) script => mkRun (Returned a) [] script;
  bind := fun A B (c : M A) (k : A -> M B) script =>
    let r := c script in
    match out r with
    | Returned a => after (trace r) (k a (unread r))
    | Raised e => mkRun (Raised e) (trace r) (unread r)
    | Starved => mkRun Starved (trace r) (unread r)
    end
}.

Definition lift {A} (p : pure A) : M A :=
  match p with
  | inl e => raise e
  | inr a => ret a
  end.

(** [requests.post] / [requests.get]: the response text, or a transport
    failure. *)
Definition send (rq : request) : M string :=
  fun script =>
    match script with
    | [] => mkRun Starved [Sent rq] []
    | Text body :: rest => mkRun (Returned body) [Sent rq] rest
    | Unreachable :: rest => mkRun (Raised ConnectionError) [Sent rq] rest
    end.

(** [time.sleep] *)
Definition sleep (seconds : Z) : M unit :=
  fun script => mkRun (Returned tt) [Slept seconds] script.

Definition sends (evs : list event) : nat :=
  List.length (filter (fun e => match e with Sent _ => true | _ => false end) evs).

Definition sleeps (evs : list event) : list Z :=
  flat_map (fun e => match e with Slept s => [s] | _ => [] end) evs.

Definition backoffs (evs : list event) : nat :=
  List.length (filter (fun e => match e with BackedOff => true | _ => false end) evs).

End Net.
Export Net.

Import MonadNotation.
Local Open Scope monad_scope.

(** ** [urllib.parse.urlparse]: scheme and network location *)

Module Url.

Record parse_result : Type := mkParseResult {
  scheme : string;
  netloc : string
}.

Definition is_c0_or_space (c : ascii) : bool := Nat.leb (nat_of_ascii c) 32.

Fixpoint lstrip (s : string) : string :=
  match s with
  | String c s' => if is_c0_or_space c then lstrip s' else s
  | EmptyString => s
  end.

(** Tabs and line breaks are dropped wherever they stand. *)
Fixpoint remove_unsafe (s : string) : string :=
  match s with
  | String c s' =>
      if Ascii.eqb c "009" || Ascii.eqb c "013" || Ascii.eqb c "010"
      then remove_unsafe s' else String c (remove_unsafe s')
  | EmptyString => s
  end.

Definition is_alpha (c : ascii) : bool :=
  let n := nat_of_ascii c in
  (Nat.leb 65 n && Nat.leb n 90) || (Nat.leb 97 n && Nat.leb n 122).

Definition is_scheme_char (c : ascii) : bool :=
  is_alpha c || Json.is_digit c
  || Ascii.eqb c "+" || Ascii.eqb c "-" || Ascii.eqb c ".".

Fixpoint all_chars (p : ascii -> bool) (s : string) : bool :=
  match s with
  | String c s' => p c && all_chars p s'
  | EmptyString => true
  end.

Fixpoint has_char (a : ascii) (s : string) : bool :=
  match s with
  | String c s' => Ascii.eqb c a || has_char a s'
  | EmptyString => false
  end.

(** [(url[:i], url[i+1:])] for [i = url.find(':')], when there is one. *)
Fixpoint cut_at_colon (s : string) : option (string * string) :=
  match s with
  | String c s' =>
      if Ascii.eqb c ":" then Some (EmptyString, s')
      else
        match cut_at_colon s' with
        | Some (head, rest) => Some (String c head, rest)
        | None => None
        end
  | EmptyString => None
  end.

(** The scheme is split off when the text before the first colon is not
    empty, starts with an ASCII letter and has scheme characters only. *)
Definition split_scheme (url : string) : string * string :=
  match cut_at_colon url with
  | Some (String c0 more, rest) =>
      if is_alpha c0 && all_chars is_scheme_char (String c0 more)
      then (Py.lower (String c0 more), rest)
      else (EmptyString, url)
  | _ => (EmptyString, url)
  end.

(** [_splitnetloc]: up to the first of the delimiters [/], [?], [#]. *)
Fixpoint take_netloc (s : string) : string * string :=
  match s with
  | String c s' =>
      if Ascii.eqb c "/" || Ascii.eqb c "?" || Ascii.eqb c "#"
      then (EmptyString, s)
      else let '(n, r) := take_netloc s' in (String c n, r)
  | EmptyString => (EmptyString, EmptyString)
  end.

Definition is_ascii (c : ascii) : bool := Nat.ltb (nat_of_ascii c) 128.

Section Validators.

(** Two checks of the library are taken as given: the validation of a
    bracketed host ([_check_bracketed_netloc]) and the normalisation
    check [_checknetloc] makes on a network location that is not
    ASCII.  Each answers whether the location passes. *)
Variable bracketed_ok : string -> bool.
Variable normalised_ok : string -> bool.

Definition check_netloc (loc : string) : pure unit :=
  let open := has_char "[" loc in
  let close := has_char "]" loc in
  if (open && negb close) || (close && negb open) then inl ValueError
  else if open && close && negb (bracketed_ok loc) then inl ValueError
  else if Py.is_empty loc || all_chars is_ascii loc then inr tt
  else if normalised_ok loc then inr tt
  else inl ValueError.

(** [urlparse(url)], restricted to the two fields the solver reads. *)
Definition urlparse (url : string) : pure parse_result :=
  let url := remove_unsafe (lstrip url) in
  let '(sch, url) := split_scheme url in
  match url with
  | String a (String b after_slashes) =>
      if Ascii.eqb a "/" && Ascii.eqb b "/" then
        let '(loc, _) := take_netloc after_slashes in
        _ <- check_netloc loc ;;
        ret (mkParseResult sch loc)
      else ret (mkParseResult sch EmptyString)
  | _ => ret (mkParseResult sch EmptyString)
  end.

End Validators.

End Url.

(** ** The retry decorator *)

(** Modelled from the spec: [CaptchaSolver.backoff_options] is declared
    in [flathunter/captcha/captcha_solver.py], which is not among the
    sources.  Spec 4.3: the retryable errors are the transient ones,
    every other error propagates at once. *)
Definition retryable (e : exn) : bool :=
  match classify e with
  | Some TransientServiceError => true
  | _ => false
  end.

(** The decorator's loop with at most [tries] attempts (one attempt is
    always made).  After a retryable failure with an attempt left the
    decorator waits and calls the function again, on the replies not read
    so far. *)
Fixpoint attempts {A} (tries : nat) (f : M A) (script : list reply)
  : run A :=
  let r := f script in
  match tries with
  | S (S _ as left) =>
      match out r with
      | Raised e =>
          if retryable e
          then after (trace r ++ [BackedOff]) (attempts left f (unread r))
          else r
      | _ => r
      end
  | _ => r
  end.

(** [backoff.on_exception] with the ceiling [max_tries].  The decorator
    counts the attempts from one and gives up when the count equals the
    ceiling; a ceiling of 0 is never equalled, so with it the function is
    called again after every retryable failure.  A decorated method
    sends its request before it can fail, so each failed attempt has read
    a reply, and a script allows at most one attempt more than it has
    replies: that many are given to the loop without a ceiling, and they
    are never used up (see [on_exception_without_ceiling]). *)
Definition on_exception {A} (max_tries : nat) (f : M A)
           (script : list reply) : run A :=
  match max_tries with
  | O => attempts (S (List.length script)) f script
  | S _ => attempts max_tries f script
  end.

(** ** [ImageTyperzSolver] *)

Module ImageTyperz.

Definition BASE_URL : string := "http://captchatypers.com".

Section Solver.

(** The interpreter's limits, [self.api_key], the attempt ceiling of the
    retry decorator, and the two library checks of [Url]. *)
Variable limits : Json.limits.
Variable api_key : string.
Variable max_tries : nat.
Variable bracketed_ok : string -> bool.
Variable normalised_ok : string -> bool.

(** Body of [__submit_imagetyperz_request]. *)
Definition submit_imagetyperz_request_once
           (submit_url : string) (params : list (string * string))
  : M string :=
  text <- send (mkRequest POST submit_url params params) ;;
  if Py.contains "error" (Py.lower text) then raise HTTPError
  else ret text.

Definition submit_imagetyperz_request
           (submit_url : string) (params : list (string * string))
  : M string :=
  on_exception max_tries (submit_imagetyperz_request_once submit_url params).

Definition retrieve_params (captcha_id : string) : list (string * string) :=
  [("action", "GETTEXT"); ("token", api_key); ("captchaid", captcha_id)].

Definition retrieve_request (captcha_id : string) : request :=
  mkRequest POST (BASE_URL ++ "/captchaapi/GetCaptchaResponseJson.ashx")
            [] (retrieve_params captcha_id).

(** Body of [__retrieve_imagetyperz_result]: the [while True] loop, one
    iteration per reply of the script. *)
Fixpoint retrieve_imagetyperz_result_once
         (captcha_id : string) (script : list reply) : run pyval :=
  match script with
  | [] => mkRun Starved [Sent (retrieve_request captcha_id)] []
  | Unreachable :: script' =>
      mkRun (Raised ConnectionError) [Sent (retrieve_request captcha_id)]
            script'
  | Text text :: script' =>
      after [Sent (retrieve_request captcha_id)]
        (if Py.is_empty text then raise HTTPError script'
         else
           match Json.loads limits text with
           | inl e => raise e script'
           | inr parsed =>
           match subscript_int parsed 0 with
           | inl e => raise e script'
           | inr response =>
           match subscript_str response "Status" with
           | inl e => raise e script'
           | inr status =>
               if eq_str status "Pending" then
                 after [Slept 5]
                       (retrieve_imagetyperz_result_once captcha_id script')
               else if eq_str status "ERROR: IMAGE_TIMED_OUT" then
                 raise CaptchaUnsolvableError script'
               else if negb (eq_str status "Solved") then
                 raise HTTPError script'
               else lift (subscript_str response "Response") script'
           end end end)
  end.

Definition retrieve_imagetyperz_result (captcha_id : string) : M pyval :=
  on_exception max_tries (retrieve_imagetyperz_result_once captcha_id).

(** [json.loads(result)] on a value: only a string is accepted. *)
Definition json_loads (v : pyval) : pure pyval :=
  match v with
  | PyStr s => Json.loads limits s
  | _ => inl TypeError
  end.

Definition is_JSONDecodeError (e : exn) : bool :=
  match e with
  | JSONDecodeError => true
  | _ => false
  end.

(** The [try] block of [solve_geetest], after [json.loads]. *)
Definition geetest_of_object (untyped_result : pyval) : pure GeetestResponse :=
  c <- subscript_str untyped_result "geetest_challenge" ;;
  v <- subscript_str untyped_result "geetest_validate" ;;
  s <- subscript_str untyped_result "geetest_seccode" ;;
  ret (mkGeetestResponse c v s).

(** The [except] block of [solve_geetest]. *)
Definition geetest_of_parts (parts : list string) : pure GeetestResponse :=
  p0 <- part parts 0 ;;
  p1 <- part parts 1 ;;
  p2 <- part parts 2 ;;
  ret (mkGeetestResponse (PyStr p0) (PyStr p1) (PyStr p2)).

(** The [try]/[except] of [solve_geetest].  The handler runs only after
    [json.loads] accepted [result] as a string, so its other branch is
    never taken. *)
Definition parse_geetest_result (result : pyval) : pure GeetestResponse :=
  try_except
    (untyped_result <- json_loads result ;;
     geetest_of_object untyped_result)
    is_JSONDecodeError
    (match result with
     | PyStr text => geetest_of_parts (Py.split ";;;" text)
     | _ => inl TypeError
     end).

(** The [domain] parameter: [scheme] and [netloc] joined by two slashes. *)
Definition domain_of (uri : Url.parse_result) : string :=
  Url.scheme uri ++ "//" ++ Url.netloc uri.

Definition geetest_params (geetest challenge : string)
           (uri : Url.parse_result) : list (string * string) :=
  [("action", "UPLOADCAPTCHA");
   ("domain", domain_of uri);
   ("challenge", challenge);
   ("gt", geetest);
   ("token", api_key)].

Definition solve_geetest (geetest challenge page_url : string)
  : M GeetestResponse :=
  uri <- lift (Url.urlparse bracketed_ok normalised_ok page_url) ;;
  captcha_id <- submit_imagetyperz_request
                  (BASE_URL ++ "/captchaapi/UploadGeeTestToken.ashx")
                  (geetest_params geetest challenge uri) ;;
  result <- retrieve_imagetyperz_result captcha_id ;;
  lift (parse_geetest_result result).

Definition recaptcha_params (google_site_key page_url : string)
  : list (string * string) :=
  [("action", "UPLOADCAPTCHA");
   ("pageurl", page_url);
   ("googlekey", google_site_key);
   ("token", api_key)].

Definition solve_recaptcha (google_site_key page_url : string)
  : M RecaptchaResponse :=
  captcha_id <- submit_imagetyperz_request
                  (BASE_URL ++ "/captchaapi/UploadRecaptchaToken.ashx")
                  (recaptcha_params google_site_key page_url) ;;
  result <- retrieve_imagetyperz_result captcha_id ;;
  ret (mkRecaptchaResponse result).

End Solver.

End ImageTyperz.

(** ** [TwoCaptchaSolver] *)

Module TwoCaptcha.

Section Solver.

Variable limits : Json.limits.
Variable api_key : string.
Variable max_tries : nat.

Definition submit_request (params : list (string * string)) : request :=
  mkRequest POST "http://2captcha.com/in.php" params [].

(** Body of [__submit_2captcha_v1_request]. *)
Definition submit_2captcha_v1_request_once (params : list (string * string))
  : M string :=
  text <- send (submit_request params) ;;
  if negb (Py.startswith text "OK") then raise HTTPError
  else lift (part (Py.split "|" text) 1).

Definition submit_2captcha_v1_request (params : list (string * string))
  : M string :=
  on_exception max_tries (submit_2captcha_v1_request_once params).

Definition retrieve_params (captcha_id : string) : list (string * string) :=
  [("key", api_key); ("action", "get"); ("id", captcha_id); ("json", "0")].

Definition retrieve_request (captcha_id : string) : request :=
  mkRequest GET "http://2captcha.com/res.php" (retrieve_params captcha_id) [].

(** Body of [__retrieve_2captcha_v1_result]: the [while True] loop, one
    iteration per reply of the script. *)
Fixpoint retrieve_2captcha_v1_result_once
         (captcha_id : string) (script : list reply) : run string :=
  match script with
  | [] => mkRun Starved [Sent (retrieve_request captcha_id)] []
  | Unreachable :: script' =>
      mkRun (Raised ConnectionError) [Sent (retrieve_request captcha_id)]
            script'
  | Text text :: script' =>
      after [Sent (retrieve_request captcha_id)]
        (if Py.contains "CAPCHA_NOT_READY" text then
           after [Slept 5]
                 (retrieve_2captcha_v1_result_once captcha_id script')
         else if Py.contains "ERROR_CAPTCHA_UNSOLVABLE" text then
           raise CaptchaUnsolvableError script'
         else if Py.contains "ERROR_ZERO_BALANCE" text then
           raise CaptchaBalanceEmpty script'
         else if negb (Py.startswith text "OK") then
           raise HTTPError script'
         else lift (part (Py.split_max "|" 1 text) 1) script')
  end.

Definition retrieve_2captcha_v1_result (captcha_id : string) : M string :=
  on_exception max_tries (retrieve_2captcha_v1_result_once captcha_id).

Definition geetest_params (geetest challenge page_url : string)
  : list (string * string) :=
  [("key", api_key);
   ("method", "geetest");
   ("api_server", "api.geetest.com");
   ("gt", geetest);
   ("challenge", challenge);
   ("pageurl", page_url)].

Definition json_loads (s : string) : pure pyval := Json.loads limits s.

Definition solve_geetest (geetest challenge page_url : string)
  : M GeetestResponse :=
  captcha_id <- submit_2captcha_v1_request
                  (geetest_params geetest challenge page_url) ;;
  text <- retrieve_2captcha_v1_result captcha_id ;;
  untyped_result <- lift (json_loads text) ;;
  c <- lift (subscript_str untyped_result "geetest_challenge") ;;
  v <- lift (subscript_str untyped_result "geetest_validate") ;;
  s <- lift (subscript_str untyped_result "geetest_seccode") ;;
  ret (mkGeetestResponse c v s).

Definition recaptcha_params (google_site_key page_url : string)
  : list (string * string) :=
  [("key", api_key);
   ("method", "userrecaptcha");
   ("googlekey", google_site_key);
   ("pageurl", page_url)].

Definition solve_recaptcha (google_site_key page_url : string)
  : M RecaptchaResponse :=
  captcha_id <- submit_2captcha_v1_request
                  (recaptcha_params google_site_key page_url) ;;
  text <- retrieve_2captcha_v1_result captcha_id ;;
  ret (mkRecaptchaResponse (PyStr text)).

End Solver.

End TwoCaptcha.

(** ** Sample backend replies *)

(** A text as the inside of a JSON string literal: quotes and
    backslashes escaped. *)
Fixpoint escaped (s : string) : string :=
  match s with
  | EmptyString => EmptyString
  | String c s' =>
      if Ascii.eqb c dquote || Ascii.eqb c backslash
      then String backslash (String c (escaped s'))
      else String c (escaped s')
  end.

Definition solved_poll (response : string) : string :=
  "[{" ++ quoted "Status" ++ ":" ++ quoted "Solved" ++ ","
       ++ quoted "Response" ++ ":" ++ quoted (escaped response) ++ "}]".

Definition pending_poll : string :=
  "[{" ++ quoted "Status" ++ ":" ++ quoted "Pending" ++ "}]".


(** ** What a poll reply says *)

Module Reply.

Section Parsed.

Variable limits : Json.limits.

(** An ImageTyperz reply [text] that [json.loads] turns into a value
    whose first item is [response], with [status] under its key
    [Status]. *)
Definition reports (text : string) (response status : pyval) : Prop :=
  exists parsed,
    Json.loads limits text = inr parsed
    /\ subscript_int parsed 0 = inr response
    /\ subscript_str response "Status" = inr status.

Definition imagetyperz_pending (text : string) : Prop :=
  exists response, reports text response (PyStr "Pending").


Definition imagetyperz_solved (text : string) (payload : pyval) : Prop :=
  exists response,
    reports text response (PyStr "Solved")
    /\ subscript_str response "Response" = inr payload.

End Parsed.

(** The three markers 2Captcha puts in a reply. *)
Definition NOT_READY : string := "CAPCHA_NOT_READY".
Definition UNSOLVABLE : string := "ERROR_CAPTCHA_UNSOLVABLE".
Definition ZERO_BALANCE : string := "ERROR_ZERO_BALANCE".

Definition marker_free (text : string) : Prop :=
  Py.contains NOT_READY text = false
  /\ Py.contains UNSOLVABLE text = false
  /\ Py.contains ZERO_BALANCE text = false.

(** A 2Captcha success reply: the prefix, a pipe, the payload. *)
Definition twocaptcha_ok (payload : string) : string := "OK|" ++ payload.

End Reply.

(** The GeeTest payload of the spec, as JSON text and as separated text. *)
Definition geetest_json : string :=
  "{" ++ quoted "geetest_challenge" ++ ":" ++ quoted "a" ++ ","
      ++ quoted "geetest_validate" ++ ":" ++ quoted "b" ++ ","
      ++ quoted "geetest_seccode" ++ ":" ++ quoted "c" ++ "}".

Definition geetest_separated : string := "a;;;b;;;c".

(** A sample interpreter: CPython's default digit limit, and room for a
    thousand open containers. *)
Definition cpython : Json.limits := Json.mkLimits 4300 1000.

(** The same interpreter with the digit limit switched off. *)
Definition cpython_unlimited : Json.limits := Json.mkLimits 0 1000.

(** [c * n] *)
Fixpoint times (c : ascii) (n : nat) : string :=
  match n with
  | O => EmptyString
  | S k => String c (times c k)
  end.

(** An integer literal of 4301 digits, alone and in front of separated
    text. *)
Definition overlong_integer : string := times "1" 4301.
Definition overlong_two_pieces : string := overlong_integer ++ ";;;b".
Definition overlong_three_pieces : string := overlong_integer ++ ";;;b;;;c".


Definition geetest_abc : GeetestResponse :=
  mkGeetestResponse (PyStr "a") (PyStr "b") (PyStr "c").

(** The value a request parameter list gives to a name. *)
Fixpoint param (ps : list (string * string)) (name : string) : option string :=
  match ps with
  | [] => None
  | (k, v) :: more => if String.eqb k name then Some v else param more name
  end.

(** A scanner result that did not exhaust its budget and, when it is a
    success, left fewer than [n] characters unread. *)
Definition consumes {A : Type} (r : scan A) (n : nat) : Prop :=
  match r with
  | Scanned _ rest => String.length rest < n
  | SyntaxError | DigitLimit | DepthLimit => True
  | OutOfFuel => False
  end.

(** ** Shapes of traces *)

(** The trace of a poll for one job: requests [rq], each but the last
    followed by one sleep of five seconds or by one wait of the retry
    decorator. *)
Inductive poll_trace (rq : request) : list event -> Prop :=
| poll_last : poll_trace rq [Sent rq]
| poll_sleep (evs : list event) :
    poll_trace rq evs -> poll_trace rq (Sent rq :: Slept 5 :: evs)
| poll_wait (evs : list event) :
    poll_trace rq evs -> poll_trace rq (Sent rq :: BackedOff :: evs).

(** Every request of a trace satisfies [P]. *)
Definition requests_satisfy (P : request -> Prop) (evs : list event) : Prop :=
  Forall (fun e => match e with Sent rq => P rq | _ => True end) evs.

(** ** [Immowelt.extract_entry_from_json] *)

Module Immowelt.

(** The exceptions the extraction can end with. *)
Inductive failure : Type :=
| AttributeError
| UnicodeEncodeError.

Definition attempt (A : Type) : Type := (failure + A)%type.

#[export] Instance Monad_attempt : Monad attempt := {
  ret := fun A (a : A) => inr a;
  bind := fun A B (c : attempt A) (k : A -> attempt B) =>
    match c with
    | inl e => inl e
    | inr a => k a
    end
}.

Definition utf8_text (bytes : list nat) : string :=
  string_of_list_ascii (map ascii_of_nat bytes).

(** The characters [str.strip] removes, each in UTF-8: U+0009 to U+000D,
    U+001C to U+0020, U+0085, U+00A0, U+1680, U+2000 to U+200A, U+2028,
    U+2029, U+202F, U+205F and U+3000. *)
Definition whitespace : list string :=
  map utf8_text
      [[9]; [10]; [11]; [12]; [13]; [28]; [29]; [30]; [31]; [32];
       [194; 133]; [194; 160]; [225; 154; 128];
       [226; 128; 128]; [226; 128; 129]; [226; 128; 130]; [226; 128; 131];
       [226; 128; 132]; [226; 128; 133]; [226; 128; 134]; [226; 128; 135];
       [226; 128; 136]; [226; 128; 137]; [226; 128; 138];
       [226; 128; 168]; [226; 128; 169]; [226; 128; 175];
       [226; 129; 159]; [227; 128; 128]].

Fixpoint rev_text (s acc : string) : string :=
  match s with
  | EmptyString => acc
  | String c s' => rev_text s' (String c acc)
  end.

(** The length of the first of [codes] that [s] starts with. *)
Fixpoint code_at_front (codes : list string) (s : string) : option nat :=
  match codes with
  | [] => None
  | code :: more =>
      if Py.startswith s code then Some (String.length code)
      else code_at_front more s
  end.

(** Drop the characters of [codes] from the front of [s]; [skip] counts
    the bytes of a matched character still to be dropped. *)
Fixpoint strip_front (codes : list string) (skip : nat) (s : string)
  : string :=
  match s with
  | EmptyString => EmptyString
  | String _ s' =>
      match skip with
      | S k => strip_front codes k s'
      | O =>
          match code_at_front codes s with
          | Some n => strip_front codes (n - 1) s'
          | None => s
          end
      end
  end.

Definition lstrip (s : string) : string := strip_front whitespace O s.

Definition rstrip (s : string) : string :=
  rev_text
    (strip_front (map (fun code => rev_text code EmptyString) whitespace) O
       (rev_text s EmptyString))
    EmptyString.

(** [s.strip()] *)
Definition strip (s : string) : string := rstrip (lstrip s).

(** [sep.join(parts)] *)
Fixpoint join (sep : string) (parts : list string) : string :=
  match parts with
  | [] => EmptyString
  | [p] => p
  | p :: more => p ++ sep ++ join sep more
  end.

(** A lone surrogate, which [str.encode('utf-8')] refuses: in the byte
    view, the byte 237 followed by a byte from 160 to 191. *)
Fixpoint has_surrogate (s : string) : bool :=
  match s with
  | EmptyString => false
  | String c s' =>
      match s' with
      | String d _ =>
          (Nat.eqb (nat_of_ascii c) 237
           && Nat.leb 160 (nat_of_ascii d) && Nat.leb (nat_of_ascii d) 191)
          || has_surrogate s'
      | EmptyString => false
      end
  end.

Definition FALLBACK_IMAGE_URL : string :=
  "https://www.static-immobilienscout24.de/statpic/placeholder_house/"
  ++ "496c95154de31a357afa978cdb7f15f0_placeholder_medium.png".

(** The dict an entry is turned into. *)
Record expose : Type := mkExpose {
  id : N;
  url : string;
  image : pyval;
  images : list pyval;
  title : pyval;
  address : string;
  crawler : string;
  price : string;
  total_price : string;
  size : string;
  rooms : string
}.

Section Crawler.

(** Taken as given: the SHA-256 digest of a text's UTF-8 bytes, read as a
    number ([int(hexdigest, 16)]); [str(v)] for a value that is not a
    string; whether a number is zero; the values the four JSON paths of
    the class find in an entry; and the crawler's name. *)
Variable sha256 : string -> N.
Variable str_of : pyval -> string.
Variable is_zero : string -> bool.
Variable find_images : pyval -> list pyval.
Variable find_cold_rent : pyval -> list pyval.
Variable find_warm_rent : pyval -> list pyval.
Variable find_area : pyval -> list pyval.
Variable get_name : string.

(** [str(v)], and [v] inside an f-string. *)
Definition text_of (v : pyval) : string :=
  match v with
  | PyStr s => s
  | other => str_of other
  end.

(** The truth value of [v]. *)
Definition truthy (v : pyval) : bool :=
  match v with
  | PyNone => false
  | PyBool b => b
  | PyNum lexeme => negb (is_zero lexeme)
  | PyStr s => negb (Py.is_empty s)
  | PyList items => match items with [] => false | _ :: _ => true end
  | PyDict pairs => match pairs with [] => false | _ :: _ => true end
  end.

(** [d.get(k, default)] *)
Definition get (d : pyval) (k : string) (default : pyval) : attempt pyval :=
  match d with
  | PyDict pairs =>
      match dict_get pairs k with
      | Some v => inr v
      | None => inr default
      end
  | _ => inl AttributeError
  end.

(** [v.strip()] *)
Definition strip_of (v : pyval) : attempt string :=
  match v with
  | PyStr s => inr (strip s)
  | _ => inl AttributeError
  end.

Definition process_id (hash : pyval) : attempt N :=
  match hash with
  | PyStr s =>
      if has_surrogate s then inl UnicodeEncodeError
      else inr (sha256 s mod 10 ^ 16)%N
  | _ => inl AttributeError
  end.

(** [str(found[0].value) if found else ''] *)
Definition first_text (found : list pyval) : string :=
  match found with
  | first :: _ => text_of first
  | [] => EmptyString
  end.

Definition extract_entry_from_json (entry : pyval) : attempt expose :=
  entry_id <- get entry "onlineId" (PyStr "0") ;;
  processed_id <- process_id entry_id ;;
  let found_images := find_images entry in
  place <- get entry "place" (PyDict []) ;;
  city_value <- get place "city" (PyStr "") ;;
  city <- strip_of city_value ;;
  postcode <- get place "postcode" PyNone ;;
  let city :=
    if truthy postcode then text_of postcode ++ " " ++ city else city in
  district_value <- get place "district" (PyStr "") ;;
  district <- strip_of district_value ;;
  street_value <- get place "street" (PyStr "") ;;
  street <- strip_of street_value ;;
  let joined :=
    join ", "
         (filter (fun part => negb (Py.is_empty part))
                 [street; district; city]) in
  let cold_rent := find_cold_rent entry in
  let warm_rent := find_warm_rent entry in
  let area := find_area entry in
  entry_title <- get entry "title" (PyStr "") ;;
  rooms_min <- get entry "roomsMin" (PyStr "") ;;
  ret (mkExpose
         processed_id
         ("https://www.immowelt.de/expose/" ++ text_of entry_id)
         match found_images with
         | first :: _ => first
         | [] => PyStr FALLBACK_IMAGE_URL
         end
         found_images
         entry_title
         (if Py.is_empty joined then "N/A" else joined)
         get_name
         (first_text cold_rent)
         (first_text warm_rent)
         (first_text area)
         (text_of rooms_min)).

End Crawler.

End Immowelt.

(** An entry of the search result as the crawler expects it: an object
    whose [onlineId], when present, is a text without a lone surrogate,
    and whose [place], when present, is an object whose [city],
    [district] and [street], when present, are texts. *)
Definition text_or_absent (v : option pyval) : bool :=
  match v with
  | None | Some (PyStr _) => true
  | Some _ => false
  end.

Definition well_formed_entry (entry : pyval) : bool :=
  match entry with
  | PyDict pairs =>
      match dict_get pairs "onlineId" with
      | None => true
      | Some (PyStr s) => negb (Immowelt.has_surrogate s)
      | Some _ => false
      end
      && match dict_get pairs "place" with
         | None => true
         | Some (PyDict place) =>
             text_or_absent (dict_get place "city")
             && text_or_absent (dict_get place "district")
             && text_or_absent (dict_get place "street")
         | Some _ => false
         end
  | _ => false
  end.

(** Sample entries. *)
Definition sample_place : pyval :=
  PyDict [("city", PyStr " Berlin ");
          ("postcode", PyStr "10115");
          ("district", PyStr "Mitte");
          ("street", PyStr (String "009" "Invalidenstr. 1"))].

Definition sample_entry : pyval :=
  PyDict [("onlineId", PyStr "2a9x54z"); ("title", PyStr "Altbau");
          ("roomsMin", PyNum "2"); ("place", sample_place)].

(** An attempt of [f] that ends in an error has read a reply. *)
Definition reads_before_failing {A : Type} (f : M A) : Prop :=
  forall (script : list reply) (e : exn),
    out (f script) = Raised e ->
    List.length (unread (f script)) < List.length script.

(** * Properties *)

(** ** The primitives on sample inputs *)

Example split_semis : Py.split ";;;" "a;;;b;;;c" = ["a"; "b"; "c"].
Proof. reflexivity. Qed.

Example split_overlap : Py.split ";;;" "a;;;;b" = ["a"; ";b"].
Proof. reflexivity. Qed.

Example split_max_pipe : Py.split_max "|" 1 "OK|x|y" = ["OK"; "x|y"].
Proof. reflexivity. Qed.

Example split_trailing : Py.split "|" "OK|" = ["OK"; ""].
Proof. reflexivity. Qed.

Example loads_object :
  Json.loads cpython
             ("{" ++ quoted "k" ++ " : [1, -2.5e3, true, null, "
                  ++ quoted "x" ++ "] }")
  = inr (PyDict [("k", PyList [PyNum "1"; PyNum "-2.5e3"; PyBool true;
                                 PyNone; PyStr "x"])]).
Proof. vm_compute. reflexivity. Qed.

Example loads_rejects_text :
  Json.loads cpython "a;;;b;;;c" = inl JSONDecodeError.
Proof. vm_compute. reflexivity. Qed.

Example loads_rejects_trailing_comma :
  Json.loads cpython "[1,]" = inl JSONDecodeError.
Proof. vm_compute. reflexivity. Qed.

Example loads_rejects_empty : Json.loads cpython "" = inl JSONDecodeError.
Proof. vm_compute. reflexivity. Qed.

Example loads_escapes :
  Json.loads cpython (quoted ("a" ++ String backslash (String dquote "bé\n")))
  = inr (PyStr (String "a" (String dquote (String "b"
           (String "195" (String "169" (String "010" EmptyString))))))).
Proof. vm_compute. reflexivity. Qed.

Example urlparse_example :
  forall b n, Url.urlparse b n "https://example.com/page"
              = inr (Url.mkParseResult "https" "example.com").
Proof. reflexivity. Qed.

Example urlparse_upper_scheme_port :
  forall b n, Url.urlparse b n " HTTP://user@Host:8080?q#f"
              = inr (Url.mkParseResult "http" "user@Host:8080").
Proof. reflexivity. Qed.

Example urlparse_no_scheme :
  forall b n, Url.urlparse b n "example.com/page"
              = inr (Url.mkParseResult "" "").
Proof. reflexivity. Qed.

Example urlparse_bad_bracket :
  forall b n, Url.urlparse b n "http://[::1/x" = inl ValueError.
Proof. reflexivity. Qed.

Example imagetyperz_recaptcha_roundtrip :
  out (ImageTyperz.solve_recaptcha cpython "key" 3 "site" "https://example.com/"
         [Text "991"; Text pending_poll; Text (solved_poll "tok")])
  = Returned (mkRecaptchaResponse (PyStr "tok")).
Proof. vm_compute. reflexivity. Qed.

Example twocaptcha_recaptcha_roundtrip :
  out (TwoCaptcha.solve_recaptcha "key" 3 "site" "https://example.com/"
         [Text "OK|991"; Text "CAPCHA_NOT_READY"; Text "OK|tok"])
  = Returned (mkRecaptchaResponse (PyStr "tok")).
Proof. vm_compute. reflexivity. Qed.

(** ** The retry decorator *)

Section OnException.

Context {A : Type}.
Variable f : M A.

(** An attempt that does not end in a retryable error is final. *)
Lemma attempts_final (tries : nat) (script : list reply) :
  (forall e, out (f script) = Raised e -> retryable e = false) ->
  attempts tries f script = f script.
Proof.
  intros Hfinal.
  destruct tries as [|[|left]]; simpl; try reflexivity.
  destruct (out (f script)) as [a|e|] eqn:Hout; try reflexivity.
  rewrite (Hfinal e eq_refl). reflexivity.
Qed.

Lemma attempts_step (left : nat) (script : list reply) :
  attempts (S (S left)) f script
  = match out (f script) with
    | Raised e =>
        if retryable e
        then after (trace (f script) ++ [BackedOff])
                   (attempts (S left) f (unread (f script)))
        else f script
    | _ => f script
    end.
Proof. reflexivity. Qed.

(** The decorator runs the loop, with some number of attempts. *)
Lemma on_exception_attempts (tries : nat) (script : list reply) :
  exists n, on_exception tries f script = attempts n f script.
Proof. destruct tries; eexists; reflexivity. Qed.

Lemma on_exception_final (tries : nat) (script : list reply) :
  (forall e, out (f script) = Raised e -> retryable e = false) ->
  on_exception tries f script = f script.
Proof.
  intros Hfinal. destruct (on_exception_attempts tries script) as [n ->].
  apply attempts_final. exact Hfinal.
Qed.

Lemma on_exception_returned (tries : nat) (script : list reply) (a : A) :
  out (f script) = Returned a ->
  on_exception tries f script = f script.
Proof.
  intros Hout. apply on_exception_final.
  intros e He. rewrite Hout in He. discriminate.
Qed.

Lemma on_exception_raised (tries : nat) (script : list reply) (e : exn) :
  out (f script) = Raised e -> retryable e = false ->
  on_exception tries f script = f script.
Proof.
  intros Hout Hno. apply on_exception_final.
  intros e' He'. rewrite Hout in He'. injection He' as <-. exact Hno.
Qed.

(** A retryable failure with an attempt left: wait, then try again on
    the unread replies. *)
Lemma on_exception_retry (left : nat) (script : list reply) (e : exn) :
  out (f script) = Raised e -> retryable e = true ->
  on_exception (S (S left)) f script
  = after (trace (f script) ++ [BackedOff])
          (on_exception (S left) f (unread (f script))).
Proof.
  intros Hout Hyes. unfold on_exception. simpl.
  rewrite Hout, Hyes. reflexivity.
Qed.

(** On the last attempt the failure is propagated unchanged. *)
Lemma on_exception_last (script : list reply) :
  on_exception 1 f script = f script.
Proof. reflexivity. Qed.

(** Without a ceiling, a retryable failure that has read one reply is
    followed by a wait and another call. *)
Lemma on_exception_retry_without_ceiling
      (r : reply) (rest : list reply) (evs : list event) (e : exn) :
  f (r :: rest) = mkRun (Raised e) evs rest -> retryable e = true ->
  on_exception 0 f (r :: rest)
  = after (evs ++ [BackedOff]) (on_exception 0 f rest).
Proof.
  intros Hrun Hyes. unfold on_exception. cbn [List.length attempts].
  rewrite Hrun. cbn [out trace unread]. rewrite Hyes. reflexivity.
Qed.

End OnException.

Lemma after_nil {A} (r : run A) : after [] r = r.
Proof. destruct r; reflexivity. Qed.

(** ** Empty poll bodies (ImageTyperz) *)

(** C8. A poll reply with an empty body makes the ImageTyperz poll raise
    [requests.HTTPError], the transient kind, after that one request: the
    loop neither returns nor sleeps and polls again.  The error is
    retryable: with an attempt left the decorator backs off and polls
    again; on the last attempt it propagates. *)
Theorem C8_empty_poll_body_raises_transient (limits : Json.limits) :
  forall (api_key captcha_id : string) (rest : list reply),
    ImageTyperz.retrieve_imagetyperz_result_once limits api_key captcha_id
      (Text "" :: rest)
    = mkRun (Raised HTTPError)
            [Sent (ImageTyperz.retrieve_request api_key captcha_id)] rest
    /\ classify HTTPError = Some TransientServiceError
    /\ retryable HTTPError = true
    /\ (forall left,
          ImageTyperz.retrieve_imagetyperz_result limits api_key (S (S left))
            captcha_id (Text "" :: rest)
          = after [Sent (ImageTyperz.retrieve_request api_key captcha_id);
                   BackedOff]
                  (ImageTyperz.retrieve_imagetyperz_result limits api_key (S
                     left) captcha_id rest))
    /\ ImageTyperz.retrieve_imagetyperz_result limits api_key 1 captcha_id
         (Text "" :: rest)
       = mkRun (Raised HTTPError)
               [Sent (ImageTyperz.retrieve_request api_key captcha_id)] rest.
Proof.
  intros api_key captcha_id rest.
  repeat split; try reflexivity.
Qed.

(** ** One iteration of the poll loops *)

Lemma loads_some_not_empty (limits : Json.limits) (text : string)
      (parsed : pyval) :
  Json.loads limits text = inr parsed -> Py.is_empty text = false.
Proof. destruct text; [discriminate | reflexivity]. Qed.

(** What the ImageTyperz loop does on a reply that reports a status. *)
Lemma imagetyperz_poll_reports (limits : Json.limits)
      (api_key captcha_id text : string) (response status : pyval)
      (rest : list reply) :
  Reply.reports limits text response status ->
  ImageTyperz.retrieve_imagetyperz_result_once limits api_key captcha_id
    (Text text :: rest)
  = after [Sent (ImageTyperz.retrieve_request api_key captcha_id)]
      (if eq_str status "Pending" then
         after [Slept 5]
           (ImageTyperz.retrieve_imagetyperz_result_once limits api_key
              captcha_id rest)
       else if eq_str status "ERROR: IMAGE_TIMED_OUT" then
         raise CaptchaUnsolvableError rest
       else if negb (eq_str status "Solved") then raise HTTPError rest
       else lift (subscript_str response "Response") rest).
Proof.
  intros (parsed & Hloads & Hitem & Hstatus).
  simpl. rewrite (loads_some_not_empty _ _ _ Hloads), Hloads, Hitem, Hstatus.
  reflexivity.
Qed.

Lemma imagetyperz_poll_pending (limits : Json.limits)
      (api_key captcha_id text : string) (rest : list reply) :
  Reply.imagetyperz_pending limits text ->
  ImageTyperz.retrieve_imagetyperz_result_once limits api_key captcha_id
    (Text text :: rest)
  = after [Sent (ImageTyperz.retrieve_request api_key captcha_id); Slept 5]
      (ImageTyperz.retrieve_imagetyperz_result_once limits api_key captcha_id
          rest).
Proof.
  intros (response & Hreports).
  rewrite (imagetyperz_poll_reports _ _ _ _ _ _ _ Hreports). simpl.
  destruct (ImageTyperz.retrieve_imagetyperz_result_once _ _ _ rest);
    reflexivity.
Qed.

Lemma imagetyperz_poll_solved (limits : Json.limits)
      (api_key captcha_id text : string) (payload : pyval) (rest : list reply) :
  Reply.imagetyperz_solved limits text payload ->
  ImageTyperz.retrieve_imagetyperz_result_once limits api_key captcha_id
    (Text text :: rest)
  = mkRun (Returned payload)
          [Sent (ImageTyperz.retrieve_request api_key captcha_id)] rest.
Proof.
  intros (response & Hreports & Hpayload).
  rewrite (imagetyperz_poll_reports _ _ _ _ _ _ _ Hreports). simpl.
  rewrite Hpayload. reflexivity.
Qed.


Lemma twocaptcha_poll_pending
      (api_key captcha_id text : string) (rest : list reply) :
  Py.contains Reply.NOT_READY text = true ->
  TwoCaptcha.retrieve_2captcha_v1_result_once api_key captcha_id
    (Text text :: rest)
  = after [Sent (TwoCaptcha.retrieve_request api_key captcha_id); Slept 5]
      (TwoCaptcha.retrieve_2captcha_v1_result_once api_key captcha_id rest).
Proof.
  intros Hpending. simpl. unfold Reply.NOT_READY in Hpending.
  rewrite Hpending.
  destruct (TwoCaptcha.retrieve_2captcha_v1_result_once _ _ rest);
    reflexivity.
Qed.

(** ** Splitting at pipes *)

(** With no split left the rest of the text is one piece. *)
Lemma split_from_exhausted (sep s : string) :
  Py.split_from sep (Some 0) 0 s = (s, []).
Proof.
  induction s as [|c s IH]; simpl; [reflexivity|].
  rewrite IH. reflexivity.
Qed.

Lemma split_max_ok (payload : string) :
  Py.split_max "|" 1 (Reply.twocaptcha_ok payload) = ["OK"; payload].
Proof.
  unfold Py.split_max, Reply.twocaptcha_ok. simpl.
  rewrite split_from_exhausted. reflexivity.
Qed.

Lemma marker_free_ok (payload : string) :
  Reply.marker_free payload ->
  Reply.marker_free (Reply.twocaptcha_ok payload).
Proof.
  unfold Reply.marker_free, Reply.twocaptcha_ok. simpl. tauto.
Qed.

(** What the 2Captcha loop does on a reply without markers. *)
Lemma twocaptcha_poll_marker_free
      (api_key captcha_id text : string) (rest : list reply) :
  Reply.marker_free text ->
  TwoCaptcha.retrieve_2captcha_v1_result_once api_key captcha_id
    (Text text :: rest)
  = after [Sent (TwoCaptcha.retrieve_request api_key captcha_id)]
      (if negb (Py.startswith text "OK") then raise HTTPError rest
       else lift (part (Py.split_max "|" 1 text) 1) rest).
Proof.
  intros (Hready & Hunsolvable & Hbalance).
  unfold Reply.NOT_READY in Hready. unfold Reply.UNSOLVABLE in Hunsolvable.
  unfold Reply.ZERO_BALANCE in Hbalance.
  simpl. rewrite Hready, Hunsolvable, Hbalance. reflexivity.
Qed.

Lemma twocaptcha_poll_solved
      (api_key captcha_id payload : string) (rest : list reply) :
  Reply.marker_free payload ->
  TwoCaptcha.retrieve_2captcha_v1_result_once api_key captcha_id
    (Text (Reply.twocaptcha_ok payload) :: rest)
  = mkRun (Returned payload)
          [Sent (TwoCaptcha.retrieve_request api_key captcha_id)] rest.
Proof.
  intros Hfree.
  rewrite (twocaptcha_poll_marker_free _ _ _ _ (marker_free_ok _ Hfree)).
  rewrite split_max_ok. reflexivity.
Qed.

(** ** Two pending replies, then a solved one *)

(** C5. When the first two poll replies say pending and the third says
    solved, the poll returns the solved payload after exactly three status
    requests and exactly two sleeps of five seconds, in that order, and
    reads no further reply; the retry decorator adds nothing.  Cut short
    after the first or the second pending reply, the call has not
    returned: it is waiting for the next reply.  This holds for the
    ImageTyperz poll and for the 2Captcha poll. *)
Theorem C5_two_pending_then_solved (limits : Json.limits) :
  forall (api_key captcha_id : string) (max_tries : nat),
    (forall (p1 p2 s : string) (payload : pyval) (rest : list reply),
        Reply.imagetyperz_pending limits p1 ->
        Reply.imagetyperz_pending limits p2 ->
        Reply.imagetyperz_solved limits s payload ->
        let rq := Sent (ImageTyperz.retrieve_request api_key captcha_id) in
        let poll :=
          ImageTyperz.retrieve_imagetyperz_result limits api_key max_tries
              captcha_id
        in
        poll (Text p1 :: Text p2 :: Text s :: rest)
        = mkRun (Returned payload) [rq; Slept 5; rq; Slept 5; rq] rest
        /\ sends (trace (poll (Text p1 :: Text p2 :: Text s :: rest))) = 3
        /\ sleeps (trace (poll (Text p1 :: Text p2 :: Text s :: rest)))
           = [5%Z; 5%Z]
        /\ out (poll [Text p1]) = Starved
        /\ out (poll [Text p1; Text p2]) = Starved)
    /\
    (forall (p1 p2 payload : string) (rest : list reply),
        Py.contains Reply.NOT_READY p1 = true ->
        Py.contains Reply.NOT_READY p2 = true ->
        Reply.marker_free payload ->
        let rq := Sent (TwoCaptcha.retrieve_request api_key captcha_id) in
        let poll :=
          TwoCaptcha.retrieve_2captcha_v1_result api_key max_tries captcha_id
        in
        poll (Text p1 :: Text p2 :: Text (Reply.twocaptcha_ok payload) :: rest)
        = mkRun (Returned payload) [rq; Slept 5; rq; Slept 5; rq] rest
        /\ sends (trace (poll (Text p1 :: Text p2
                                 :: Text (Reply.twocaptcha_ok payload) :: rest)))
           = 3
        /\ sleeps (trace (poll (Text p1 :: Text p2
                                  :: Text (Reply.twocaptcha_ok payload) :: rest)))
           = [5%Z; 5%Z]
        /\ out (poll [Text p1]) = Starved
        /\ out (poll [Text p1; Text p2]) = Starved).
Proof.
  intros api_key captcha_id max_tries. split.
  - intros p1 p2 s payload rest H1 H2 Hs rq poll.
    assert (Hrun : poll (Text p1 :: Text p2 :: Text s :: rest)
                   = mkRun (Returned payload) [rq; Slept 5; rq; Slept 5; rq]
                           rest).
    { unfold poll, ImageTyperz.retrieve_imagetyperz_result.
      assert (Honce :
                ImageTyperz.retrieve_imagetyperz_result_once limits api_key
                  captcha_id (Text p1 :: Text p2 :: Text s :: rest)
                = mkRun (Returned payload) [rq; Slept 5; rq; Slept 5; rq] rest).
      { rewrite (imagetyperz_poll_pending _ _ _ _ _ H1).
        rewrite (imagetyperz_poll_pending _ _ _ _ _ H2).
        rewrite (imagetyperz_poll_solved _ _ _ _ _ _ Hs). reflexivity. }
      rewrite (on_exception_returned _ _ _ payload); rewrite Honce; reflexivity. }
    rewrite Hrun. repeat split.
    + unfold poll, ImageTyperz.retrieve_imagetyperz_result.
      rewrite on_exception_final;
        rewrite (imagetyperz_poll_pending _ _ _ _ _ H1); simpl;
        [reflexivity | discriminate].
    + unfold poll, ImageTyperz.retrieve_imagetyperz_result.
      rewrite on_exception_final;
        rewrite (imagetyperz_poll_pending _ _ _ _ _ H1);
        rewrite (imagetyperz_poll_pending _ _ _ _ _ H2); simpl;
        [reflexivity | discriminate].
  - intros p1 p2 payload rest H1 H2 Hfree rq poll.
    assert (Hrun : poll (Text p1 :: Text p2
                           :: Text (Reply.twocaptcha_ok payload) :: rest)
                   = mkRun (Returned payload) [rq; Slept 5; rq; Slept 5; rq]
                           rest).
    { unfold poll, TwoCaptcha.retrieve_2captcha_v1_result.
      assert (Honce :
                TwoCaptcha.retrieve_2captcha_v1_result_once api_key captcha_id
                  (Text p1 :: Text p2
                     :: Text (Reply.twocaptcha_ok payload) :: rest)
                = mkRun (Returned payload) [rq; Slept 5; rq; Slept 5; rq] rest).
      { rewrite (twocaptcha_poll_pending _ _ _ _ H1).
        rewrite (twocaptcha_poll_pending _ _ _ _ H2).
        rewrite (twocaptcha_poll_solved _ _ _ _ Hfree). reflexivity. }
      rewrite (on_exception_returned _ _ _ payload); rewrite Honce; reflexivity. }
    rewrite Hrun. repeat split.
    + unfold poll, TwoCaptcha.retrieve_2captcha_v1_result.
      rewrite on_exception_final;
        rewrite (twocaptcha_poll_pending _ _ _ _ H1); simpl;
        [reflexivity | discriminate].
    + unfold poll, TwoCaptcha.retrieve_2captcha_v1_result.
      rewrite on_exception_final;
        rewrite (twocaptcha_poll_pending _ _ _ _ H1);
        rewrite (twocaptcha_poll_pending _ _ _ _ H2); simpl;
        [reflexivity | discriminate].
Qed.

Lemma pending_poll_is_pending : Reply.imagetyperz_pending cpython pending_poll.
Proof.
  unfold Reply.imagetyperz_pending, Reply.reports.
  eexists. eexists. repeat split; vm_compute; reflexivity.
Qed.

Lemma solved_poll_is_solved :
  Reply.imagetyperz_solved cpython (solved_poll "tok") (PyStr "tok").
Proof.
  unfold Reply.imagetyperz_solved, Reply.reports.
  eexists. split; [eexists; repeat split|]; vm_compute; reflexivity.
Qed.

Lemma tok_marker_free : Reply.marker_free "tok".
Proof. repeat split. Qed.

Lemma C5_two_pending_then_solved_witness :
  ImageTyperz.retrieve_imagetyperz_result cpython "key" 3 "991"
    [Text pending_poll; Text pending_poll; Text (solved_poll "tok")]
  = mkRun (Returned (PyStr "tok"))
          [Sent (ImageTyperz.retrieve_request "key" "991"); Slept 5;
           Sent (ImageTyperz.retrieve_request "key" "991"); Slept 5;
           Sent (ImageTyperz.retrieve_request "key" "991")] []
  /\ TwoCaptcha.retrieve_2captcha_v1_result "key" 3 "991"
       [Text "CAPCHA_NOT_READY"; Text "CAPCHA_NOT_READY"; Text "OK|tok"]
     = mkRun (Returned "tok")
             [Sent (TwoCaptcha.retrieve_request "key" "991"); Slept 5;
              Sent (TwoCaptcha.retrieve_request "key" "991"); Slept 5;
              Sent (TwoCaptcha.retrieve_request "key" "991")] [].
Proof.
  destruct (C5_two_pending_then_solved cpython "key" "991" 3) as [Himagetyperz
      Htwo].
  split.
  - exact (proj1 (Himagetyperz pending_poll pending_poll (solved_poll "tok")
                    (PyStr "tok") [] pending_poll_is_pending
                    pending_poll_is_pending solved_poll_is_solved)).
  - exact (proj1 (Htwo "CAPCHA_NOT_READY" "CAPCHA_NOT_READY" "tok" []
                    eq_refl eq_refl tok_marker_free)).
Defined.

(** ** The pieces between pipes *)

#[local] Arguments Ascii.eqb : simpl never.

Lemma contains_pipe_cons (c : ascii) (s : string) :
  Py.contains "|" (String c s) = Ascii.eqb "|" c || Py.contains "|" s.
Proof. simpl. rewrite andb_true_r. reflexivity. Qed.

Lemma split_pipe_cons (c : ascii) (s : string) :
  Py.split "|" (String c s)
  = if Ascii.eqb "|" c then EmptyString :: Py.split "|" s
    else match Py.split "|" s with
         | p :: ps => String c p :: ps
         | [] => [String c EmptyString]
         end.
Proof.
  unfold Py.split. simpl. rewrite andb_true_r.
  destruct (Ascii.eqb "|" c);
    destruct (Py.split_from "|" None 0 s) as [p ps]; reflexivity.
Qed.

(** A text without a pipe is a single piece. *)
Lemma split_pipe_free (s : string) :
  Py.contains "|" s = false -> Py.split "|" s = [s].
Proof.
  induction s as [|c s IH]; intros Hfree; [reflexivity|].
  rewrite contains_pipe_cons in Hfree. apply orb_false_elim in Hfree.
  destruct Hfree as [Hc Hs].
  rewrite split_pipe_cons, Hc, (IH Hs). reflexivity.
Qed.

(** The first piece is the text before the first pipe, and the other
    pieces are the pieces of the text after it. *)
Lemma split_pipe_first (s : string) :
  Py.contains "|" s = true ->
  exists pre post,
    s = pre ++ "|" ++ post
    /\ Py.contains "|" pre = false
    /\ Py.split "|" s = pre :: Py.split "|" post.
Proof.
  induction s as [|c s IH]; intros Hhas; [discriminate|].
  rewrite contains_pipe_cons in Hhas. rewrite split_pipe_cons.
  destruct (Ascii.eqb "|" c) eqn:Hc.
  - apply Ascii.eqb_eq in Hc. subst c.
    exists EmptyString, s. repeat split.
  - simpl in Hhas. destruct (IH Hhas) as (pre & post & Hs & Hpre & Hsplit).
    exists (String c pre), post. rewrite Hsplit. repeat split.
    + simpl. rewrite Hs. reflexivity.
    + rewrite contains_pipe_cons, Hc, Hpre. reflexivity.
Qed.

(** The first piece of any text: what stands before its first pipe, or
    all of it. *)
Lemma split_pipe_head (s : string) :
  exists first tail more,
    Py.split "|" s = first :: more
    /\ s = first ++ tail
    /\ Py.contains "|" first = false
    /\ (tail = EmptyString \/ Py.startswith tail "|" = true).
Proof.
  destruct (Py.contains "|" s) eqn:Hhas.
  - destruct (split_pipe_first s Hhas) as (pre & post & Hs & Hpre & Hsplit).
    exists pre, ("|" ++ post), (Py.split "|" post). repeat split; auto.
  - exists s, EmptyString, []. repeat split; auto.
    + apply split_pipe_free. exact Hhas.
    + clear Hhas. induction s as [|c s IH]; simpl; congruence.
Qed.

(** ** Submitting to 2Captcha *)

#[local] Arguments Py.startswith : simpl never.
#[local] Arguments Py.contains : simpl never.
#[local] Arguments Py.split : simpl never.

Lemma twocaptcha_submit_once (params : list (string * string))
      (body : string) (rest : list reply) :
  TwoCaptcha.submit_2captcha_v1_request_once params (Text body :: rest)
  = after [Sent (TwoCaptcha.submit_request params)]
      (if negb (Py.startswith body "OK") then raise HTTPError rest
       else lift (part (Py.split "|" body) 1) rest).
Proof.
  unfold TwoCaptcha.submit_2captcha_v1_request_once. simpl.
  destruct (Py.startswith body "OK"); [|reflexivity].
  destruct (part (Py.split "|" body) 1); reflexivity.
Qed.

(** The second piece of a text with a pipe is what stands between its
    first pipe and the next one (or the end). *)
Lemma second_piece (body : string) :
  Py.contains "|" body = true ->
  exists pre id tail,
    body = pre ++ "|" ++ id ++ tail
    /\ Py.contains "|" pre = false
    /\ Py.contains "|" id = false
    /\ (tail = EmptyString \/ Py.startswith tail "|" = true)
    /\ part (Py.split "|" body) 1 = inr id.
Proof.
  intros Hhas.
  destruct (split_pipe_first body Hhas) as (pre & post & Hbody & Hpre & Hsplit).
  destruct (split_pipe_head post) as (id & tail & more & Hpost & Happ & Hid & Htail).
  exists pre, id, tail. rewrite Hsplit, Hpost, Hbody, Happ. auto.
Qed.

(** A reply that begins with [OK] and contains a pipe: the submit returns
    what stands between the first pipe and the next one (or the end). *)
Lemma twocaptcha_submit_success (max_tries : nat)
      (params : list (string * string)) (body : string) (rest : list reply) :
  Py.startswith body "OK" = true ->
  Py.contains "|" body = true ->
  exists pre id tail,
    body = pre ++ "|" ++ id ++ tail
    /\ Py.contains "|" pre = false
    /\ Py.contains "|" id = false
    /\ (tail = EmptyString \/ Py.startswith tail "|" = true)
    /\ TwoCaptcha.submit_2captcha_v1_request max_tries params
         (Text body :: rest)
       = mkRun (Returned id) [Sent (TwoCaptcha.submit_request params)] rest.
Proof.
  intros Hok Hpipe.
  destruct (second_piece body Hpipe)
    as (pre & id & tail & Hbody & Hpre & Hid & Htail & Hpart).
  exists pre, id, tail. repeat split; auto.
  assert (Honce : TwoCaptcha.submit_2captcha_v1_request_once params
                    (Text body :: rest)
                  = mkRun (Returned id)
                          [Sent (TwoCaptcha.submit_request params)] rest).
  { rewrite twocaptcha_submit_once, Hok, Hpart. reflexivity. }
  unfold TwoCaptcha.submit_2captcha_v1_request.
  rewrite (on_exception_returned _ _ _ id); rewrite Honce; reflexivity.
Qed.

(** C6, as the code has it.  A submit reply that begins with [OK] and
    contains a pipe is a success: the job identifier is the text between
    the first pipe and the next pipe or the end of the body, returned
    after one request.  A reply that does not begin with [OK] raises
    [requests.HTTPError], the transient and retryable kind: with an
    attempt left the decorator backs off and submits again, on the last
    attempt the error propagates.  A single attempt succeeds only on a
    reply that begins with [OK]. *)
Theorem C6_submit_reply :
  forall (max_tries : nat) (params : list (string * string))
         (body : string) (rest : list reply),
    let rq := Sent (TwoCaptcha.submit_request params) in
    (Py.startswith body "OK" = true ->
     Py.contains "|" body = true ->
     exists pre id tail,
       body = pre ++ "|" ++ id ++ tail
       /\ Py.contains "|" pre = false
       /\ Py.contains "|" id = false
       /\ (tail = EmptyString \/ Py.startswith tail "|" = true)
       /\ TwoCaptcha.submit_2captcha_v1_request max_tries params
            (Text body :: rest)
          = mkRun (Returned id) [rq] rest)
    /\ (Py.startswith body "OK" = false ->
        TwoCaptcha.submit_2captcha_v1_request_once params (Text body :: rest)
        = mkRun (Raised HTTPError) [rq] rest
        /\ classify HTTPError = Some TransientServiceError
        /\ retryable HTTPError = true
        /\ (forall left,
              TwoCaptcha.submit_2captcha_v1_request (S (S left)) params
                (Text body :: rest)
              = after [rq; BackedOff]
                  (TwoCaptcha.submit_2captcha_v1_request (S left) params rest))
        /\ TwoCaptcha.submit_2captcha_v1_request 1 params (Text body :: rest)
           = mkRun (Raised HTTPError) [rq] rest)
    /\ (forall id,
          out (TwoCaptcha.submit_2captcha_v1_request_once params
                 (Text body :: rest)) = Returned id ->
          Py.startswith body "OK" = true).
Proof.
  intros max_tries params body rest rq.
  assert (Hfail : Py.startswith body "OK" = false ->
                  TwoCaptcha.submit_2captcha_v1_request_once params
                    (Text body :: rest)
                  = mkRun (Raised HTTPError) [rq] rest).
  { intros Hno. rewrite twocaptcha_submit_once, Hno. reflexivity. }
  split; [|split].
  - intros Hok Hpipe. apply twocaptcha_submit_success; assumption.
  - intros Hno. specialize (Hfail Hno). repeat split; auto.
    intros left. unfold TwoCaptcha.submit_2captcha_v1_request.
    rewrite (on_exception_retry _ _ _ HTTPError);
      try rewrite Hfail; reflexivity.
  - intros id Hout.
    destruct (Py.startswith body "OK") eqn:Hok; [reflexivity|].
    rewrite (Hfail eq_refl) in Hout. discriminate.
Qed.

Lemma C6_submit_reply_witness :
  (exists pre id tail,
      "OK|2122988149" = pre ++ "|" ++ id ++ tail
      /\ Py.contains "|" pre = false
      /\ Py.contains "|" id = false
      /\ (tail = EmptyString \/ Py.startswith tail "|" = true)
      /\ TwoCaptcha.submit_2captcha_v1_request 3 [("method", "userrecaptcha")]
           [Text "OK|2122988149"]
         = mkRun (Returned id)
             [Sent (TwoCaptcha.submit_request [("method", "userrecaptcha")])]
             [])
  /\ TwoCaptcha.submit_2captcha_v1_request_once [("method", "userrecaptcha")]
       [Text "ERROR_WRONG_USER_KEY"]
     = mkRun (Raised HTTPError)
             [Sent (TwoCaptcha.submit_request [("method", "userrecaptcha")])] [].
Proof.
  split.
  - exact (proj1 (C6_submit_reply 3 [("method", "userrecaptcha")]
                    "OK|2122988149" []) eq_refl eq_refl).
  - exact (proj1 (proj1 (proj2 (C6_submit_reply 3 [("method", "userrecaptcha")]
                                  "ERROR_WRONG_USER_KEY" [])) eq_refl)).
Defined.

(** C6 as stated fails: the body [OK] begins with the prefix, yet the
    submit does not succeed; [split] yields one piece and taking the
    second raises [IndexError], which is not retried. *)
Lemma C6_counterexample :
  Py.startswith "OK" "OK" = true
  /\ TwoCaptcha.submit_2captcha_v1_request 3
       (TwoCaptcha.recaptcha_params "key" "site" "https://example.com/")
       [Text "OK"]
     = mkRun (Raised IndexError)
             [Sent (TwoCaptcha.submit_request
                      (TwoCaptcha.recaptcha_params "key" "site"
                         "https://example.com/"))] []
  /\ classify IndexError = None.
Proof. repeat split. Qed.

(** ** Terminal replies *)

Section Terminal.

Variable api_key : string.
Variable captcha_id : string.
Variable max_tries : nat.


Lemma twocaptcha_poll_zero_balance (body : string) (rest : list reply) :
  Py.contains Reply.ZERO_BALANCE body = true ->
  Py.contains Reply.NOT_READY body = false ->
  Py.contains Reply.UNSOLVABLE body = false ->
  TwoCaptcha.retrieve_2captcha_v1_result api_key max_tries captcha_id
    (Text body :: rest)
  = mkRun (Raised CaptchaBalanceEmpty)
          [Sent (TwoCaptcha.retrieve_request api_key captcha_id)] rest.
Proof.
  intros Hbalance Hready Hunsolvable.
  unfold Reply.ZERO_BALANCE in Hbalance.
  unfold Reply.UNSOLVABLE in Hunsolvable. unfold Reply.NOT_READY in Hready.
  unfold TwoCaptcha.retrieve_2captcha_v1_result.
  rewrite (on_exception_raised _ _ _ CaptchaBalanceEmpty);
    simpl; try rewrite Hready, Hunsolvable, Hbalance; reflexivity.
Qed.


End Terminal.

(** Running a first step that returns. *)
Lemma bind_returned {A B} (c : M A) (k : A -> M B) (script : list reply)
      (a : A) (evs : list event) (rest : list reply) :
  c script = mkRun (Returned a) evs rest ->
  bind c k script = after evs (k a rest).
Proof.
  intros Hc. unfold bind, Monad_M. rewrite Hc. reflexivity.
Qed.

Lemma bind_raised {A B} (c : M A) (k : A -> M B) (script : list reply)
      (e : exn) (evs : list event) (rest : list reply) :
  c script = mkRun (Raised e) evs rest ->
  bind c k script = mkRun (Raised e) evs rest.
Proof.
  intros Hc. unfold bind, Monad_M. rewrite Hc. reflexivity.
Qed.

(** C3, as the code has it.  A 2Captcha poll reply that contains
    [ERROR_ZERO_BALANCE], and neither of the markers tested before it
    ([CAPCHA_NOT_READY], [ERROR_CAPTCHA_UNSOLVABLE]), makes the poll raise
    [CaptchaBalanceEmpty] on that request: one request, no sleep, no retry,
    no further reply read.  The error is of the balance-exhausted kind and
    is not retryable.  A solve call whose submit succeeded ends the same
    way on its first poll. *)
Theorem C3_zero_balance_on_first_poll :
  forall (api_key captcha_id : string) (max_tries : nat)
         (body : string) (rest : list reply),
    Py.contains Reply.ZERO_BALANCE body = true ->
    Py.contains Reply.NOT_READY body = false ->
    Py.contains Reply.UNSOLVABLE body = false ->
    TwoCaptcha.retrieve_2captcha_v1_result api_key max_tries captcha_id
      (Text body :: rest)
    = mkRun (Raised CaptchaBalanceEmpty)
            [Sent (TwoCaptcha.retrieve_request api_key captcha_id)] rest
    /\ classify CaptchaBalanceEmpty = Some BalanceExhaustedError
    /\ retryable CaptchaBalanceEmpty = false
    /\ (forall google_site_key page_url submitted,
          Py.startswith submitted "OK" = true ->
          Py.contains "|" submitted = true ->
          let r := TwoCaptcha.solve_recaptcha api_key max_tries
                     google_site_key page_url
                     (Text submitted :: Text body :: rest) in
          out r = Raised CaptchaBalanceEmpty
          /\ sends (trace r) = 2
          /\ sleeps (trace r) = []
          /\ backoffs (trace r) = 0
          /\ unread r = rest).
Proof.
  intros api_key captcha_id max_tries body rest Hbalance Hready Hunsolvable.
  split; [|split; [|split]]; try reflexivity.
  - apply twocaptcha_poll_zero_balance; assumption.
  - intros google_site_key page_url submitted Hok Hpipe r.
    destruct (twocaptcha_submit_success max_tries
                (TwoCaptcha.recaptcha_params api_key google_site_key page_url)
                submitted (Text body :: rest) Hok Hpipe)
      as (pre & id & tail & _ & _ & _ & _ & Hsubmit).
    assert (Hr : r = mkRun (Raised CaptchaBalanceEmpty)
                       [Sent (TwoCaptcha.submit_request
                                (TwoCaptcha.recaptcha_params api_key
                                   google_site_key page_url));
                        Sent (TwoCaptcha.retrieve_request api_key id)] rest).
    { unfold r, TwoCaptcha.solve_recaptcha.
      rewrite (bind_returned _ _ _ _ _ _ Hsubmit).
      rewrite (bind_raised _ _ _ _ _ _
                 (twocaptcha_poll_zero_balance api_key id max_tries body rest
                    Hbalance Hready Hunsolvable)).
      reflexivity. }
    rewrite Hr. repeat split.
Qed.

Lemma C3_zero_balance_on_first_poll_witness :
  TwoCaptcha.retrieve_2captcha_v1_result "key" 3 "991"
    [Text "ERROR_ZERO_BALANCE"; Text "OK|never-read"]
  = mkRun (Raised CaptchaBalanceEmpty)
          [Sent (TwoCaptcha.retrieve_request "key" "991")]
          [Text "OK|never-read"].
Proof.
  exact (proj1 (C3_zero_balance_on_first_poll "key" "991" 3
                  "ERROR_ZERO_BALANCE" [Text "OK|never-read"]
                  eq_refl eq_refl eq_refl)).
Defined.

(** C3 as stated fails: this poll reply contains the zero-balance marker,
    yet the call raises [CaptchaUnsolvableError], because the unsolvable
    marker is tested first. *)
Lemma C3_counterexample :
  Py.contains "ERROR_ZERO_BALANCE"
    "ERROR_CAPTCHA_UNSOLVABLE ERROR_ZERO_BALANCE" = true
  /\ out (TwoCaptcha.solve_recaptcha "key" 3 "site" "https://example.com/"
            [Text "OK|991";
             Text "ERROR_CAPTCHA_UNSOLVABLE ERROR_ZERO_BALANCE"])
     = Raised CaptchaUnsolvableError
  /\ Raised CaptchaUnsolvableError
     <> Raised (A := RecaptchaResponse) CaptchaBalanceEmpty.
Proof. repeat split. discriminate. Qed.





(** ** The GeeTest result: JSON first, separated text otherwise *)

(** Reading the three keys raises [KeyError] or [TypeError] only, so the
    handler of the [try] never runs after [json.loads] succeeded. *)
Lemma geetest_of_object_not_caught (v : pyval) (e : exn) :
  ImageTyperz.geetest_of_object v = inl e ->
  ImageTyperz.is_JSONDecodeError e = false.
Proof.
  unfold ImageTyperz.geetest_of_object.
  destruct v as [| b | n | s | items | pairs]; simpl;
    try (intros [= <-]; reflexivity).
  destruct (dict_get pairs "geetest_challenge"); simpl;
    [| intros [= <-]; reflexivity].
  destruct (dict_get pairs "geetest_validate"); simpl;
    [| intros [= <-]; reflexivity].
  destruct (dict_get pairs "geetest_seccode"); simpl;
    [discriminate | intros [= <-]; reflexivity].
Qed.

Lemma parse_geetest_result_text (limits : Json.limits) (text : string) :
  ImageTyperz.parse_geetest_result limits (PyStr text)
  = match Json.loads limits text with
    | inr parsed => ImageTyperz.geetest_of_object parsed
    | inl JSONDecodeError =>
        ImageTyperz.geetest_of_parts (Py.split ";;;" text)
    | inl e => inl e
    end.
Proof.
  unfold ImageTyperz.parse_geetest_result, try_except. simpl.
  destruct (Json.loads limits text) as [e|parsed]; simpl.
  - destruct e; reflexivity.
  - destruct (ImageTyperz.geetest_of_object parsed) as [e|r] eqn:Hobject;
      [|reflexivity].
    rewrite (geetest_of_object_not_caught _ _ Hobject). reflexivity.
Qed.

(** C1. For every result text and every interpreter the ImageTyperz
    GeeTest parse is the structured one whenever [json.loads] returns a
    value, and the split at [;;;] exactly when [json.loads] raises
    [JSONDecodeError]; any other error of [json.loads] (the [ValueError]
    of an integer literal over the digit limit, the [RecursionError] of
    nesting over the recursion limit) leaves the parse as it is, without
    a split.  The JSON object and the separated text of the spec both
    give the response (a, b, c), from the parse alone and from a whole
    [solve_geetest] call whose poll reply carries them, on every
    interpreter that lets the decoder open the one or two containers the
    replies nest. *)
Theorem C1_geetest_json_then_separated (limits : Json.limits) :
  (forall text : string,
      ImageTyperz.parse_geetest_result limits (PyStr text)
      = match Json.loads limits text with
        | inr parsed => ImageTyperz.geetest_of_object parsed
        | inl JSONDecodeError =>
            ImageTyperz.geetest_of_parts (Py.split ";;;" text)
        | inl e => inl e
        end)
  /\ (1 <= Json.max_depth limits ->
      ImageTyperz.parse_geetest_result limits (PyStr geetest_json)
      = inr geetest_abc)
  /\ ImageTyperz.parse_geetest_result limits (PyStr geetest_separated)
     = inr geetest_abc
  /\ (2 <= Json.max_depth limits ->
      out (ImageTyperz.solve_geetest limits "key" 3
             (fun _ => true) (fun _ => true)
             "gt" "challenge" "https://example.com/page"
             [Text "991"; Text (solved_poll geetest_json)])
      = Returned geetest_abc
      /\ out (ImageTyperz.solve_geetest limits "key" 3
                (fun _ => true) (fun _ => true)
                "gt" "challenge" "https://example.com/page"
                [Text "991"; Text (solved_poll geetest_separated)])
         = Returned geetest_abc).
Proof.
  split; [exact (parse_geetest_result_text limits)|].
  destruct limits as [digits [|[|depth]]]; cbn [Json.max_depth].
  - split; [lia|]. split; [vm_compute; reflexivity | lia].
  - split; [intros _; vm_compute; reflexivity|].
    split; [vm_compute; reflexivity | lia].
  - split; [intros _; vm_compute; reflexivity|].
    split; [vm_compute; reflexivity|].
    intros _. split; vm_compute; reflexivity.
Qed.

Lemma C1_geetest_json_then_separated_witness :
  ImageTyperz.parse_geetest_result cpython (PyStr geetest_json)
  = inr geetest_abc
  /\ out (ImageTyperz.solve_geetest cpython "key" 3
            (fun _ => true) (fun _ => true)
            "gt" "challenge" "https://example.com/page"
            [Text "991"; Text (solved_poll geetest_separated)])
     = Returned geetest_abc.
Proof.
  destruct (C1_geetest_json_then_separated cpython)
    as (_ & Hjson & _ & Hcalls).
  split.
  - apply Hjson. vm_compute. lia.
  - apply Hcalls. vm_compute. lia.
Defined.

(** ** The separated-text fallback *)







(** C9 as stated fails: this text is not valid JSON (without a digit
    limit [json.loads] rejects it with [JSONDecodeError]) and has one
    separator, yet on the default interpreter the call fails with the
    [ValueError] of the integer conversion, not with [IndexError]: the
    error is raised when the digits are read, before the scanner sees what
    follows them, and the [except] clause does not catch it.  With a
    second separator the text has three pieces and the call fails the same
    way. *)
Lemma C9_counterexample :
  Json.loads cpython_unlimited overlong_two_pieces = inl JSONDecodeError
  /\ Py.count ";;;" overlong_two_pieces = 1
  /\ ImageTyperz.parse_geetest_result cpython (PyStr overlong_two_pieces)
     = inl ValueError
  /\ inl (B := GeetestResponse) ValueError <> inl IndexError
  /\ Py.count ";;;" overlong_three_pieces = 2
  /\ ImageTyperz.parse_geetest_result cpython (PyStr overlong_three_pieces)
     = inl ValueError.
Proof.
  repeat split; try (vm_compute; reflexivity). discriminate.
Qed.

(** ** The first request of a call *)

Lemma on_exception_trace {A} (f : M A) (tries : nat) (script : list reply) :
  exists more,
    trace (on_exception tries f script) = (trace (f script) ++ more)%list.
Proof.
  destruct (on_exception_attempts f tries script) as [n ->]. clear tries.
  destruct n as [|[|left]]; simpl;
    try (exists []; rewrite app_nil_r; reflexivity).
  destruct (out (f script)) as [a|e|];
    try (exists []; rewrite app_nil_r; reflexivity).
  destruct (retryable e);
    [|exists []; rewrite app_nil_r; reflexivity].
  simpl. rewrite <- app_assoc. eexists. reflexivity.
Qed.

Lemma bind_trace {A B} (c : M A) (k : A -> M B) (script : list reply) :
  exists more, trace (bind c k script) = (trace (c script) ++ more)%list.
Proof.
  unfold bind, Monad_M.
  destruct (out (c script)); simpl;
    try (exists []; rewrite app_nil_r; reflexivity).
  eexists. reflexivity.
Qed.

Lemma imagetyperz_submit_trace (max_tries : nat) (submit_url : string)
      (params : list (string * string)) (script : list reply) :
  exists more,
    trace (ImageTyperz.submit_imagetyperz_request max_tries submit_url params
             script)
    = Sent (mkRequest POST submit_url params params) :: more.
Proof.
  unfold ImageTyperz.submit_imagetyperz_request.
  destruct (on_exception_trace
              (ImageTyperz.submit_imagetyperz_request_once submit_url params)
              max_tries script) as [more Hmore].
  rewrite Hmore. unfold ImageTyperz.submit_imagetyperz_request_once.
  destruct script as [|[body|] rest]; simpl; eexists; reflexivity.
Qed.

(** C10. Whenever [urlparse] accepts the page URL, the first request of
    the ImageTyperz [solve_geetest] is the GeeTest submit, and its
    [domain] parameter is the URL's scheme, two slashes and its network
    location, with no colon between the scheme and the slashes.  For
    [https://example.com/page] that is [https//example.com]. *)
Theorem C10_domain_parameter_has_no_colon (limits : Json.limits) :
  forall (api_key : string) (max_tries : nat)
         (bracketed_ok normalised_ok : string -> bool)
         (geetest challenge page_url : string),
    (forall (uri : Url.parse_result) (script : list reply),
        Url.urlparse bracketed_ok normalised_ok page_url = inr uri ->
        exists rq more,
          trace (ImageTyperz.solve_geetest limits api_key max_tries bracketed_ok
                   normalised_ok geetest challenge page_url script)
          = Sent rq :: more
          /\ url rq = ImageTyperz.BASE_URL ++ "/captchaapi/UploadGeeTestToken.ashx"
          /\ param (params rq) "domain"
             = Some (Url.scheme uri ++ "//" ++ Url.netloc uri)
          /\ param (data rq) "domain"
             = Some (Url.scheme uri ++ "//" ++ Url.netloc uri))
    /\ Url.urlparse bracketed_ok normalised_ok "https://example.com/page"
       = inr (Url.mkParseResult "https" "example.com")
    /\ ImageTyperz.domain_of (Url.mkParseResult "https" "example.com")
       = "https//example.com"
    /\ ImageTyperz.domain_of (Url.mkParseResult "https" "example.com")
       <> "https://example.com".
Proof.
  intros api_key max_tries bracketed_ok normalised_ok geetest challenge
         page_url.
  split; [|repeat split; discriminate].
  intros uri script Hparse.
  unfold ImageTyperz.solve_geetest. rewrite Hparse.
  match goal with
  | |- context [bind (lift (inr uri)) ?k] =>
      change (bind (lift (inr uri)) k script) with (after [] (k uri script))
  end.
  rewrite after_nil.
  match goal with
  | |- context [bind ?c ?k script] =>
      destruct (bind_trace c k script) as [more1 Hbind]
  end.
  rewrite Hbind.
  destruct (imagetyperz_submit_trace max_tries
              (ImageTyperz.BASE_URL ++ "/captchaapi/UploadGeeTestToken.ashx")
              (ImageTyperz.geetest_params api_key geetest challenge uri)
              script) as [more2 Hsubmit].
  rewrite Hsubmit. simpl.
  eexists. eexists. split; [reflexivity|]. repeat split.
Qed.

Lemma C10_domain_parameter_has_no_colon_witness :
  exists rq more,
    trace (ImageTyperz.solve_geetest cpython "key" 3 (fun _ => true) (fun _ =>
             true) "gt" "challenge" "https://example.com/page" [Text "991"])
    = Sent rq :: more
    /\ url rq = ImageTyperz.BASE_URL ++ "/captchaapi/UploadGeeTestToken.ashx"
    /\ param (params rq) "domain" = Some "https//example.com"
    /\ param (data rq) "domain" = Some "https//example.com".
Proof.
  exact (proj1 (C10_domain_parameter_has_no_colon cpython "key" 3 (fun _ =>
                  true) (fun _ => true) "gt" "challenge"
                  "https://example.com/page")
               (Url.mkParseResult "https" "example.com") [Text "991"]
               eq_refl).
Defined.

(** ** Poll replies that are not the expected JSON (ImageTyperz) *)

Lemma imagetyperz_submit_success (max_tries : nat) (submit_url : string)
      (params : list (string * string)) (body : string) (rest : list reply) :
  Py.contains "error" (Py.lower body) = false ->
  ImageTyperz.submit_imagetyperz_request max_tries submit_url params
    (Text body :: rest)
  = mkRun (Returned body) [Sent (mkRequest POST submit_url params params)] rest.
Proof.
  intros Hclean.
  assert (Honce : ImageTyperz.submit_imagetyperz_request_once submit_url params
                    (Text body :: rest)
                  = mkRun (Returned body)
                          [Sent (mkRequest POST submit_url params params)]
                          rest).
  { unfold ImageTyperz.submit_imagetyperz_request_once. simpl.
    rewrite Hclean. reflexivity. }
  unfold ImageTyperz.submit_imagetyperz_request.
  rewrite (on_exception_returned _ _ _ body); rewrite Honce; reflexivity.
Qed.

(** C2 fails on the code.  After a successful submit, a poll reply that is
    not empty and not JSON makes [solve_recaptcha] end with
    [json.JSONDecodeError], and a JSON reply without the key [Status] with
    [KeyError], whatever the number of attempts allowed and on every
    interpreter (one that does not let the decoder open the two
    containers of the second reply ends the call with [RecursionError]
    instead).  None of these is one of the taxonomy's kinds, and none is
    retried.  The empty reply, one line above in the same loop, is turned
    into the transient [requests.HTTPError]. *)
Theorem C2_malformed_poll_reply_is_not_classified (limits : Json.limits) :
  forall (api_key : string) (max_tries : nat)
         (google_site_key page_url : string),
    out (ImageTyperz.solve_recaptcha limits api_key max_tries
           google_site_key page_url
           [Text "991"; Text "<html>502 Bad Gateway</html>"])
    = Raised JSONDecodeError
    /\ classify JSONDecodeError = None
    /\ out (ImageTyperz.solve_recaptcha limits api_key max_tries
              google_site_key page_url [Text "991"; Text "[{}]"])
       = Raised (if Nat.leb 2 (Json.max_depth limits) then KeyError
                 else RecursionError)
    /\ classify KeyError = None
    /\ classify RecursionError = None
    /\ out (ImageTyperz.retrieve_imagetyperz_result_once limits api_key "991"
              [Text ""])
       = Raised HTTPError
    /\ classify HTTPError = Some TransientServiceError.
Proof.
  intros api_key max_tries google_site_key page_url.
  assert (Hpoll : forall body e,
             out (ImageTyperz.retrieve_imagetyperz_result_once limits api_key
                    "991" [Text body]) = Raised e ->
             retryable e = false ->
             out (ImageTyperz.solve_recaptcha limits api_key max_tries
                    google_site_key page_url [Text "991"; Text body])
             = Raised e).
  { intros body e Hout Hfinal.
    unfold ImageTyperz.solve_recaptcha.
    rewrite (bind_returned _ _ _ _ _ _
               (imagetyperz_submit_success max_tries _ _ "991" [Text body]
                  eq_refl)).
    unfold bind, Monad_M, ImageTyperz.retrieve_imagetyperz_result.
    rewrite (on_exception_raised _ _ _ e Hout Hfinal).
    cbn [after out]. rewrite Hout. reflexivity. }
  split; [apply Hpoll; reflexivity|].
  split; [reflexivity|].
  split; [|repeat split].
  destruct limits as [digits [|[|depth]]]; cbn [Json.max_depth Nat.leb];
    apply Hpoll; reflexivity.
Qed.

(** ** Where a returned response comes from *)

Lemma bind_returned_inv {A B} (c : M A) (k : A -> M B) (script : list reply)
      (b : B) :
  out (bind c k script) = Returned b ->
  exists a,
    out (c script) = Returned a
    /\ out (k a (unread (c script))) = Returned b.
Proof.
  unfold bind, Monad_M.
  destruct (out (c script)) as [a|e|]; simpl; try discriminate.
  intros Hk. exists a. split; [reflexivity | exact Hk].
Qed.

Section Forward.

Context {A : Type}.
Variable f : M A.

(** The function reads the script forward: what it leaves unread was in
    the script it was given. *)
Hypothesis f_forward : forall script, incl (unread (f script)) script.

Lemma attempts_unread (tries : nat) (script : list reply) :
  incl (unread (attempts tries f script)) script.
Proof.
  revert script. induction tries as [|tries IH]; intros script;
    [apply f_forward|].
  destruct tries as [|left]; [apply f_forward|].
  cbn [attempts].
  destruct (out (f script)) as [a|e|]; try apply f_forward.
  destruct (retryable e); [|apply f_forward].
  cbn [after unread].
  eapply incl_tran; [apply IH | apply f_forward].
Qed.

Lemma on_exception_unread (tries : nat) (script : list reply) :
  incl (unread (on_exception tries f script)) script.
Proof.
  destruct (on_exception_attempts f tries script) as [n ->].
  apply attempts_unread.
Qed.

(** A value returned under the decorator was returned by one attempt, on
    a script whose replies all come from the given one. *)
Lemma on_exception_returned_inv (tries : nat) (script : list reply) (a : A) :
  out (on_exception tries f script) = Returned a ->
  exists script', incl script' script /\ out (f script') = Returned a.
Proof.
  destruct (on_exception_attempts f tries script) as [n ->]. clear tries.
  rename n into tries.
  revert script. induction tries as [|tries IH]; intros script Hout.
  - exists script. split; [apply incl_refl | exact Hout].
  - destruct tries as [|left].
    + exists script. split; [apply incl_refl | exact Hout].
    + cbn [attempts] in Hout.
      destruct (out (f script)) as [a'|e|] eqn:Hattempt.
      * exists script. split; [apply incl_refl|]. congruence.
      * destruct (retryable e).
        -- cbn [after out] in Hout.
           destruct (IH _ Hout) as (script' & Hincl & Hret).
           exists script'. split; [|exact Hret].
           eapply incl_tran; [exact Hincl | apply f_forward].
        -- congruence.
      * congruence.
Qed.

End Forward.

Lemma twocaptcha_submit_once_forward (params : list (string * string))
      (script : list reply) :
  incl (unread (TwoCaptcha.submit_2captcha_v1_request_once params script))
       script.
Proof.
  destruct script as [|[body|] rest].
  - apply incl_refl.
  - rewrite twocaptcha_submit_once.
    destruct (negb (Py.startswith body "OK"));
      [|destruct (part (Py.split "|" body) 1)];
      apply incl_tl, incl_refl.
  - apply incl_tl, incl_refl.
Qed.

Lemma imagetyperz_submit_once_forward (submit_url : string)
      (params : list (string * string)) (script : list reply) :
  incl (unread (ImageTyperz.submit_imagetyperz_request_once submit_url params
                  script))
       script.
Proof.
  unfold ImageTyperz.submit_imagetyperz_request_once.
  destruct script as [|[body|] rest]; simpl.
  - apply incl_refl.
  - destruct (Py.contains "error" (Py.lower body)); apply incl_tl, incl_refl.
  - apply incl_tl, incl_refl.
Qed.

Lemma twocaptcha_poll_once_forward (api_key captcha_id : string)
      (script : list reply) :
  incl (unread (TwoCaptcha.retrieve_2captcha_v1_result_once api_key captcha_id
                  script))
       script.
Proof.
  induction script as [|[body|] rest IH]; simpl;
    try (apply incl_refl || apply incl_tl, incl_refl).
  destruct (Py.contains "CAPCHA_NOT_READY" body); [apply incl_tl, IH|].
  destruct (Py.contains "ERROR_CAPTCHA_UNSOLVABLE" body);
    [apply incl_tl, incl_refl|].
  destruct (Py.contains "ERROR_ZERO_BALANCE" body);
    [apply incl_tl, incl_refl|].
  destruct (negb (Py.startswith body "OK")); [apply incl_tl, incl_refl|].
  destruct (part (Py.split_max "|" 1 body) 1); apply incl_tl, incl_refl.
Qed.

(** A text the 2Captcha poll returns is the second piece of a reply that
    begins with [OK], split once at its first pipe. *)
Lemma twocaptcha_poll_once_returned (api_key captcha_id : string)
      (script : list reply) (text : string) :
  out (TwoCaptcha.retrieve_2captcha_v1_result_once api_key captcha_id script)
  = Returned text ->
  exists body,
    In (Text body) script
    /\ Py.startswith body "OK" = true
    /\ part (Py.split_max "|" 1 body) 1 = inr text.
Proof.
  induction script as [|[body|] rest IH]; simpl; try discriminate.
  destruct (Py.contains "CAPCHA_NOT_READY" body).
  { intros Hout. destruct (IH Hout) as (body' & Hin & Hok & Hpart).
    exists body'. auto. }
  destruct (Py.contains "ERROR_CAPTCHA_UNSOLVABLE" body); [discriminate|].
  destruct (Py.contains "ERROR_ZERO_BALANCE" body); [discriminate|].
  destruct (Py.startswith body "OK") eqn:Hok; [|discriminate]. simpl.
  destruct (part (Py.split_max "|" 1 body) 1) as [e|payload] eqn:Hpart;
    [discriminate|].
  simpl. intros [= <-]. exists body. auto.
Qed.

Lemma eq_str_true (v : pyval) (s : string) :
  eq_str v s = true -> v = PyStr s.
Proof.
  destruct v; simpl; try discriminate.
  intros Heq. apply String.eqb_eq in Heq. congruence.
Qed.

Lemma imagetyperz_poll_once_forward (limits : Json.limits)
      (api_key captcha_id : string) (script : list reply) :
  incl (unread (ImageTyperz.retrieve_imagetyperz_result_once limits api_key
                  captcha_id script))
       script.
Proof.
  induction script as [|[body|] rest IH]; simpl;
    try (apply incl_refl || apply incl_tl, incl_refl).
  destruct (Py.is_empty body); [apply incl_tl, incl_refl|].
  destruct (Json.loads limits body) as [e|parsed];
    [apply incl_tl, incl_refl|].
  destruct (subscript_int parsed 0) as [e|response];
    [apply incl_tl, incl_refl|].
  destruct (subscript_str response "Status") as [e|status];
    [apply incl_tl, incl_refl|].
  destruct (eq_str status "Pending"); [apply incl_tl, IH|].
  destruct (eq_str status "ERROR: IMAGE_TIMED_OUT");
    [apply incl_tl, incl_refl|].
  destruct (negb (eq_str status "Solved")); [apply incl_tl, incl_refl|].
  destruct (subscript_str response "Response"); apply incl_tl, incl_refl.
Qed.

(** A value the ImageTyperz poll returns is the [Response] of a reply
    whose status is [Solved]. *)
Lemma imagetyperz_poll_once_returned (limits : Json.limits)
      (api_key captcha_id : string) (script : list reply) (payload : pyval) :
  out (ImageTyperz.retrieve_imagetyperz_result_once limits api_key captcha_id
      script)
  = Returned payload ->
  exists body,
    In (Text body) script /\ Reply.imagetyperz_solved limits body payload.
Proof.
  induction script as [|[body|] rest IH]; simpl; try discriminate.
  destruct (Py.is_empty body); [discriminate|].
  destruct (Json.loads limits body) as [e|parsed] eqn:Hloads;
    [discriminate|].
  destruct (subscript_int parsed 0) as [e|response] eqn:Hitem; [discriminate|].
  destruct (subscript_str response "Status") as [e|status] eqn:Hstatus;
    [discriminate|].
  destruct (eq_str status "Pending").
  { intros Hout. destruct (IH Hout) as (body' & Hin & Hsolved).
    exists body'. auto. }
  destruct (eq_str status "ERROR: IMAGE_TIMED_OUT"); [discriminate|].
  destruct (eq_str status "Solved") eqn:Hsolved; [|discriminate]. simpl.
  destruct (subscript_str response "Response") as [e|value] eqn:Hvalue;
    [discriminate|].
  simpl. intros [= <-].
  apply eq_str_true in Hsolved. subst status.
  exists body. split; [left; reflexivity|].
  exists response. split; [|exact Hvalue].
  exists parsed. auto.
Qed.

Lemma lift_returned_inv {A} (p : pure A) (script : list reply) (a : A) :
  out (lift p script) = Returned a -> p = inr a.
Proof. destruct p; simpl; [discriminate | congruence]. Qed.

Lemma lift_unread {A} (p : pure A) (script : list reply) :
  unread (lift p script) = script.
Proof. destruct p; reflexivity. Qed.

Section Returned.

Variable api_key : string.
Variable max_tries : nat.

Lemma twocaptcha_poll_returned (captcha_id : string) (script : list reply)
      (text : string) :
  out (TwoCaptcha.retrieve_2captcha_v1_result api_key max_tries captcha_id
         script) = Returned text ->
  exists body,
    In (Text body) script
    /\ Py.startswith body "OK" = true
    /\ part (Py.split_max "|" 1 body) 1 = inr text.
Proof.
  intros Hout.
  destruct (on_exception_returned_inv _
              (twocaptcha_poll_once_forward api_key captcha_id) _ _ _ Hout)
    as (script' & Hincl & Honce).
  destruct (twocaptcha_poll_once_returned _ _ _ _ Honce)
    as (body & Hin & Hok & Hpart).
  exists body. auto.
Qed.

Lemma imagetyperz_poll_returned (limits : Json.limits) (captcha_id : string)
      (script : list reply) (payload : pyval) :
  out (ImageTyperz.retrieve_imagetyperz_result limits api_key max_tries
         captcha_id script) = Returned payload ->
  exists body,
    In (Text body) script /\ Reply.imagetyperz_solved limits body payload.
Proof.
  intros Hout.
  destruct (on_exception_returned_inv _
              (imagetyperz_poll_once_forward limits api_key captcha_id) _ _ _
                  Hout)
    as (script' & Hincl & Honce).
  destruct (imagetyperz_poll_once_returned _ _ _ _ _ Honce)
    as (body & Hin & Hsolved).
  exists body. auto.
Qed.

Lemma twocaptcha_submit_forward (params : list (string * string))
      (script : list reply) :
  incl (unread (TwoCaptcha.submit_2captcha_v1_request max_tries params script))
       script.
Proof.
  apply on_exception_unread. apply twocaptcha_submit_once_forward.
Qed.

Lemma imagetyperz_submit_forward (submit_url : string)
      (params : list (string * string)) (script : list reply) :
  incl (unread (ImageTyperz.submit_imagetyperz_request max_tries submit_url
                  params script))
       script.
Proof.
  apply on_exception_unread. apply imagetyperz_submit_once_forward.
Qed.

End Returned.

(** ** What a returned response holds *)

(** C7, as the code has it.  Every response a solve operation returns is
    built from a solved reply of the script, and each field is the value
    that reply carries, taken as it is:
    - 2Captcha reCAPTCHA: the text after the first pipe of a reply that
      begins with [OK];
    - 2Captcha GeeTest: the values under the three GeeTest keys of that
      text read as JSON;
    - ImageTyperz reCAPTCHA: the [Response] value of a reply whose status
      is [Solved];
    - ImageTyperz GeeTest: the parse of that [Response] value.
    Nothing checks that a field is a non-empty string. *)
Theorem C7_response_fields_are_the_reply_payload (limits : Json.limits) :
  forall (api_key : string) (max_tries : nat) (script : list reply),
    (forall google_site_key page_url resp,
        out (TwoCaptcha.solve_recaptcha api_key max_tries google_site_key
               page_url script) = Returned resp ->
        exists body text,
          In (Text body) script
          /\ Py.startswith body "OK" = true
          /\ part (Py.split_max "|" 1 body) 1 = inr text
          /\ resp = mkRecaptchaResponse (PyStr text))
    /\ (forall geetest token page_url resp,
          out (TwoCaptcha.solve_geetest limits api_key max_tries geetest token
                 page_url script) = Returned resp ->
          exists body text object,
            In (Text body) script
            /\ Py.startswith body "OK" = true
            /\ part (Py.split_max "|" 1 body) 1 = inr text
            /\ Json.loads limits text = inr object
            /\ subscript_str object "geetest_challenge" = inr (challenge resp)
            /\ subscript_str object "geetest_validate" = inr (validate resp)
            /\ subscript_str object "geetest_seccode" = inr (seccode resp))
    /\ (forall google_site_key page_url resp,
          out (ImageTyperz.solve_recaptcha limits api_key max_tries
                 google_site_key page_url script) = Returned resp ->
          exists body,
            In (Text body) script
            /\ Reply.imagetyperz_solved limits body (token resp))
    /\ (forall bracketed_ok normalised_ok geetest token page_url resp,
          out (ImageTyperz.solve_geetest limits api_key max_tries bracketed_ok
                 normalised_ok geetest token page_url script)
          = Returned resp ->
          exists body payload,
            In (Text body) script
            /\ Reply.imagetyperz_solved limits body payload
            /\ ImageTyperz.parse_geetest_result limits payload = inr resp).
Proof.
  intros api_key max_tries script. split; [|split; [|split]].
  - intros google_site_key page_url resp Hout.
    unfold TwoCaptcha.solve_recaptcha in Hout.
    apply bind_returned_inv in Hout. destruct Hout as (captcha_id & _ & Hout).
    apply bind_returned_inv in Hout. destruct Hout as (text & Hpoll & Hret).
    destruct (twocaptcha_poll_returned _ _ _ _ _ Hpoll)
      as (body & Hin & Hok & Hpart).
    exists body, text. repeat split; auto.
    + eapply twocaptcha_submit_forward. exact Hin.
    + simpl in Hret. congruence.
  - intros geetest token page_url resp Hout.
    unfold TwoCaptcha.solve_geetest in Hout.
    apply bind_returned_inv in Hout. destruct Hout as (captcha_id & _ & Hout).
    apply bind_returned_inv in Hout. destruct Hout as (text & Hpoll & Hout).
    apply bind_returned_inv in Hout. destruct Hout as (object & Hloads & Hout).
    apply bind_returned_inv in Hout. destruct Hout as (c & Hc & Hout).
    apply bind_returned_inv in Hout. destruct Hout as (v & Hv & Hout).
    apply bind_returned_inv in Hout. destruct Hout as (s & Hs & Hret).
    apply lift_returned_inv in Hloads, Hc, Hv, Hs.
    simpl in Hret. injection Hret as <-.
    destruct (twocaptcha_poll_returned _ _ _ _ _ Hpoll)
      as (body & Hin & Hok & Hpart).
    exists body, text, object. repeat split; auto.
    eapply twocaptcha_submit_forward. exact Hin.
  - intros google_site_key page_url resp Hout.
    unfold ImageTyperz.solve_recaptcha in Hout.
    apply bind_returned_inv in Hout. destruct Hout as (captcha_id & _ & Hout).
    apply bind_returned_inv in Hout. destruct Hout as (payload & Hpoll & Hret).
    simpl in Hret. injection Hret as <-.
    destruct (imagetyperz_poll_returned _ _ _ _ _ _ Hpoll)
      as (body & Hin & Hsolved).
    exists body. split; [|exact Hsolved].
    eapply imagetyperz_submit_forward. exact Hin.
  - intros bracketed_ok normalised_ok geetest token page_url resp Hout.
    unfold ImageTyperz.solve_geetest in Hout.
    apply bind_returned_inv in Hout. destruct Hout as (uri & _ & Hout).
    rewrite lift_unread in Hout.
    apply bind_returned_inv in Hout. destruct Hout as (captcha_id & _ & Hout).
    apply bind_returned_inv in Hout. destruct Hout as (payload & Hpoll & Hret).
    apply lift_returned_inv in Hret.
    destruct (imagetyperz_poll_returned _ _ _ _ _ _ Hpoll)
      as (body & Hin & Hsolved).
    exists body, payload. repeat split; auto.
    eapply imagetyperz_submit_forward. exact Hin.
Qed.

Lemma C7_response_fields_are_the_reply_payload_witness :
  exists body text,
    In (Text body) [Text "OK|991"; Text "OK|03AGdBq25"]
    /\ Py.startswith body "OK" = true
    /\ part (Py.split_max "|" 1 body) 1 = inr text
    /\ mkRecaptchaResponse (PyStr "03AGdBq25") = mkRecaptchaResponse (PyStr text).
Proof.
  exact (proj1 (C7_response_fields_are_the_reply_payload cpython "key" 3
                  [Text "OK|991"; Text "OK|03AGdBq25"])
               "site" "https://example.com/"
               (mkRecaptchaResponse (PyStr "03AGdBq25")) eq_refl).
Defined.

(** C7 as stated fails: the solved reply [OK|] carries an empty token, and
    the call succeeds with a response whose only field is the empty
    string. *)
Lemma C7_counterexample :
  out (TwoCaptcha.solve_recaptcha "key" 3 "site" "https://example.com/"
         [Text "OK|991"; Text "OK|"])
  = Returned (mkRecaptchaResponse (PyStr ""))
  /\ Py.is_empty "" = true.
Proof. repeat split. Qed.

(** ** [json.loads] never exhausts its budget *)

Lemma skip_ws_length (s : string) :
  String.length (skip_ws s) <= String.length s.
Proof.
  induction s as [|c s IH]; simpl; [lia|].
  destruct (is_ws c); simpl; lia.
Qed.

Lemma take_digits_length (s d r : string) :
  Json.take_digits s = (d, r) -> String.length r <= String.length s.
Proof.
  revert d r. induction s as [|c s IH]; simpl; intros d r.
  - intros [= <- <-]. simpl. lia.
  - destruct (is_digit c).
    + destruct (Json.take_digits s) as [d' r'] eqn:Hrest.
      intros [= <- <-]. specialize (IH _ _ eq_refl). lia.
    + intros [= <- <-]. simpl. lia.
Qed.

Lemma strip_prefix_length (p s r : string) :
  Json.strip_prefix p s = Some r ->
  String.length r + String.length p = String.length s.
Proof.
  revert s. induction p as [|a p IH]; intros s; simpl.
  - intros [= <-]. lia.
  - destruct s as [|b s]; [discriminate|].
    destruct (Ascii.eqb a b); [|discriminate].
    intros Hrest. specialize (IH _ Hrest). simpl. lia.
Qed.

Lemma int_part_length (s i r : string) :
  Json.int_part s = Some (i, r) -> String.length r < String.length s.
Proof.
  unfold Json.int_part.
  assert (Hbody : forall sign s1,
             String.length s1 <= String.length s ->
             match s1 with
             | String c s2 =>
                 if Ascii.eqb c "0" then Some (sign ++ "0", s2)
                 else if is_digit c then
                   let '(d, r) := Json.take_digits s2 in
                   Some (sign ++ String c d, r)
                 else None
             | EmptyString => None
             end = Some (i, r) ->
             String.length r < String.length s).
  { intros sign s1 Hle. destruct s1 as [|c s2]; [discriminate|].
    simpl in Hle. destruct (Ascii.eqb c "0").
    - intros [= <- <-]. lia.
    - destruct (is_digit c); [|discriminate].
      destruct (Json.take_digits s2) as [d r'] eqn:Hdigits.
      intros [= <- <-]. apply take_digits_length in Hdigits. lia. }
  destruct s as [|c s']; [discriminate|].
  destruct (Ascii.eqb c "-");
    [apply (Hbody "-" s') | apply (Hbody "" (String c s'))]; simpl; lia.
Qed.

Lemma frac_part_length (s f r : string) :
  Json.frac_part s = (f, r) -> String.length r <= String.length s.
Proof.
  unfold Json.frac_part. destruct s as [|c s1]; [intros [= <- <-]; lia|].
  destruct (Ascii.eqb c "."); [|intros [= <- <-]; lia].
  destruct (Json.take_digits s1) as [d r'] eqn:Hdigits.
  apply take_digits_length in Hdigits.
  destruct d; intros [= <- <-]; simpl; lia.
Qed.

Lemma exp_part_length (s e r : string) :
  Json.exp_part s = (e, r) -> String.length r <= String.length s.
Proof.
  unfold Json.exp_part. destruct s as [|c s1]; [intros [= <- <-]; lia|].
  destruct (Ascii.eqb c "e" || Ascii.eqb c "E"); [|intros [= <- <-]; lia].
  assert (Hsign : String.length
                    (snd match s1 with
                         | String c' s' =>
                             if Ascii.eqb c' "+" || Ascii.eqb c' "-"
                             then (String c' EmptyString, s')
                             else (EmptyString, s1)
                         | EmptyString => (EmptyString, s1)
                         end) <= String.length s1).
  { destruct s1 as [|c' s']; simpl; [lia|].
    destruct (Ascii.eqb c' "+" || Ascii.eqb c' "-"); simpl; lia. }
  destruct (match s1 with
            | String c' s' =>
                if Ascii.eqb c' "+" || Ascii.eqb c' "-"
                then (String c' EmptyString, s')
                else (EmptyString, s1)
            | EmptyString => (EmptyString, s1)
            end) as [sign s2].
  simpl in Hsign.
  destruct (Json.take_digits s2) as [d r'] eqn:Hdigits.
  apply take_digits_length in Hdigits.
  destruct d; intros [= <- <-]; simpl; lia.
Qed.

Lemma match_number_length (s lexeme r : string) :
  Json.match_number s = Some (lexeme, r) ->
  String.length r < String.length s.
Proof.
  unfold Json.match_number.
  destruct (Json.int_part s) as [[i r1]|] eqn:Hint; [|discriminate].
  destruct (Json.frac_part r1) as [f r2] eqn:Hfrac.
  destruct (Json.exp_part r2) as [e r3] eqn:Hexp.
  intros [= <- <-].
  apply int_part_length in Hint. apply frac_part_length in Hfrac.
  apply exp_part_length in Hexp. lia.
Qed.

Lemma scan_atom_length (limits : Json.limits) (s : string) (v : pyval)
      (r : string) :
  Json.scan_atom limits s = Scanned v r -> String.length r < String.length s.
Proof.
  unfold Json.scan_atom.
  repeat match goal with
         | |- context [Json.strip_prefix ?p s] =>
             let H := fresh "Hprefix" in
             destruct (Json.strip_prefix p s) eqn:H;
             [ intros [= <- <-]; apply strip_prefix_length in H;
               simpl in H; lia | ]
         | |- context [Json.match_number s] =>
             let H := fresh "Hnumber" in
             destruct (Json.match_number s) as [[lexeme r']|] eqn:H;
             [ apply match_number_length in H;
               destruct (Json.int_digits lexeme) as [digits|];
               [destruct (Json.over_limit _ digits); [discriminate|]|];
               intros [= <- <-]; lia | ]
         end.
  discriminate.
Qed.

Lemma scan_atom_fuel (limits : Json.limits) (s : string) :
  Json.scan_atom limits s <> OutOfFuel.
Proof.
  unfold Json.scan_atom.
  repeat match goal with
         | |- context [Json.strip_prefix ?p s] =>
             destruct (Json.strip_prefix p s); [discriminate|]
         | |- context [Json.match_number s] =>
             destruct (Json.match_number s) as [[lexeme r']|];
             [ destruct (Json.int_digits lexeme) as [digits|];
               [destruct (Json.over_limit _ digits)|]; discriminate | ]
         end.
  discriminate.
Qed.

(** Passing a scanned string on, with more characters in front, keeps
    the bound on the unread input. *)
Lemma scanned_string_wrap (g : string -> string) (r : scan string)
      (k m : nat) :
  k < m ->
  consumes r k ->
  consumes
    match r with
    | Scanned str rest => Scanned (g str) rest
    | SyntaxError => SyntaxError
    | DigitLimit => DigitLimit
    | DepthLimit => DepthLimit
    | OutOfFuel => OutOfFuel
    end m.
Proof. destruct r; simpl; auto. lia. Qed.

(** [scanstring] never runs out of budget (it has none), and a success
    leaves strictly less input. *)
Lemma scanstring_bounded (n : nat) (s : string) :
  String.length s <= n ->
  consumes (Json.scanstring s) (String.length s).
Proof.
  revert s. induction n as [|n IH]; intros s Hlen.
  - destruct s; [exact I | simpl in Hlen; lia].
  - destruct s as [|c s1]; [exact I|].
    simpl Json.scanstring. simpl in Hlen.
    destruct (Ascii.eqb c dquote); [simpl; lia|].
    destruct (Ascii.eqb c backslash).
    + destruct s1 as [|e s2]; [exact I|].
      destruct (Ascii.eqb e "u").
      * destruct s2 as [|h1 [|h2 [|h3 [|h4 s6]]]]; try exact I.
        destruct (hex4 h1 h2 h3 h4) as [hi|]; [|exact I].
        simpl in Hlen.
        pose proof (scanned_string_wrap (utf8 hi) (Json.scanstring s6)
                      (String.length s6)
                      (String.length
                         (String c (String e (String h1 (String h2
                            (String h3 (String h4 s6)))))))
                      ltac:(simpl; lia) (IH s6 ltac:(lia))) as Halone.
        destruct (is_high_surrogate hi); [|exact Halone].
        destruct s6 as [|b1 [|u1 [|g1 [|g2 [|g3 [|g4 s12]]]]]];
          try exact Halone.
        destruct (Ascii.eqb b1 backslash && Ascii.eqb u1 "u");
          [|exact Halone].
        destruct (hex4 g1 g2 g3 g4) as [lo|]; [|exact I].
        destruct (is_low_surrogate lo); [|exact Halone].
        simpl in Hlen.
        apply scanned_string_wrap with (k := String.length s12);
          [simpl; lia | apply IH; lia].
      * destruct (simple_escape e) as [ch|]; [|exact I].
        simpl in Hlen.
        apply scanned_string_wrap with (k := String.length s2);
          [simpl; lia | apply IH; lia].
    + destruct (Nat.ltb (nat_of_ascii c) 32); [exact I|].
      apply scanned_string_wrap with (k := String.length s1);
        [simpl; lia | apply IH; lia].
Qed.

Lemma scanstring_consumes (s : string) :
  consumes (Json.scanstring s) (String.length s).
Proof. apply (scanstring_bounded (String.length s)). lia. Qed.

Lemma scan_atom_consumes (limits : Json.limits) (s : string) :
  consumes (Json.scan_atom limits s) (String.length s).
Proof.
  pose proof (scan_atom_fuel limits s) as Hfuel.
  pose proof (scan_atom_length limits s) as Hlength.
  destruct (Json.scan_atom limits s) as [v r| | | |]; simpl;
    try exact I.
  - apply (Hlength v r). reflexivity.
  - apply Hfuel. reflexivity.
Qed.

Lemma and_then_consumes {A B} (r : scan A) (k : A -> string -> scan B)
      (n m : nat) :
  consumes r n ->
  (forall a rest, String.length rest < n -> consumes (k a rest) m) ->
  consumes (Json.and_then r k) m.
Proof. destruct r as [a rest| | | |]; simpl; auto. Qed.

(** With two units of budget per character and one to spare (two for a
    sequence of items or pairs), the scanners never run out, whatever
    the interpreter allows. *)
Lemma scanners_consume (limits : Json.limits) (fuel : nat) :
  (forall depth s,
      2 * String.length s + 1 <= fuel ->
      consumes (Json.scan_once limits fuel depth s) (String.length s))
  /\ (forall depth s,
        2 * String.length s + 2 <= fuel ->
        consumes (Json.array_items limits fuel depth s) (String.length s))
  /\ (forall depth s,
        2 * String.length s + 2 <= fuel ->
        consumes (Json.object_pairs limits fuel depth s) (String.length s)).
Proof.
  induction fuel as [|f (IHonce & IHitems & IHpairs)].
  - repeat split; intros depth s Hfuel; lia.
  - split; [|split]; intros depth s Hfuel.
    + destruct s as [|c s']; [exact I|].
      cbn [Json.scan_once]. simpl String.length in *.
      destruct (Ascii.eqb c dquote).
      { apply and_then_consumes with (n := String.length s');
          [apply scanstring_consumes | intros str r Hr; simpl; lia]. }
      destruct (Ascii.eqb c "{").
      { destruct depth as [|deeper]; [exact I|].
        pose proof (skip_ws_length s') as Hws.
        destruct (skip_ws s') as [|d s2]; [exact I|]. simpl in Hws.
        destruct (Ascii.eqb d "}"); [simpl; lia|].
        destruct (Ascii.eqb d dquote); [|exact I].
        apply and_then_consumes with (n := String.length s2);
          [apply IHpairs; lia | intros ps r Hr; simpl; lia]. }
      destruct (Ascii.eqb c "[").
      { destruct depth as [|deeper]; [exact I|].
        pose proof (skip_ws_length s') as Hws.
        destruct (skip_ws s') as [|d s2]; [exact I|]. simpl in Hws.
        destruct (Ascii.eqb d "]"); [simpl; lia|].
        apply and_then_consumes with (n := String.length (String d s2));
          [apply IHitems; simpl; lia | intros vs r Hr; simpl in *; lia]. }
      apply (scan_atom_consumes limits (String c s')).
    + cbn [Json.array_items].
      apply and_then_consumes with (n := String.length s);
        [apply IHonce; lia|].
      intros v r Hr.
      pose proof (skip_ws_length r) as Hws.
      destruct (skip_ws r) as [|d r']; [exact I|]. simpl in Hws.
      destruct (Ascii.eqb d "]"); [simpl; lia|].
      destruct (Ascii.eqb d ","); [|exact I].
      pose proof (skip_ws_length r') as Hws'.
      apply and_then_consumes with (n := String.length (skip_ws r'));
        [apply IHitems; lia | intros vs r2 Hr2; simpl; lia].
    + cbn [Json.object_pairs].
      apply and_then_consumes with (n := String.length s);
        [apply scanstring_consumes|].
      intros key r Hr.
      pose proof (skip_ws_length r) as Hws.
      destruct (skip_ws r) as [|d r1]; [exact I|]. simpl in Hws.
      destruct (Ascii.eqb d ":"); [|exact I].
      pose proof (skip_ws_length r1) as Hws1.
      apply and_then_consumes with (n := String.length (skip_ws r1));
        [apply IHonce; lia|].
      intros v r2 Hr2.
      pose proof (skip_ws_length r2) as Hws2.
      destruct (skip_ws r2) as [|e r3]; [exact I|]. simpl in Hws2.
      destruct (Ascii.eqb e "}"); [simpl; lia|].
      destruct (Ascii.eqb e ","); [|exact I].
      pose proof (skip_ws_length r3) as Hws3.
      destruct (skip_ws r3) as [|q r4]; [exact I|]. simpl in Hws3.
      destruct (Ascii.eqb q dquote); [|exact I].
      apply and_then_consumes with (n := String.length r4);
        [apply IHpairs; lia | intros ps r5 Hr5; simpl; lia].
Qed.

(** [json.loads] is total: [decode] always ends with a value, with a
    syntax error or at one of the interpreter's two limits, so each error
    of [loads] stands for the exception it names. *)
Theorem decode_never_out_of_fuel (limits : Json.limits) (s : string) :
  Json.decode limits s <> OutOfFuel.
Proof.
  unfold Json.decode.
  pose proof (skip_ws_length s) as Hws.
  pose proof (proj1 (scanners_consume limits (2 * String.length s + 2))
                (Json.max_depth limits) (skip_ws s) ltac:(lia)) as Hscan.
  destruct (Json.scan_once limits (2 * String.length s + 2)
              (Json.max_depth limits) (skip_ws s))
    as [v rest| | | |]; simpl in *; try discriminate.
  - destruct (skip_ws rest); discriminate.
  - contradiction.
Qed.

Corollary loads_errors_are_the_decoder's (limits : Json.limits) (s : string) :
  (Json.loads limits s = inl JSONDecodeError
   <-> Json.decode limits s = SyntaxError)
  /\ (Json.loads limits s = inl ValueError
      <-> Json.decode limits s = DigitLimit)
  /\ (Json.loads limits s = inl RecursionError
      <-> Json.decode limits s = DepthLimit).
Proof.
  unfold Json.loads. pose proof (decode_never_out_of_fuel limits s) as Hfuel.
  destruct (Json.decode limits s); repeat split; congruence.
Qed.

(** ** [json.loads] on more sample inputs *)

Example loads_surrogate_pair :
  Json.loads cpython
             (quoted (String backslash "ud83d" ++ String backslash "ude00"))
  = inr (PyStr (String "240" (String "159" (String "152"
                  (String "128" EmptyString))))).
Proof. vm_compute. reflexivity. Qed.

Example loads_duplicate_key_last_wins :
  match Json.loads cpython
                   ("{" ++ quoted "a" ++ ":1," ++ quoted "a" ++ ":2}") with
  | inr object => subscript_str object "a"
  | inl e => inl e
  end = inr (PyNum "2").
Proof. vm_compute. reflexivity. Qed.

Example loads_rejects_leading_zero :
  Json.loads cpython "01" = inl JSONDecodeError.
Proof. vm_compute. reflexivity. Qed.

Example loads_rejects_missing_comma :
  Json.loads cpython "[1 2]" = inl JSONDecodeError.
Proof. vm_compute. reflexivity. Qed.

Example loads_rejects_control_character :
  Json.loads cpython (quoted (String "009" EmptyString))
  = inl JSONDecodeError.
Proof. vm_compute. reflexivity. Qed.

Example loads_accepts_nan_and_blanks :
  Json.loads cpython "  [NaN, -Infinity , 1.5E+3, {}]  "
  = inr (PyList [PyNum "NaN"; PyNum "-Infinity"; PyNum "1.5E+3";
                 PyDict []]).
Proof. vm_compute. reflexivity. Qed.

Example loads_number_is_not_subscriptable :
  ImageTyperz.parse_geetest_result cpython (PyStr "123") = inl TypeError.
Proof. vm_compute. reflexivity. Qed.

(** * Further properties of the solvers *)

(** ** Unfolding equations of the string primitives *)

Lemma startswith_nil (s : string) : Py.startswith s EmptyString = true.
Proof. reflexivity. Qed.

Lemma startswith_cons (b a : ascii) (s p : string) :
  Py.startswith (String b s) (String a p) = Ascii.eqb a b && Py.startswith s p.
Proof. reflexivity. Qed.

Lemma startswith_empty (a : ascii) (p : string) :
  Py.startswith EmptyString (String a p) = false.
Proof. reflexivity. Qed.

Lemma contains_cons (sub : string) (c : ascii) (s : string) :
  Py.contains sub (String c s)
  = Py.startswith (String c s) sub || Py.contains sub s.
Proof. reflexivity. Qed.

Lemma contains_empty (sub : string) :
  Py.contains sub EmptyString = Py.startswith EmptyString sub.
Proof. unfold Py.contains. apply orb_false_r. Qed.

(** ** The word [error] in a submit reply (ImageTyperz) *)

Lemma startswith_lower (s p : string) :
  Py.startswith s p = true ->
  Py.startswith (Py.lower s) (Py.lower p) = true.
Proof.
  revert s. induction p as [|a p IH]; intros s; [reflexivity|].
  destruct s as [|b s]; [discriminate|].
  rewrite startswith_cons. intros Hstarts.
  apply andb_true_iff in Hstarts. destruct Hstarts as [Hab Hrest].
  apply Ascii.eqb_eq in Hab. subst b.
  cbn [Py.lower]. rewrite startswith_cons, Ascii.eqb_refl. apply IH, Hrest.
Qed.

Lemma contains_lower (sub s : string) :
  Py.contains sub s = true ->
  Py.contains (Py.lower sub) (Py.lower s) = true.
Proof.
  induction s as [|c s IH].
  - rewrite contains_empty. intros Hstarts.
    apply startswith_lower in Hstarts.
    change (Py.lower EmptyString) with EmptyString in *.
    rewrite contains_empty. exact Hstarts.
  - rewrite contains_cons. intros Hhas.
    cbn [Py.lower]. rewrite contains_cons.
    apply orb_true_iff in Hhas. apply orb_true_iff.
    destruct Hhas as [Hhere|Hlater].
    + left. apply (startswith_lower (String c s) sub Hhere).
    + right. apply IH, Hlater.
Qed.

(** What the lowered text starts with is the lowering of what the text
    starts with. *)
Lemma startswith_lower_inv (s sub : string) :
  Py.startswith (Py.lower s) sub = true ->
  exists needle, Py.lower needle = sub /\ Py.startswith s needle = true.
Proof.
  revert s. induction sub as [|a sub IH]; intros s Hstarts.
  - exists EmptyString. split; reflexivity.
  - destruct s as [|b s]; [discriminate|].
    cbn [Py.lower] in Hstarts. rewrite startswith_cons in Hstarts.
    apply andb_true_iff in Hstarts. destruct Hstarts as [Hab Hrest].
    apply Ascii.eqb_eq in Hab.
    destruct (IH s Hrest) as (needle & Hlower & Hneedle).
    exists (String b needle). split.
    + cbn [Py.lower]. congruence.
    + rewrite startswith_cons, Ascii.eqb_refl. exact Hneedle.
Qed.

Lemma contains_lower_inv (s sub : string) :
  Py.contains sub (Py.lower s) = true ->
  exists needle, Py.lower needle = sub /\ Py.contains needle s = true.
Proof.
  induction s as [|c s IH].
  - change (Py.lower EmptyString) with EmptyString.
    rewrite contains_empty. intros Hstarts.
    destruct (startswith_lower_inv EmptyString sub Hstarts)
      as (needle & Hlower & Hneedle).
    exists needle. split; [exact Hlower|].
    rewrite contains_empty. exact Hneedle.
  - cbn [Py.lower]. rewrite contains_cons. intros Hhas.
    apply orb_true_iff in Hhas. destruct Hhas as [Hhere|Hlater].
    + destruct (startswith_lower_inv (String c s) sub Hhere)
        as (needle & Hlower & Hneedle).
      exists needle. split; [exact Hlower|].
      rewrite contains_cons, Hneedle. reflexivity.
    + destruct (IH Hlater) as (needle & Hlower & Hneedle).
      exists needle. split; [exact Hlower|].
      rewrite contains_cons, Hneedle. apply orb_true_r.
Qed.

Lemma imagetyperz_submit_once (submit_url : string)
      (params : list (string * string)) (body : string) (rest : list reply) :
  ImageTyperz.submit_imagetyperz_request_once submit_url params
    (Text body :: rest)
  = mkRun (if Py.contains "error" (Py.lower body)
           then Raised HTTPError else Returned body)
          [Sent (mkRequest POST submit_url params params)] rest.
Proof.
  unfold ImageTyperz.submit_imagetyperz_request_once. simpl.
  destruct (Py.contains "error" (Py.lower body)); reflexivity.
Qed.

(** An ImageTyperz submit attempt fails, with the transient
    [requests.HTTPError], exactly on the replies that contain the word
    [error] in some casing; on every other reply it returns the whole
    reply text as the job identifier. *)
Theorem imagetyperz_submit_fails_on_error_in_any_casing :
  forall (submit_url : string) (params : list (string * string))
         (body : string) (rest : list reply),
    ((exists needle,
         Py.lower needle = "error" /\ Py.contains needle body = true)
     <-> ImageTyperz.submit_imagetyperz_request_once submit_url params
           (Text body :: rest)
         = mkRun (Raised HTTPError)
                 [Sent (mkRequest POST submit_url params params)] rest)
    /\ ((forall needle,
            Py.lower needle = "error" -> Py.contains needle body = false)
        <-> ImageTyperz.submit_imagetyperz_request_once submit_url params
              (Text body :: rest)
            = mkRun (Returned body)
                    [Sent (mkRequest POST submit_url params params)] rest).
Proof.
  intros submit_url params body rest. rewrite imagetyperz_submit_once.
  destruct (Py.contains "error" (Py.lower body)) eqn:Hhas.
  - destruct (contains_lower_inv _ _ Hhas) as (needle & Hlower & Hneedle).
    split; split; try discriminate; try reflexivity.
    + intros _. exists needle. auto.
    + intros Hnone. rewrite (Hnone needle Hlower) in Hneedle. discriminate.
  - split; split; try discriminate; try reflexivity.
    + intros (needle & Hlower & Hneedle).
      apply contains_lower in Hneedle. rewrite Hlower, Hhas in Hneedle.
      discriminate.
    + intros _ needle Hlower.
      destruct (Py.contains needle body) eqn:Hneedle; [|reflexivity].
      apply contains_lower in Hneedle. rewrite Hlower, Hhas in Hneedle.
      discriminate.
Qed.

(** ** Transient failures before a submit goes through *)

Lemma after_after {A} (evs1 evs2 : list event) (r : run A) :
  after evs1 (after evs2 r) = after (evs1 ++ evs2) r.
Proof. unfold after. simpl. rewrite app_assoc. reflexivity. Qed.

Section Failures.

Context {A : Type}.
Variable f : M A.
Variable ev : event.

(** While attempts are left, every reply that makes an attempt end in a
    retryable error, after the single event [ev], costs one attempt and
    one wait. *)
Lemma on_exception_after_failures (fails : list reply) (tries : nat)
      (script : list reply) :
  List.length fails < tries ->
  (forall r rest, In r fails ->
     exists e, f (r :: rest) = mkRun (Raised e) [ev] rest
               /\ retryable e = true) ->
  on_exception tries f (fails ++ script)
  = after (concat (repeat [ev; BackedOff] (List.length fails)))
          (on_exception (tries - List.length fails) f script).
Proof.
  revert tries. induction fails as [|r fails IH]; intros tries Hlt Hfails.
  - simpl List.length. cbn [repeat concat app].
    rewrite Nat.sub_0_r, after_nil. reflexivity.
  - simpl in Hlt. destruct tries as [|[|left]]; try lia.
    destruct (Hfails r (fails ++ script)%list (or_introl eq_refl))
      as (e & Hrun & Hretry).
    change ((r :: fails) ++ script)%list with (r :: fails ++ script)%list.
    rewrite (on_exception_retry f left _ e);
      [|rewrite Hrun; reflexivity | exact Hretry].
    rewrite Hrun. cbn [trace unread].
    rewrite IH; [|lia | intros r' rest' Hin; apply Hfails; right; exact Hin].
    rewrite after_after. reflexivity.
Qed.

End Failures.

Lemma imagetyperz_submit_fails (submit_url : string)
      (params : list (string * string)) (fails : list string) :
  Forall (fun body => Py.contains "error" (Py.lower body) = true) fails ->
  forall r rest,
    In r (map Text fails) ->
    exists e,
      ImageTyperz.submit_imagetyperz_request_once submit_url params (r :: rest)
      = mkRun (Raised e) [Sent (mkRequest POST submit_url params params)] rest
      /\ retryable e = true.
Proof.
  intros Hall r rest Hin. apply in_map_iff in Hin.
  destruct Hin as (body & <- & Hin).
  rewrite Forall_forall in Hall.
  exists HTTPError. rewrite imagetyperz_submit_once, (Hall body Hin).
  split; reflexivity.
Qed.

Lemma twocaptcha_submit_fails (params : list (string * string))
      (fails : list string) :
  Forall (fun body => Py.startswith body "OK" = false) fails ->
  forall r rest,
    In r (map Text fails) ->
    exists e,
      TwoCaptcha.submit_2captcha_v1_request_once params (r :: rest)
      = mkRun (Raised e) [Sent (TwoCaptcha.submit_request params)] rest
      /\ retryable e = true.
Proof.
  intros Hall r rest Hin. apply in_map_iff in Hin.
  destruct Hin as (body & <- & Hin).
  rewrite Forall_forall in Hall.
  exists HTTPError. rewrite twocaptcha_submit_once, (Hall body Hin).
  split; reflexivity.
Qed.

(** A submit that fails transiently fewer times than attempts are allowed
    and then gets a good reply returns that reply's job identifier: every
    failing reply cost one request and one wait, the good one a last
    request, and no further reply is read. *)
Theorem submit_goes_through_after_transient_failures :
  forall (max_tries : nat) (fails : list string) (good : string)
         (rest : list reply),
    List.length fails < max_tries ->
    (forall submit_url params,
        Forall (fun body => Py.contains "error" (Py.lower body) = true) fails ->
        Py.contains "error" (Py.lower good) = false ->
        let rq := Sent (mkRequest POST submit_url params params) in
        ImageTyperz.submit_imagetyperz_request max_tries submit_url params
          (map Text fails ++ Text good :: rest)%list
        = mkRun (Returned good)
                (concat (repeat [rq; BackedOff] (List.length fails)) ++ [rq])
                rest)
    /\ (forall params,
          Forall (fun body => Py.startswith body "OK" = false) fails ->
          Py.startswith good "OK" = true ->
          Py.contains "|" good = true ->
          let rq := Sent (TwoCaptcha.submit_request params) in
          exists id,
            part (Py.split "|" good) 1 = inr id
            /\ TwoCaptcha.submit_2captcha_v1_request max_tries params
                 (map Text fails ++ Text good :: rest)%list
               = mkRun (Returned id)
                   (concat (repeat [rq; BackedOff] (List.length fails))
                      ++ [rq])
                   rest).
Proof.
  intros max_tries fails good rest Hlt. split.
  - intros submit_url params Hfails Hgood rq.
    unfold ImageTyperz.submit_imagetyperz_request.
    rewrite (on_exception_after_failures _ rq);
      [| rewrite length_map; exact Hlt
       | apply imagetyperz_submit_fails; exact Hfails].
    rewrite length_map.
    rewrite (on_exception_returned _ _ _ good);
      rewrite imagetyperz_submit_once, Hgood; reflexivity.
  - intros params Hfails Hok Hpipe rq.
    destruct (second_piece good Hpipe) as (pre & id & tail & _ & _ & _ & _ & Hid).
    exists id. split; [exact Hid|].
    unfold TwoCaptcha.submit_2captcha_v1_request.
    rewrite (on_exception_after_failures _ rq);
      [| rewrite length_map; exact Hlt
       | apply twocaptcha_submit_fails; exact Hfails].
    rewrite length_map.
    rewrite (on_exception_returned _ _ _ id);
      rewrite twocaptcha_submit_once, Hok, Hid; reflexivity.
Qed.

Lemma submit_goes_through_after_transient_failures_witness :
  ImageTyperz.submit_imagetyperz_request 3 "http://captchatypers.com/x" []
    [Text "ERROR: LIMIT"; Text "Server Error"; Text "991"; Text "unread"]
  = mkRun (Returned "991")
      [Sent (mkRequest POST "http://captchatypers.com/x" [] []); BackedOff;
       Sent (mkRequest POST "http://captchatypers.com/x" [] []); BackedOff;
       Sent (mkRequest POST "http://captchatypers.com/x" [] [])]
      [Text "unread"].
Proof.
  exact (proj1 (submit_goes_through_after_transient_failures 3
                  ["ERROR: LIMIT"; "Server Error"] "991" [Text "unread"]
                  ltac:(simpl; lia))
               "http://captchatypers.com/x" []
               ltac:(repeat constructor) eq_refl).
Defined.

(** A submit that gets as many transiently failing replies as attempts
    are allowed gives up with [requests.HTTPError]: it has sent one
    request per attempt, waited between them, and reads no further
    reply. *)
Theorem submit_gives_up_after_max_tries :
  forall (fails : list string) (last : string) (rest : list reply),
    (forall submit_url params,
        Forall (fun body => Py.contains "error" (Py.lower body) = true)
               (last :: fails) ->
        let rq := Sent (mkRequest POST submit_url params params) in
        ImageTyperz.submit_imagetyperz_request (S (List.length fails))
          submit_url params (map Text fails ++ Text last :: rest)%list
        = mkRun (Raised HTTPError)
                (concat (repeat [rq; BackedOff] (List.length fails)) ++ [rq])
                rest)
    /\ (forall params,
          Forall (fun body => Py.startswith body "OK" = false)
                 (last :: fails) ->
          let rq := Sent (TwoCaptcha.submit_request params) in
          TwoCaptcha.submit_2captcha_v1_request (S (List.length fails)) params
            (map Text fails ++ Text last :: rest)%list
          = mkRun (Raised HTTPError)
                  (concat (repeat [rq; BackedOff] (List.length fails))
                     ++ [rq])
                  rest).
Proof.
  intros fails last rest.
  assert (Hone : S (List.length fails) - List.length fails = 1) by lia.
  split.
  - intros submit_url params Hall rq.
    apply Forall_cons_iff in Hall. destruct Hall as [Hlast Hfails].
    unfold ImageTyperz.submit_imagetyperz_request.
    rewrite (on_exception_after_failures _ rq);
      [| rewrite length_map; lia
       | apply imagetyperz_submit_fails; exact Hfails].
    rewrite length_map, Hone, on_exception_last.
    rewrite imagetyperz_submit_once, Hlast. reflexivity.
  - intros params Hall rq.
    apply Forall_cons_iff in Hall. destruct Hall as [Hlast Hfails].
    unfold TwoCaptcha.submit_2captcha_v1_request.
    rewrite (on_exception_after_failures _ rq);
      [| rewrite length_map; lia
       | apply twocaptcha_submit_fails; exact Hfails].
    rewrite length_map, Hone, on_exception_last.
    rewrite twocaptcha_submit_once, Hlast. reflexivity.
Qed.

Lemma submit_gives_up_after_max_tries_witness :
  TwoCaptcha.submit_2captcha_v1_request 2 []
    [Text "ERROR_NO_SLOT_AVAILABLE"; Text "ERROR_NO_SLOT_AVAILABLE";
     Text "OK|991"]
  = mkRun (Raised HTTPError)
      [Sent (TwoCaptcha.submit_request []); BackedOff;
       Sent (TwoCaptcha.submit_request [])]
      [Text "OK|991"].
Proof.
  exact (proj2 (submit_gives_up_after_max_tries ["ERROR_NO_SLOT_AVAILABLE"]
                  "ERROR_NO_SLOT_AVAILABLE" [Text "OK|991"])
               [] ltac:(repeat constructor)).
Defined.

(** ** What a 2Captcha poll reply yields *)

Lemma split_once_pipe_cons (c : ascii) (s : string) :
  Py.split_from "|" (Some 1) 0 (String c s)
  = if Ascii.eqb "|" c then (EmptyString, [s])
    else let '(p, ps) := Py.split_from "|" (Some 1) 0 s in (String c p, ps).
Proof.
  simpl. rewrite startswith_cons, startswith_nil, andb_true_r.
  destruct (Ascii.eqb "|" c); [rewrite split_from_exhausted|]; reflexivity.
Qed.

(** Split once, a text is cut at its first pipe. *)
Lemma split_max_first_pipe (pre post : string) :
  Py.contains "|" pre = false ->
  Py.split_max "|" 1 (pre ++ "|" ++ post) = [pre; post].
Proof.
  unfold Py.split_max. induction pre as [|c pre IH]; intros Hfree.
  - change (EmptyString ++ "|" ++ post) with (String "|" post).
    rewrite split_once_pipe_cons. reflexivity.
  - rewrite contains_pipe_cons in Hfree. apply orb_false_elim in Hfree.
    destruct Hfree as [Hc Hpre].
    change (String c pre ++ "|" ++ post) with (String c (pre ++ "|" ++ post)).
    rewrite split_once_pipe_cons, Hc.
    specialize (IH Hpre).
    destruct (Py.split_from "|" (Some 1) 0 (pre ++ "|" ++ post)) as [p ps].
    injection IH as -> ->. reflexivity.
Qed.

Lemma split_max_pipe_free (s : string) :
  Py.contains "|" s = false -> Py.split_max "|" 1 s = [s].
Proof.
  unfold Py.split_max. induction s as [|c s IH]; intros Hfree;
    [reflexivity|].
  rewrite contains_pipe_cons in Hfree. apply orb_false_elim in Hfree.
  destruct Hfree as [Hc Hs].
  rewrite split_once_pipe_cons, Hc. specialize (IH Hs).
  destruct (Py.split_from "|" (Some 1) 0 s) as [p ps].
  injection IH as -> ->. reflexivity.
Qed.

(** A 2Captcha poll reply without markers that begins with [OK]: the
    result is everything after the first pipe, later pipes included
    (the submit keeps only the text up to the next pipe). *)
Theorem twocaptcha_poll_returns_all_after_first_pipe :
  forall (api_key captcha_id : string) (max_tries : nat)
         (pre payload : string) (rest : list reply),
    Py.startswith (pre ++ "|" ++ payload) "OK" = true ->
    Py.contains "|" pre = false ->
    Reply.marker_free (pre ++ "|" ++ payload) ->
    TwoCaptcha.retrieve_2captcha_v1_result api_key max_tries captcha_id
      (Text (pre ++ "|" ++ payload) :: rest)
    = mkRun (Returned payload)
            [Sent (TwoCaptcha.retrieve_request api_key captcha_id)] rest.
Proof.
  intros api_key captcha_id max_tries pre payload rest Hok Hpre Hfree.
  assert (Honce :
            TwoCaptcha.retrieve_2captcha_v1_result_once api_key captcha_id
              (Text (pre ++ "|" ++ payload) :: rest)
            = mkRun (Returned payload)
                    [Sent (TwoCaptcha.retrieve_request api_key captcha_id)]
                    rest).
  { rewrite (twocaptcha_poll_marker_free _ _ _ _ Hfree), Hok.
    rewrite (split_max_first_pipe _ _ Hpre). reflexivity. }
  unfold TwoCaptcha.retrieve_2captcha_v1_result.
  rewrite (on_exception_returned _ _ _ payload); rewrite Honce; reflexivity.
Qed.

Lemma twocaptcha_poll_returns_all_after_first_pipe_witness :
  TwoCaptcha.retrieve_2captcha_v1_result "key" 3 "991"
    [Text "OK|03AGdBq25|extra|fields"]
  = mkRun (Returned "03AGdBq25|extra|fields")
          [Sent (TwoCaptcha.retrieve_request "key" "991")] [].
Proof.
  exact (twocaptcha_poll_returns_all_after_first_pipe "key" "991" 3
           "OK" "03AGdBq25|extra|fields" [] eq_refl eq_refl
           (conj eq_refl (conj eq_refl eq_refl))).
Defined.

(** A 2Captcha poll reply without markers that begins with [OK] but has
    no pipe has no second piece: the call ends with [IndexError], which
    is none of the taxonomy's kinds and is not retried. *)
Theorem twocaptcha_poll_ok_without_pipe_raises_index_error :
  forall (api_key captcha_id : string) (max_tries : nat)
         (body : string) (rest : list reply),
    Py.startswith body "OK" = true ->
    Py.contains "|" body = false ->
    Reply.marker_free body ->
    TwoCaptcha.retrieve_2captcha_v1_result api_key max_tries captcha_id
      (Text body :: rest)
    = mkRun (Raised IndexError)
            [Sent (TwoCaptcha.retrieve_request api_key captcha_id)] rest
    /\ classify IndexError = None.
Proof.
  intros api_key captcha_id max_tries body rest Hok Hpipe Hfree.
  split; [|reflexivity].
  assert (Honce :
            TwoCaptcha.retrieve_2captcha_v1_result_once api_key captcha_id
              (Text body :: rest)
            = mkRun (Raised IndexError)
                    [Sent (TwoCaptcha.retrieve_request api_key captcha_id)]
                    rest).
  { rewrite (twocaptcha_poll_marker_free _ _ _ _ Hfree), Hok.
    rewrite (split_max_pipe_free _ Hpipe). reflexivity. }
  unfold TwoCaptcha.retrieve_2captcha_v1_result.
  rewrite (on_exception_raised _ _ _ IndexError);
    try rewrite Honce; reflexivity.
Qed.

Lemma twocaptcha_poll_ok_without_pipe_raises_index_error_witness :
  TwoCaptcha.retrieve_2captcha_v1_result "key" 3 "991" [Text "OK"]
  = mkRun (Raised IndexError)
          [Sent (TwoCaptcha.retrieve_request "key" "991")] [].
Proof.
  exact (proj1 (twocaptcha_poll_ok_without_pipe_raises_index_error "key"
                  "991" 3 "OK" [] eq_refl eq_refl
                  (conj eq_refl (conj eq_refl eq_refl)))).
Defined.

(** A 2Captcha poll reply that has none of the three markers and does not
    begin with [OK] raises the transient [requests.HTTPError].  With an
    attempt left, and always when the decorator has no ceiling (a ceiling
    of 0), the decorator waits and polls the same job again, without a
    new submit; on the last attempt (a ceiling of 1) the error
    propagates. *)
Theorem twocaptcha_poll_unknown_reply_is_retried :
  forall (api_key captcha_id : string) (body : string) (rest : list reply),
    Reply.marker_free body ->
    Py.startswith body "OK" = false ->
    let rq := Sent (TwoCaptcha.retrieve_request api_key captcha_id) in
    (forall left,
        TwoCaptcha.retrieve_2captcha_v1_result api_key (S (S left)) captcha_id
          (Text body :: rest)
        = after [rq; BackedOff]
            (TwoCaptcha.retrieve_2captcha_v1_result api_key (S left)
               captcha_id rest))
    /\ TwoCaptcha.retrieve_2captcha_v1_result api_key 1 captcha_id
         (Text body :: rest)
       = mkRun (Raised HTTPError) [rq] rest
    /\ TwoCaptcha.retrieve_2captcha_v1_result api_key 0 captcha_id
         (Text body :: rest)
       = after [rq; BackedOff]
           (TwoCaptcha.retrieve_2captcha_v1_result api_key 0 captcha_id rest).
Proof.
  intros api_key captcha_id body rest Hfree Hok rq.
  assert (Honce :
            TwoCaptcha.retrieve_2captcha_v1_result_once api_key captcha_id
              (Text body :: rest)
            = mkRun (Raised HTTPError) [rq] rest).
  { rewrite (twocaptcha_poll_marker_free _ _ _ _ Hfree), Hok. reflexivity. }
  unfold TwoCaptcha.retrieve_2captcha_v1_result. split; [|split].
  - intros left.
    rewrite (on_exception_retry _ _ _ HTTPError);
      try rewrite Honce; reflexivity.
  - rewrite on_exception_last. exact Honce.
  - apply (on_exception_retry_without_ceiling _ _ _ _ HTTPError Honce).
    reflexivity.
Qed.

Lemma twocaptcha_poll_unknown_reply_is_retried_witness :
  TwoCaptcha.retrieve_2captcha_v1_result "key" 2 "991"
    [Text "ERROR_WRONG_CAPTCHA_ID"; Text "OK|tok"]
  = after [Sent (TwoCaptcha.retrieve_request "key" "991"); BackedOff]
      (TwoCaptcha.retrieve_2captcha_v1_result "key" 1 "991" [Text "OK|tok"]).
Proof.
  exact (proj1 (twocaptcha_poll_unknown_reply_is_retried "key" "991"
                  "ERROR_WRONG_CAPTCHA_ID" [Text "OK|tok"]
                  (conj eq_refl (conj eq_refl eq_refl)) eq_refl) 0).
Defined.

(** ** GeeTest results *)






(** ** ImageTyperz poll replies of an unexpected shape *)






(** An ImageTyperz poll reply whose status is none of [Pending],
    [ERROR: IMAGE_TIMED_OUT] and [Solved] (another text, or a value that
    is not a string) raises the transient [requests.HTTPError].  With an
    attempt left, and always when the decorator has no ceiling (a ceiling
    of 0), the decorator waits and polls the same job again; on the last
    attempt (a ceiling of 1) the error propagates. *)
Theorem imagetyperz_poll_unknown_status_is_retried (limits : Json.limits) :
  forall (api_key captcha_id : string) (text : string)
         (response status : pyval) (rest : list reply),
    Reply.reports limits text response status ->
    eq_str status "Pending" = false ->
    eq_str status "ERROR: IMAGE_TIMED_OUT" = false ->
    eq_str status "Solved" = false ->
    let rq := Sent (ImageTyperz.retrieve_request api_key captcha_id) in
    (forall left,
        ImageTyperz.retrieve_imagetyperz_result limits api_key (S (S left))
          captcha_id (Text text :: rest)
        = after [rq; BackedOff]
            (ImageTyperz.retrieve_imagetyperz_result limits api_key (S left)
               captcha_id rest))
    /\ ImageTyperz.retrieve_imagetyperz_result limits api_key 1 captcha_id
         (Text text :: rest)
       = mkRun (Raised HTTPError) [rq] rest
    /\ ImageTyperz.retrieve_imagetyperz_result limits api_key 0 captcha_id
         (Text text :: rest)
       = after [rq; BackedOff]
           (ImageTyperz.retrieve_imagetyperz_result limits api_key 0
              captcha_id rest).
Proof.
  intros api_key captcha_id text response status rest Hreports
         Hpending Htimed Hsolved rq.
  assert (Honce :
            ImageTyperz.retrieve_imagetyperz_result_once limits api_key
              captcha_id (Text text :: rest)
            = mkRun (Raised HTTPError) [rq] rest).
  { rewrite (imagetyperz_poll_reports _ _ _ _ _ _ _ Hreports).
    rewrite Hpending, Htimed, Hsolved. reflexivity. }
  unfold ImageTyperz.retrieve_imagetyperz_result. split; [|split].
  - intros left.
    rewrite (on_exception_retry _ _ _ HTTPError);
      try rewrite Honce; reflexivity.
  - rewrite on_exception_last. exact Honce.
  - apply (on_exception_retry_without_ceiling _ _ _ _ HTTPError Honce).
    reflexivity.
Qed.

Lemma imagetyperz_poll_unknown_status_is_retried_witness :
  ImageTyperz.retrieve_imagetyperz_result cpython "key" 1 "991"
    [Text ("[{" ++ quoted "Status" ++ ":" ++ quoted "ERROR: INVALID_CAPTCHA_ID"
                ++ "}]")]
  = mkRun (Raised HTTPError)
          [Sent (ImageTyperz.retrieve_request "key" "991")] [].
Proof.
  refine (proj1 (proj2
            (imagetyperz_poll_unknown_status_is_retried cpython "key" "991"
               ("[{" ++ quoted "Status" ++ ":"
                     ++ quoted "ERROR: INVALID_CAPTCHA_ID" ++ "}]")
               (PyDict [("Status", PyStr "ERROR: INVALID_CAPTCHA_ID")])
               (PyStr "ERROR: INVALID_CAPTCHA_ID") [] _
               eq_refl eq_refl eq_refl))).
  eexists. repeat split; vm_compute; reflexivity.
Defined.

(** ** The pace of a poll *)

Lemma poll_trace_app (rq : request) (evs1 evs2 : list event) :
  poll_trace rq evs1 -> poll_trace rq evs2 ->
  poll_trace rq (evs1 ++ BackedOff :: evs2).
Proof.
  intros H1 H2. induction H1 as [|evs H1 IH|evs H1 IH]; simpl.
  - apply poll_wait, H2.
  - apply poll_sleep, IH.
  - apply poll_wait, IH.
Qed.

Lemma on_exception_poll_trace {A} (f : M A) (rq : request) :
  (forall script, poll_trace rq (trace (f script))) ->
  forall tries script, poll_trace rq (trace (on_exception tries f script)).
Proof.
  intros Hf tries script.
  destruct (on_exception_attempts f tries script) as [n ->]. clear tries.
  revert script. induction n as [|n IH]; intros script; [apply Hf|].
  destruct n as [|left]; [apply Hf|].
  cbn [attempts].
  destruct (out (f script)) as [a|e|]; try apply Hf.
  destruct (retryable e); [|apply Hf].
  cbn [after trace]. rewrite <- app_assoc.
  apply poll_trace_app; [apply Hf | apply IH].
Qed.

Lemma imagetyperz_poll_once_trace (limits : Json.limits)
      (api_key captcha_id : string) (script : list reply) :
  poll_trace (ImageTyperz.retrieve_request api_key captcha_id)
    (trace (ImageTyperz.retrieve_imagetyperz_result_once limits api_key
              captcha_id script)).
Proof.
  induction script as [|[body|] rest IH]; simpl; try apply poll_last.
  destruct (Py.is_empty body); [apply poll_last|].
  destruct (Json.loads limits body) as [e|parsed]; [apply poll_last|].
  destruct (subscript_int parsed 0) as [e|response]; [apply poll_last|].
  destruct (subscript_str response "Status") as [e|status];
    [apply poll_last|].
  destruct (eq_str status "Pending"); [apply poll_sleep, IH|].
  destruct (eq_str status "ERROR: IMAGE_TIMED_OUT"); [apply poll_last|].
  destruct (negb (eq_str status "Solved")); [apply poll_last|].
  destruct (subscript_str response "Response"); apply poll_last.
Qed.

Lemma twocaptcha_poll_once_trace (api_key captcha_id : string)
      (script : list reply) :
  poll_trace (TwoCaptcha.retrieve_request api_key captcha_id)
    (trace (TwoCaptcha.retrieve_2captcha_v1_result_once api_key captcha_id
              script)).
Proof.
  induction script as [|[body|] rest IH]; simpl; try apply poll_last.
  destruct (Py.contains "CAPCHA_NOT_READY" body); [apply poll_sleep, IH|].
  destruct (Py.contains "ERROR_CAPTCHA_UNSOLVABLE" body); [apply poll_last|].
  destruct (Py.contains "ERROR_ZERO_BALANCE" body); [apply poll_last|].
  destruct (negb (Py.startswith body "OK")); [apply poll_last|].
  destruct (part (Py.split_max "|" 1 body) 1); apply poll_last.
Qed.

Lemma imagetyperz_poll_trace (limits : Json.limits)
      (api_key captcha_id : string) (max_tries : nat) (script : list reply) :
  poll_trace (ImageTyperz.retrieve_request api_key captcha_id)
    (trace (ImageTyperz.retrieve_imagetyperz_result limits api_key max_tries
              captcha_id script)).
Proof.
  apply on_exception_poll_trace. apply imagetyperz_poll_once_trace.
Qed.

Lemma twocaptcha_poll_trace (api_key captcha_id : string) (max_tries : nat)
      (script : list reply) :
  poll_trace (TwoCaptcha.retrieve_request api_key captcha_id)
    (trace (TwoCaptcha.retrieve_2captcha_v1_result api_key max_tries
              captcha_id script)).
Proof.
  apply on_exception_poll_trace. apply twocaptcha_poll_once_trace.
Qed.

Lemma poll_trace_sleeps (rq : request) (evs : list event) :
  poll_trace rq evs -> Forall (fun seconds => seconds = 5%Z) (sleeps evs).
Proof.
  intros H. induction H as [|evs H IH|evs H IH]; simpl.
  - constructor.
  - constructor; [reflexivity | exact IH].
  - exact IH.
Qed.

Lemma poll_trace_counts (rq : request) (evs : list event) :
  poll_trace rq evs ->
  sends evs = S (List.length (sleeps evs) + backoffs evs).
Proof.
  unfold sends, backoffs.
  intros H. induction H as [|evs H IH|evs H IH]; simpl in *; lia.
Qed.

(** Whatever the backend replies, a poll is a sequence of requests for
    the one job it was given, with the same parameters each time; every
    request but the last is followed by exactly one sleep of five seconds
    (a pending reply) or one wait of the retry decorator (a transient
    failure).  So every sleep lasts five seconds, and the requests
    outnumber the sleeps and waits by one.  This holds for both
    backends. *)
Theorem poll_requests_are_paced (limits : Json.limits) :
  forall (api_key captcha_id : string) (max_tries : nat)
         (script : list reply),
    let imagetyperz :=
      trace (ImageTyperz.retrieve_imagetyperz_result limits api_key max_tries
               captcha_id script) in
    let twocaptcha :=
      trace (TwoCaptcha.retrieve_2captcha_v1_result api_key max_tries
               captcha_id script) in
    poll_trace (ImageTyperz.retrieve_request api_key captcha_id) imagetyperz
    /\ poll_trace (TwoCaptcha.retrieve_request api_key captcha_id) twocaptcha
    /\ Forall (fun seconds => seconds = 5%Z) (sleeps imagetyperz)
    /\ Forall (fun seconds => seconds = 5%Z) (sleeps twocaptcha)
    /\ sends imagetyperz
       = S (List.length (sleeps imagetyperz) + backoffs imagetyperz)
    /\ sends twocaptcha
       = S (List.length (sleeps twocaptcha) + backoffs twocaptcha).
Proof.
  intros api_key captcha_id max_tries script imagetyperz twocaptcha.
  pose proof (imagetyperz_poll_trace limits api_key captcha_id max_tries script)
    as Himage.
  pose proof (twocaptcha_poll_trace api_key captcha_id max_tries script)
    as Htwo.
  repeat split; try assumption.
  - exact (poll_trace_sleeps _ _ Himage).
  - exact (poll_trace_sleeps _ _ Htwo).
  - exact (poll_trace_counts _ _ Himage).
  - exact (poll_trace_counts _ _ Htwo).
Qed.

(** ** Where the requests go and what they carry *)

Lemma requests_satisfy_app (P : request -> Prop) (evs1 evs2 : list event) :
  requests_satisfy P evs1 -> requests_satisfy P evs2 ->
  requests_satisfy P (evs1 ++ evs2).
Proof. unfold requests_satisfy. intros H1 H2. apply Forall_app. auto. Qed.

Lemma bind_requests_satisfy {A B} (P : request -> Prop) (c : M A)
      (k : A -> M B) (script : list reply) :
  requests_satisfy P (trace (c script)) ->
  (forall a rest, requests_satisfy P (trace (k a rest))) ->
  requests_satisfy P (trace (bind c k script)).
Proof.
  intros Hc Hk. unfold bind, Monad_M.
  destruct (out (c script)) as [a|e|]; simpl; try exact Hc.
  apply requests_satisfy_app; [exact Hc | apply Hk].
Qed.

Lemma on_exception_requests_satisfy {A} (P : request -> Prop) (f : M A) :
  (forall script, requests_satisfy P (trace (f script))) ->
  forall tries script,
    requests_satisfy P (trace (on_exception tries f script)).
Proof.
  intros Hf tries script.
  destruct (on_exception_attempts f tries script) as [n ->]. clear tries.
  revert script. induction n as [|n IH]; intros script; [apply Hf|].
  destruct n as [|left]; [apply Hf|].
  cbn [attempts].
  destruct (out (f script)) as [a|e|]; try apply Hf.
  destruct (retryable e); [|apply Hf].
  cbn [after trace].
  repeat apply requests_satisfy_app; try apply Hf; try apply IH.
  constructor; [exact I | constructor].
Qed.

Lemma lift_requests_satisfy {A} (P : request -> Prop) (p : pure A)
      (script : list reply) :
  requests_satisfy P (trace (lift p script)).
Proof. destruct p; constructor. Qed.

Lemma poll_trace_requests_satisfy (P : request -> Prop) (rq : request)
      (evs : list event) :
  P rq -> poll_trace rq evs -> requests_satisfy P evs.
Proof.
  intros Hrq H. unfold requests_satisfy.
  induction H as [|evs H IH|evs H IH]; repeat constructor; auto.
Qed.

Lemma send_requests_satisfy (P : request -> Prop) (rq : request)
      (script : list reply) :
  P rq -> requests_satisfy P (trace (send rq script)).
Proof.
  intros Hrq. destruct script as [|[body|] rest]; repeat constructor; auto.
Qed.

Lemma imagetyperz_submit_requests (P : request -> Prop) (max_tries : nat)
      (submit_url : string) (params : list (string * string))
      (script : list reply) :
  P (mkRequest POST submit_url params params) ->
  requests_satisfy P
    (trace (ImageTyperz.submit_imagetyperz_request max_tries submit_url
              params script)).
Proof.
  intros Hrq. apply on_exception_requests_satisfy. clear script.
  intros script. unfold ImageTyperz.submit_imagetyperz_request_once.
  apply bind_requests_satisfy; [apply send_requests_satisfy, Hrq|].
  intros text rest.
  destruct (Py.contains "error" (Py.lower text)); constructor.
Qed.

Lemma twocaptcha_submit_requests (P : request -> Prop) (max_tries : nat)
      (params : list (string * string)) (script : list reply) :
  P (TwoCaptcha.submit_request params) ->
  requests_satisfy P
    (trace (TwoCaptcha.submit_2captcha_v1_request max_tries params script)).
Proof.
  intros Hrq. apply on_exception_requests_satisfy. clear script.
  intros script. unfold TwoCaptcha.submit_2captcha_v1_request_once.
  apply bind_requests_satisfy; [apply send_requests_satisfy, Hrq|].
  intros text rest.
  destruct (negb (Py.startswith text "OK"));
    [constructor | apply lift_requests_satisfy].
Qed.

(** Whatever the backend replies, every request of a solve operation goes
    to the solver's own service over plain [http] and carries the API
    key: ImageTyperz requests are POSTs to [captchatypers.com] with the
    key in the form field [token]; 2Captcha requests go to [2captcha.com]
    with an empty body and the key in the query parameter [key]. *)
Theorem every_request_carries_the_api_key (limits : Json.limits) :
  forall (api_key : string) (max_tries : nat) (script : list reply),
    let to_imagetyperz rq :=
      verb rq = POST
      /\ Py.startswith (url rq) "http://captchatypers.com/captchaapi/" = true
      /\ param (data rq) "token" = Some api_key in
    let to_twocaptcha rq :=
      Py.startswith (url rq) "http://2captcha.com/" = true
      /\ param (params rq) "key" = Some api_key
      /\ data rq = [] in
    (forall google_site_key page_url,
        requests_satisfy to_imagetyperz
          (trace (ImageTyperz.solve_recaptcha limits api_key max_tries
                    google_site_key page_url script)))
    /\ (forall bracketed_ok normalised_ok geetest token page_url,
          requests_satisfy to_imagetyperz
            (trace (ImageTyperz.solve_geetest limits api_key max_tries
                bracketed_ok
                      normalised_ok geetest token page_url script)))
    /\ (forall google_site_key page_url,
          requests_satisfy to_twocaptcha
            (trace (TwoCaptcha.solve_recaptcha api_key max_tries
                      google_site_key page_url script)))
    /\ (forall geetest token page_url,
          requests_satisfy to_twocaptcha
            (trace (TwoCaptcha.solve_geetest limits api_key max_tries geetest
                      token page_url script))).
Proof.
  intros api_key max_tries script to_imagetyperz to_twocaptcha.
  assert (Himage_poll : forall captcha_id rest,
             requests_satisfy to_imagetyperz
               (trace (ImageTyperz.retrieve_imagetyperz_result limits api_key
                         max_tries captcha_id rest))).
  { intros captcha_id rest.
    apply (poll_trace_requests_satisfy _
             (ImageTyperz.retrieve_request api_key captcha_id));
      [|apply imagetyperz_poll_trace].
    unfold to_imagetyperz. simpl. auto. }
  assert (Htwo_poll : forall captcha_id rest,
             requests_satisfy to_twocaptcha
               (trace (TwoCaptcha.retrieve_2captcha_v1_result api_key
                         max_tries captcha_id rest))).
  { intros captcha_id rest.
    apply (poll_trace_requests_satisfy _
             (TwoCaptcha.retrieve_request api_key captcha_id));
      [|apply twocaptcha_poll_trace].
    unfold to_twocaptcha. simpl. auto. }
  split; [|split; [|split]].
  - intros google_site_key page_url. unfold ImageTyperz.solve_recaptcha.
    apply bind_requests_satisfy.
    + apply imagetyperz_submit_requests. unfold to_imagetyperz. simpl. auto.
    + intros captcha_id rest. apply bind_requests_satisfy;
        [apply Himage_poll | intros; constructor].
  - intros bracketed_ok normalised_ok geetest token page_url.
    unfold ImageTyperz.solve_geetest.
    apply bind_requests_satisfy; [apply lift_requests_satisfy|].
    intros uri rest. apply bind_requests_satisfy.
    + apply imagetyperz_submit_requests. unfold to_imagetyperz. simpl. auto.
    + intros captcha_id rest'. apply bind_requests_satisfy;
        [apply Himage_poll | intros; apply lift_requests_satisfy].
  - intros google_site_key page_url. unfold TwoCaptcha.solve_recaptcha.
    apply bind_requests_satisfy.
    + apply twocaptcha_submit_requests. unfold to_twocaptcha. simpl. auto.
    + intros captcha_id rest. apply bind_requests_satisfy;
        [apply Htwo_poll | intros; constructor].
  - intros geetest token page_url. unfold TwoCaptcha.solve_geetest.
    apply bind_requests_satisfy.
    + apply twocaptcha_submit_requests. unfold to_twocaptcha. simpl. auto.
    + intros captcha_id rest. apply bind_requests_satisfy;
        [apply Htwo_poll|].
      intros text rest'.
      repeat (apply bind_requests_satisfy;
              [apply lift_requests_satisfy | intros]).
      constructor.
Qed.

(** ** The page URL of an ImageTyperz GeeTest call *)

Lemma urlparse_error (bracketed_ok normalised_ok : string -> bool)
      (page_url : string) (e : exn) :
  Url.urlparse bracketed_ok normalised_ok page_url = inl e -> e = ValueError.
Proof.
  unfold Url.urlparse.
  destruct (Url.split_scheme (Url.remove_unsafe (Url.lstrip page_url)))
    as [sch rest].
  destruct rest as [|a [|b after_slashes]]; try discriminate.
  destruct (Ascii.eqb a "/" && Ascii.eqb b "/"); [|discriminate].
  destruct (Url.take_netloc after_slashes) as [loc tail].
  unfold Url.check_netloc. simpl.
  repeat match goal with
         | |- context [if ?b then _ else _] => destruct b
         end; simpl; congruence.
Qed.

(** When [urlparse] rejects the page URL, the ImageTyperz [solve_geetest]
    ends with its [ValueError] before anything is sent: no request, no
    reply read. *)
Theorem imagetyperz_geetest_bad_url_sends_nothing (limits : Json.limits) :
  forall (api_key : string) (max_tries : nat)
         (bracketed_ok normalised_ok : string -> bool)
         (geetest token page_url : string) (e : exn) (script : list reply),
    Url.urlparse bracketed_ok normalised_ok page_url = inl e ->
    ImageTyperz.solve_geetest limits api_key max_tries bracketed_ok
      normalised_ok geetest token page_url script
    = mkRun (Raised ValueError) [] script
    /\ classify ValueError = None.
Proof.
  intros api_key max_tries bracketed_ok normalised_ok geetest token page_url
         e script Hparse.
  pose proof (urlparse_error _ _ _ _ Hparse) as ->.
  unfold ImageTyperz.solve_geetest. rewrite Hparse. split; reflexivity.
Qed.

Lemma imagetyperz_geetest_bad_url_sends_nothing_witness :
  ImageTyperz.solve_geetest cpython "key" 3 (fun _ => true) (fun _ => true)
    "gt" "challenge" "http://[::1/page" [Text "991"]
  = mkRun (Raised ValueError) [] [Text "991"].
Proof.
  exact (proj1 (imagetyperz_geetest_bad_url_sends_nothing cpython "key" 3
                  (fun _ => true) (fun _ => true) "gt" "challenge"
                  "http://[::1/page" ValueError [Text "991"] eq_refl)).
Defined.

Lemma take_netloc_clean (s loc tail : string) :
  Url.take_netloc s = (loc, tail) ->
  Url.has_char "/" loc = false
  /\ Url.has_char "?" loc = false
  /\ Url.has_char "#" loc = false.
Proof.
  revert loc tail. induction s as [|c s IH]; simpl; intros loc tail.
  - intros [= <- <-]. repeat split.
  - destruct (Ascii.eqb c "/") eqn:Hslash; simpl;
      [intros [= <- <-]; repeat split|].
    destruct (Ascii.eqb c "?") eqn:Hquery; simpl;
      [intros [= <- <-]; repeat split|].
    destruct (Ascii.eqb c "#") eqn:Hhash; simpl;
      [intros [= <- <-]; repeat split|].
    destruct (Url.take_netloc s) as [loc' tail'].
    intros [= <- <-]. destruct (IH _ _ eq_refl) as (H1 & H2 & H3).
    simpl. rewrite Hslash, Hquery, Hhash, H1, H2, H3. repeat split.
Qed.

Lemma scheme_char_lowered (c : ascii) :
  Url.is_scheme_char c = true ->
  Ascii.eqb (Py.lower_ascii c) "/" = false
  /\ Ascii.eqb (Py.lower_ascii c) "?" = false
  /\ Ascii.eqb (Py.lower_ascii c) "#" = false
  /\ Py.lower_ascii (Py.lower_ascii c) = Py.lower_ascii c.
Proof.
  destruct c as [[] [] [] [] [] [] [] []]; vm_compute;
    intros H; try discriminate H; repeat split.
Qed.

Lemma scheme_lowered_clean (head : string) :
  Url.all_chars Url.is_scheme_char head = true ->
  Url.has_char "/" (Py.lower head) = false
  /\ Url.has_char "?" (Py.lower head) = false
  /\ Url.has_char "#" (Py.lower head) = false
  /\ Py.lower (Py.lower head) = Py.lower head.
Proof.
  induction head as [|c head IH]; [repeat split|].
  cbn [Url.all_chars]. intros Hall. apply andb_true_iff in Hall.
  destruct Hall as [Hc Hhead].
  destruct (scheme_char_lowered c Hc) as (H1 & H2 & H3 & H4).
  destruct (IH Hhead) as (I1 & I2 & I3 & I4).
  cbn [Py.lower Url.has_char]. rewrite H1, H2, H3, H4, I1, I2, I3, I4.
  repeat split.
Qed.

Lemma split_scheme_clean (url sch rest : string) :
  Url.split_scheme url = (sch, rest) ->
  Url.has_char "/" sch = false
  /\ Url.has_char "?" sch = false
  /\ Url.has_char "#" sch = false
  /\ Py.lower sch = sch.
Proof.
  unfold Url.split_scheme.
  destruct (Url.cut_at_colon url) as [[[|c0 more] tail]|];
    try (intros [= <- <-]; repeat split).
  destruct (Url.is_alpha c0 && Url.all_chars Url.is_scheme_char (String c0 more))
    eqn:Hscheme; [|intros [= <- <-]; repeat split].
  intros [= <- <-]. apply andb_true_iff in Hscheme.
  apply (scheme_lowered_clean (String c0 more)). apply Hscheme.
Qed.

Lemma has_char_app (a : ascii) (s t : string) :
  Url.has_char a (s ++ t) = Url.has_char a s || Url.has_char a t.
Proof.
  induction s as [|c s IH]; simpl; [reflexivity|].
  rewrite IH. apply orb_assoc.
Qed.

(** The [domain] parameter of the ImageTyperz GeeTest submit holds the
    origin of the page only: a lower-case scheme and the network
    location, neither with a slash, so that the two slashes between them
    are the only ones, and no [?] or [#] at all.  The path, the query and
    the fragment of the page URL are never sent in it. *)
Theorem imagetyperz_geetest_domain_is_the_origin :
  forall (bracketed_ok normalised_ok : string -> bool)
         (page_url : string) (uri : Url.parse_result),
    Url.urlparse bracketed_ok normalised_ok page_url = inr uri ->
    ImageTyperz.domain_of uri = Url.scheme uri ++ "//" ++ Url.netloc uri
    /\ Url.has_char "/" (Url.scheme uri) = false
    /\ Url.has_char "/" (Url.netloc uri) = false
    /\ Url.has_char "?" (ImageTyperz.domain_of uri) = false
    /\ Url.has_char "#" (ImageTyperz.domain_of uri) = false
    /\ Py.lower (Url.scheme uri) = Url.scheme uri.
Proof.
  intros bracketed_ok normalised_ok page_url uri.
  unfold Url.urlparse.
  destruct (Url.split_scheme (Url.remove_unsafe (Url.lstrip page_url)))
    as [sch rest] eqn:Hscheme.
  destruct (split_scheme_clean _ _ _ Hscheme) as (S1 & S2 & S3 & S4).
  assert (Hbare : forall u, u = Url.mkParseResult sch EmptyString ->
             ImageTyperz.domain_of u = Url.scheme u ++ "//" ++ Url.netloc u
             /\ Url.has_char "/" (Url.scheme u) = false
             /\ Url.has_char "/" (Url.netloc u) = false
             /\ Url.has_char "?" (ImageTyperz.domain_of u) = false
             /\ Url.has_char "#" (ImageTyperz.domain_of u) = false
             /\ Py.lower (Url.scheme u) = Url.scheme u).
  { intros u ->. unfold ImageTyperz.domain_of.
    cbn [Url.scheme Url.netloc].
    rewrite !has_char_app, S2, S3. repeat split; auto. }
  destruct rest as [|a [|b after_slashes]];
    try (intros [= <-]; apply Hbare; reflexivity).
  destruct (Ascii.eqb a "/" && Ascii.eqb b "/");
    [|intros [= <-]; apply Hbare; reflexivity].
  destruct (Url.take_netloc after_slashes) as [loc tail] eqn:Hloc.
  destruct (take_netloc_clean _ _ _ Hloc) as (N1 & N2 & N3).
  destruct (Url.check_netloc bracketed_ok normalised_ok loc) as [e|[]];
    simpl; [discriminate|].
  intros [= <-]. unfold ImageTyperz.domain_of.
  cbn [Url.scheme Url.netloc].
  rewrite !has_char_app, S2, S3, N2, N3. repeat split; auto.
Qed.

Lemma imagetyperz_geetest_domain_is_the_origin_witness :
  ImageTyperz.domain_of
    (Url.mkParseResult "https" "www.immobilienscout24.de")
  = "https//www.immobilienscout24.de"
  /\ Url.has_char "?" "https//www.immobilienscout24.de" = false.
Proof.
  pose proof (imagetyperz_geetest_domain_is_the_origin (fun _ => true)
                (fun _ => true)
                "HTTPS://www.immobilienscout24.de/Suche/de/berlin?page=2#top"
                (Url.mkParseResult "https" "www.immobilienscout24.de")
                eq_refl) as (Hdomain & _ & _ & Hquery & _).
  split; [exact Hdomain | exact Hquery].
Defined.

(** ** From the submit to the poll *)

Lemma twocaptcha_submit_piece (max_tries : nat)
      (params : list (string * string)) (body id : string)
      (rest : list reply) :
  Py.startswith body "OK" = true ->
  part (Py.split "|" body) 1 = inr id ->
  TwoCaptcha.submit_2captcha_v1_request max_tries params (Text body :: rest)
  = mkRun (Returned id) [Sent (TwoCaptcha.submit_request params)] rest.
Proof.
  intros Hok Hid.
  unfold TwoCaptcha.submit_2captcha_v1_request.
  rewrite (on_exception_returned _ _ _ id);
    rewrite twocaptcha_submit_once, Hok, Hid; reflexivity.
Qed.

(** Once the submit went through, a reCAPTCHA call is its submit request
    followed by the poll for the job the submit named, and it ends as
    that poll ends, the polled value wrapped in the response.  For
    ImageTyperz the job is the whole submit reply, character for
    character; for 2Captcha it is the second piece of the reply. *)
Theorem recaptcha_polls_the_submitted_job (limits : Json.limits) :
  forall (api_key : string) (max_tries : nat)
         (google_site_key page_url submitted : string) (rest : list reply),
    (Py.contains "error" (Py.lower submitted) = false ->
     let poll := ImageTyperz.retrieve_imagetyperz_result limits api_key
                   max_tries submitted rest in
     let r := ImageTyperz.solve_recaptcha limits api_key max_tries
                google_site_key page_url (Text submitted :: rest) in
     trace r
     = Sent (mkRequest POST
               (ImageTyperz.BASE_URL ++ "/captchaapi/UploadRecaptchaToken.ashx")
               (ImageTyperz.recaptcha_params api_key google_site_key page_url)
               (ImageTyperz.recaptcha_params api_key google_site_key page_url))
         :: trace poll
     /\ unread r = unread poll
     /\ out r = match out poll with
                | Returned value => Returned (mkRecaptchaResponse value)
                | Raised e => Raised e
                | Starved => Starved
                end)
    /\ (forall id,
          Py.startswith submitted "OK" = true ->
          part (Py.split "|" submitted) 1 = inr id ->
          let poll := TwoCaptcha.retrieve_2captcha_v1_result api_key max_tries
                        id rest in
          let r := TwoCaptcha.solve_recaptcha api_key max_tries
                     google_site_key page_url (Text submitted :: rest) in
          trace r
          = Sent (TwoCaptcha.submit_request
                    (TwoCaptcha.recaptcha_params api_key google_site_key
                       page_url))
              :: trace poll
          /\ unread r = unread poll
          /\ out r = match out poll with
                     | Returned text => Returned (mkRecaptchaResponse (PyStr text))
                     | Raised e => Raised e
                     | Starved => Starved
                     end).
Proof.
  intros api_key max_tries google_site_key page_url submitted rest. split.
  - intros Hclean poll r. unfold r, ImageTyperz.solve_recaptcha.
    rewrite (bind_returned _ _ _ _ _ _
               (imagetyperz_submit_success max_tries _ _ submitted rest
                  Hclean)).
    unfold bind, Monad_M. fold poll.
    destruct (out poll); repeat split; simpl; rewrite ?app_nil_r; reflexivity.
  - intros id Hok Hid poll r. unfold r, TwoCaptcha.solve_recaptcha.
    rewrite (bind_returned _ _ _ _ _ _
               (twocaptcha_submit_piece max_tries _ submitted id rest
                  Hok Hid)).
    unfold bind, Monad_M. fold poll.
    destruct (out poll); repeat split; simpl; rewrite ?app_nil_r; reflexivity.
Qed.

Lemma recaptcha_polls_the_submitted_job_witness :
  trace (ImageTyperz.solve_recaptcha cpython "key" 3 "site"
      "https://example.com/"
           [Text " 991 "; Text pending_poll])
  = Sent (mkRequest POST
            (ImageTyperz.BASE_URL ++ "/captchaapi/UploadRecaptchaToken.ashx")
            (ImageTyperz.recaptcha_params "key" "site" "https://example.com/")
            (ImageTyperz.recaptcha_params "key" "site" "https://example.com/"))
      :: trace (ImageTyperz.retrieve_imagetyperz_result cpython "key" 3 " 991 "
                  [Text pending_poll])
  /\ trace (TwoCaptcha.solve_recaptcha "key" 3 "site" "https://example.com/"
              [Text "OK|991|x"; Text "CAPCHA_NOT_READY"])
     = Sent (TwoCaptcha.submit_request
               (TwoCaptcha.recaptcha_params "key" "site"
                  "https://example.com/"))
         :: trace (TwoCaptcha.retrieve_2captcha_v1_result "key" 3 "991"
                     [Text "CAPCHA_NOT_READY"]).
Proof.
  split.
  - exact (proj1 (proj1 (recaptcha_polls_the_submitted_job cpython "key" 3
      "site"
                           "https://example.com/" " 991 " [Text pending_poll])
                        eq_refl)).
  - exact (proj1 (proj2 (recaptcha_polls_the_submitted_job cpython "key" 3
                           "site" "https://example.com/" "OK|991|x"
                           [Text "CAPCHA_NOT_READY"])
                        "991" eq_refl eq_refl)).
Defined.

(** ** The decorator without a ceiling *)

Section WithoutCeiling.

Context {A : Type}.
Variable f : M A.
Hypothesis f_reads : reads_before_failing f.

(** More attempts than the script has replies are never all used. *)
Lemma attempts_enough (n : nat) (script : list reply) :
  List.length script < n ->
  attempts n f script = attempts (S (List.length script)) f script.
Proof.
  revert script. induction n as [n IH] using lt_wf_ind. intros script Hlen.
  destruct n as [|[|n]]; [lia | |].
  - destruct script; [reflexivity | simpl in Hlen; lia].
  - destruct script as [|r0 script0].
    + cbn [List.length attempts].
      destruct (out (f [])) as [a|e|] eqn:Hout; try reflexivity.
      pose proof (f_reads [] e Hout) as Hread. simpl in Hread. lia.
    + cbn [List.length] in *.
      rewrite (attempts_step f n), (attempts_step f (List.length script0)).
      destruct (out (f (r0 :: script0))) as [a|e|] eqn:Hout;
        try reflexivity.
      destruct (retryable e); [|reflexivity].
      pose proof (f_reads _ e Hout) as Hread. cbn [List.length] in Hread.
      f_equal.
      transitivity
        (attempts (S (List.length (unread (f (r0 :: script0))))) f
           (unread (f (r0 :: script0))));
        [apply IH | symmetry; apply IH]; lia.
Qed.

(** Without a ceiling the decorator never gives up: the call does not
    end with a retryable error. *)
Lemma on_exception_without_ceiling (script : list reply) (e : exn) :
  out (on_exception 0 f script) = Raised e -> retryable e = false.
Proof.
  unfold on_exception.
  assert (Hloop : forall n script,
             List.length script < n ->
             out (attempts n f script) = Raised e -> retryable e = false).
  { clear script. intros n. induction n as [|n IH]; intros script Hlen;
      [lia|].
    destruct n as [|n].
    - destruct script; [|simpl in Hlen; lia].
      cbn [attempts]. intros Hout.
      pose proof (f_reads [] e Hout) as Hread. simpl in Hread. lia.
    - rewrite attempts_step.
      destruct (out (f script)) as [a|e'|] eqn:Hout;
        try (rewrite Hout; discriminate).
      destruct (retryable e') eqn:Hretry.
      + cbn [after out]. apply IH.
        pose proof (f_reads _ e' Hout) as Hread. lia.
      + rewrite Hout. intros [= <-]. exact Hretry. }
  apply Hloop. lia.
Qed.

Lemma attempts_after (evs : list event) (script script' : list reply)
      (tries : nat) :
  f script = after evs (f script') ->
  attempts tries f script = after evs (attempts tries f script').
Proof.
  intros Hf. destruct tries as [|[|left]]; simpl; try exact Hf.
  rewrite Hf. cbn [after out trace unread].
  destruct (out (f script')) as [a|e|]; try reflexivity.
  destruct (retryable e); [|reflexivity].
  rewrite after_after, app_assoc. reflexivity.
Qed.

(** An attempt that goes through some replies and then does what an
    attempt on the following replies does: so does the decorated call. *)
Lemma on_exception_after (evs : list event) (script script' : list reply)
      (tries : nat) :
  List.length script' <= List.length script ->
  f script = after evs (f script') ->
  on_exception tries f script = after evs (on_exception tries f script').
Proof.
  intros Hlen Hf. destruct tries as [|tries]; unfold on_exception.
  - rewrite (attempts_after _ _ _ _ Hf). f_equal.
    apply attempts_enough. lia.
  - apply attempts_after. exact Hf.
Qed.

End WithoutCeiling.

(** The four decorated methods send their request first. *)
Lemma imagetyperz_submit_reads (submit_url : string)
      (params : list (string * string)) :
  reads_before_failing
    (ImageTyperz.submit_imagetyperz_request_once submit_url params).
Proof.
  intros [|[body|] rest] e; [discriminate | |].
  - rewrite imagetyperz_submit_once. simpl. lia.
  - simpl. lia.
Qed.

Lemma twocaptcha_submit_reads (params : list (string * string)) :
  reads_before_failing (TwoCaptcha.submit_2captcha_v1_request_once params).
Proof.
  intros [|[body|] rest] e; [discriminate | |].
  - rewrite twocaptcha_submit_once.
    destruct (negb (Py.startswith body "OK")); [simpl; lia|].
    destruct (part (Py.split "|" body) 1); simpl; lia.
  - simpl. lia.
Qed.

Lemma twocaptcha_poll_reads (api_key captcha_id : string) :
  reads_before_failing
    (TwoCaptcha.retrieve_2captcha_v1_result_once api_key captcha_id).
Proof.
  intros script e.
  induction script as [|[body|] rest IH]; [discriminate | |];
    cbn [TwoCaptcha.retrieve_2captcha_v1_result_once after out unread
         List.length]; [|lia].
  destruct (Py.contains "CAPCHA_NOT_READY" body).
  { cbn [after out unread]. intros Hout. specialize (IH Hout). lia. }
  destruct (Py.contains "ERROR_CAPTCHA_UNSOLVABLE" body); [simpl; lia|].
  destruct (Py.contains "ERROR_ZERO_BALANCE" body); [simpl; lia|].
  destruct (negb (Py.startswith body "OK")); [simpl; lia|].
  destruct (part (Py.split_max "|" 1 body) 1); simpl; lia.
Qed.

Lemma imagetyperz_poll_reads (limits : Json.limits)
      (api_key captcha_id : string) :
  reads_before_failing
    (ImageTyperz.retrieve_imagetyperz_result_once limits api_key captcha_id).
Proof.
  intros script e.
  induction script as [|[body|] rest IH]; [discriminate | |];
    cbn [ImageTyperz.retrieve_imagetyperz_result_once after out unread
         List.length]; [|lia].
  destruct (Py.is_empty body); [simpl; lia|].
  destruct (Json.loads limits body) as [e'|parsed]; [simpl; lia|].
  destruct (subscript_int parsed 0) as [e'|response]; [simpl; lia|].
  destruct (subscript_str response "Status") as [e'|status]; [simpl; lia|].
  destruct (eq_str status "Pending").
  { cbn [after out unread]. intros Hout. specialize (IH Hout). lia. }
  destruct (eq_str status "ERROR: IMAGE_TIMED_OUT"); [simpl; lia|].
  destruct (negb (eq_str status "Solved")); [simpl; lia|].
  destruct (subscript_str response "Response"); simpl; lia.
Qed.

(** ** Any number of pending replies *)

Lemma imagetyperz_poll_once_pendings (limits : Json.limits)
      (api_key captcha_id : string) (pendings : list string)
      (rest : list reply) :
  Forall (Reply.imagetyperz_pending limits) pendings ->
  ImageTyperz.retrieve_imagetyperz_result_once limits api_key captcha_id
    (map Text pendings ++ rest)
  = after (concat (repeat [Sent (ImageTyperz.retrieve_request api_key
                                   captcha_id); Slept 5]
                          (List.length pendings)))
      (ImageTyperz.retrieve_imagetyperz_result_once limits api_key captcha_id
          rest).
Proof.
  intros Hall. induction Hall as [|p pendings Hp Hall IH].
  - simpl. rewrite after_nil. reflexivity.
  - cbn [map app List.length repeat concat].
    rewrite (imagetyperz_poll_pending _ _ _ _ _ Hp), IH, after_after.
    reflexivity.
Qed.

Lemma twocaptcha_poll_once_pendings (api_key captcha_id : string)
      (pendings : list string) (rest : list reply) :
  Forall (fun body => Py.contains Reply.NOT_READY body = true) pendings ->
  TwoCaptcha.retrieve_2captcha_v1_result_once api_key captcha_id
    (map Text pendings ++ rest)
  = after (concat (repeat [Sent (TwoCaptcha.retrieve_request api_key
                                   captcha_id); Slept 5]
                          (List.length pendings)))
      (TwoCaptcha.retrieve_2captcha_v1_result_once api_key captcha_id rest).
Proof.
  intros Hall. induction Hall as [|p pendings Hp Hall IH].
  - simpl. rewrite after_nil. reflexivity.
  - cbn [map app List.length repeat concat].
    rewrite (twocaptcha_poll_pending _ _ _ _ Hp), IH, after_after.
    reflexivity.
Qed.

(** The poll puts no bound on pending replies.  However many come first,
    each costs one request and one sleep of five seconds, after which the
    poll goes on exactly as a poll started on the replies that follow;
    and while only pending replies have come, the call has neither
    returned nor raised.  This holds for both backends. *)
Theorem poll_waits_through_any_number_of_pending_replies (limits :
  Json.limits) : forall (api_key captcha_id : string) (max_tries : nat)
         (pendings : list string) (rest : list reply),
    (Forall (Reply.imagetyperz_pending limits) pendings ->
     let rq := Sent (ImageTyperz.retrieve_request api_key captcha_id) in
     let poll :=
       ImageTyperz.retrieve_imagetyperz_result limits api_key max_tries
           captcha_id in
     poll (map Text pendings ++ rest)%list
     = after (concat (repeat [rq; Slept 5] (List.length pendings)))
             (poll rest)
     /\ out (poll (map Text pendings)) = Starved)
    /\ (Forall (fun body => Py.contains Reply.NOT_READY body = true) pendings ->
        let rq := Sent (TwoCaptcha.retrieve_request api_key captcha_id) in
        let poll :=
          TwoCaptcha.retrieve_2captcha_v1_result api_key max_tries captcha_id
        in
        poll (map Text pendings ++ rest)%list
        = after (concat (repeat [rq; Slept 5] (List.length pendings)))
                (poll rest)
        /\ out (poll (map Text pendings)) = Starved).
Proof.
  intros api_key captcha_id max_tries pendings rest. split.
  - intros Hall rq poll.
    assert (Hgo : forall tail,
               poll (map Text pendings ++ tail)%list
               = after (concat (repeat [rq; Slept 5] (List.length pendings)))
                       (poll tail)).
    { intros tail. unfold poll, ImageTyperz.retrieve_imagetyperz_result.
      apply on_exception_after.
      - apply imagetyperz_poll_reads.
      - rewrite length_app. lia.
      - apply imagetyperz_poll_once_pendings. exact Hall. }
    split; [apply Hgo|].
    rewrite <- (app_nil_r (map Text pendings)), Hgo.
    unfold poll, ImageTyperz.retrieve_imagetyperz_result.
    rewrite on_exception_final; [reflexivity | discriminate].
  - intros Hall rq poll.
    assert (Hgo : forall tail,
               poll (map Text pendings ++ tail)%list
               = after (concat (repeat [rq; Slept 5] (List.length pendings)))
                       (poll tail)).
    { intros tail. unfold poll, TwoCaptcha.retrieve_2captcha_v1_result.
      apply on_exception_after.
      - apply twocaptcha_poll_reads.
      - rewrite length_app. lia.
      - apply twocaptcha_poll_once_pendings. exact Hall. }
    split; [apply Hgo|].
    rewrite <- (app_nil_r (map Text pendings)), Hgo.
    unfold poll, TwoCaptcha.retrieve_2captcha_v1_result.
    rewrite on_exception_final; [reflexivity | discriminate].
Qed.

Lemma poll_waits_through_any_number_of_pending_replies_witness :
  out (TwoCaptcha.retrieve_2captcha_v1_result "key" 3 "991"
         (map Text (repeat "CAPCHA_NOT_READY" 40)))
  = Starved
  /\ out (ImageTyperz.retrieve_imagetyperz_result cpython "key" 3 "991"
            (map Text (repeat pending_poll 4)))
     = Starved.
Proof.
  destruct (poll_waits_through_any_number_of_pending_replies cpython "key"
              "991" 3 (repeat "CAPCHA_NOT_READY" 40) []) as [_ Htwo].
  destruct (poll_waits_through_any_number_of_pending_replies cpython "key"
              "991" 3 (repeat pending_poll 4) []) as [Himage _].
  split.
  - apply Htwo. repeat constructor.
  - apply Himage. repeat (constructor; [exact pending_poll_is_pending|]).
    constructor.
Defined.

(** * The Immowelt crawler: one entry of the search result *)

Example strip_sample :
  Immowelt.strip (String "009" "  Berlin Mitte" ++ Immowelt.utf8_text [194; 160; 10])
  = "Berlin Mitte".
Proof. vm_compute. reflexivity. Qed.

Example strip_blank :
  Immowelt.strip (" " ++ Immowelt.utf8_text [226; 128; 137; 32]) = "".
Proof. vm_compute. reflexivity. Qed.

Example strip_keeps_inner :
  Immowelt.strip ("a" ++ Immowelt.utf8_text [226; 128; 137] ++ "b")
  = "a" ++ Immowelt.utf8_text [226; 128; 137] ++ "b".
Proof. vm_compute. reflexivity. Qed.

Section ImmoweltEntry.

Variable sha256 : string -> N.
Variable str_of : pyval -> string.
Variable is_zero : string -> bool.
Variable find_images : pyval -> list pyval.
Variable find_cold_rent : pyval -> list pyval.
Variable find_warm_rent : pyval -> list pyval.
Variable find_area : pyval -> list pyval.
Variable get_name : string.

Let extract : pyval -> Immowelt.attempt Immowelt.expose :=
  Immowelt.extract_entry_from_json sha256 str_of is_zero find_images
    find_cold_rent find_warm_rent find_area get_name.

(** The steps of the extraction on an object, one field at a time. *)
Lemma get_on_dict (pairs : list (string * pyval)) (k : string)
      (default : pyval) :
  Immowelt.get (PyDict pairs) k default
  = inr match dict_get pairs k with
        | Some v => v
        | None => default
        end.
Proof. unfold Immowelt.get. destruct (dict_get pairs k); reflexivity. Qed.

Lemma strip_of_text_or_absent (place : list (string * pyval)) (k : string) :
  text_or_absent (dict_get place k) = true ->
  exists s,
    match dict_get place k with
    | Some v => v
    | None => PyStr EmptyString
    end = PyStr s.
Proof.
  destruct (dict_get place k) as [[| b | n | s | items | pairs]|];
    simpl; try discriminate; intros _; eexists; reflexivity.
Qed.

Lemma strip_of_not_text (place : list (string * pyval)) (k : string) :
  text_or_absent (dict_get place k) = false ->
  Immowelt.strip_of match dict_get place k with
                    | Some v => v
                    | None => PyStr EmptyString
                    end
  = inl Immowelt.AttributeError.
Proof.
  destruct (dict_get place k) as [[| b | n | s | items | pairs]|];
    simpl; try discriminate; reflexivity.
Qed.

(** Case analysis of a well-formed object: with [Hwf] saying that the
    entry is well formed, settle the fields the extraction reads, one at
    a time, and drop the cases [Hwf] excludes. *)
Ltac settle_field Hwf p k :=
  let Hk := fresh "Hfield" in
  revert Hwf;
  destruct (dict_get p k) as [[| ? | ? | ? | ? | ?]|] eqn:Hk;
  intros Hwf; cbn [text_or_absent andb negb] in Hwf;
  try discriminate Hwf;
  cbn [Immowelt.strip_of Immowelt.process_id bind Immowelt.Monad_attempt].

Ltac settle_place Hwf :=
  rewrite !get_on_dict;
  match goal with
  | |- context [dict_get ?place "city"] =>
      settle_field Hwf place "city";
      settle_field Hwf place "district";
      settle_field Hwf place "street"
  end.

(** What the extraction does with an entry, by the shape of the entry. *)
Lemma extraction_outcome (entry : pyval) :
  (well_formed_entry entry = false
   /\ extract entry = inl Immowelt.UnicodeEncodeError
   /\ exists pairs s,
       entry = PyDict pairs
       /\ dict_get pairs "onlineId" = Some (PyStr s)
       /\ Immowelt.has_surrogate s = true)
  \/ (well_formed_entry entry = false
      /\ extract entry = inl Immowelt.AttributeError)
  \/ (well_formed_entry entry = true /\ exists e, extract entry = inr e).
Proof.
  unfold extract, Immowelt.extract_entry_from_json.
  destruct entry as [| b | n | s | items | pairs];
    try (right; left; split; reflexivity).
  destruct (well_formed_entry (PyDict pairs)) eqn:Hwf.
  - right; right. split; [reflexivity|].
    cbn [well_formed_entry] in Hwf. rewrite get_on_dict.
    cbn [bind Immowelt.Monad_attempt].
    settle_field Hwf pairs "onlineId".
    + revert Hwf. destruct (Immowelt.has_surrogate s); intros Hwf;
        cbn [negb andb] in Hwf; [discriminate Hwf|].
      rewrite get_on_dict. settle_field Hwf pairs "place".
      * settle_place Hwf; eexists; reflexivity.
      * rewrite !get_on_dict.
        cbn [dict_get Immowelt.strip_of bind Immowelt.Monad_attempt].
        eexists; reflexivity.
    + rewrite get_on_dict. settle_field Hwf pairs "place".
      * settle_place Hwf; eexists; reflexivity.
      * rewrite !get_on_dict.
        cbn [dict_get Immowelt.strip_of bind Immowelt.Monad_attempt].
        eexists; reflexivity.
  - cbn [well_formed_entry] in Hwf. rewrite get_on_dict.
    cbn [bind Immowelt.Monad_attempt].
    destruct (dict_get pairs "onlineId") as [[| b | n | s | items | inner]|]
      eqn:Hid; cbn [Immowelt.process_id];
      try (right; left; split; reflexivity).
    + destruct (Immowelt.has_surrogate s) eqn:Hsurrogate.
      { left. split; [reflexivity|]. split; [reflexivity|].
        exists pairs, s. repeat split; assumption. }
      right; left. split; [reflexivity|].
      cbn [negb andb] in Hwf. rewrite get_on_dict.
      destruct (dict_get pairs "place") as [[| b | n | t | items | place]|];
        try reflexivity; try discriminate Hwf.
      rewrite !get_on_dict.
      destruct (text_or_absent (dict_get place "city")) eqn:Hcity;
        [destruct (strip_of_text_or_absent _ _ Hcity) as [city ->]
        | rewrite (strip_of_not_text _ _ Hcity); reflexivity].
      cbn [Immowelt.strip_of bind Immowelt.Monad_attempt].
      destruct (text_or_absent (dict_get place "district")) eqn:Hdistrict;
        [destruct (strip_of_text_or_absent _ _ Hdistrict) as [district ->]
        | rewrite (strip_of_not_text _ _ Hdistrict); reflexivity].
      cbn [Immowelt.strip_of bind Immowelt.Monad_attempt].
      destruct (text_or_absent (dict_get place "street")) eqn:Hstreet;
        [discriminate Hwf
        | rewrite (strip_of_not_text _ _ Hstreet); reflexivity].
    + right; left. split; [reflexivity|].
      cbn [negb andb] in Hwf. rewrite get_on_dict.
      destruct (dict_get pairs "place") as [[| b | n | t | items | place]|];
        try reflexivity; try discriminate Hwf.
      rewrite !get_on_dict.
      destruct (text_or_absent (dict_get place "city")) eqn:Hcity;
        [destruct (strip_of_text_or_absent _ _ Hcity) as [city ->]
        | rewrite (strip_of_not_text _ _ Hcity); reflexivity].
      cbn [Immowelt.strip_of bind Immowelt.Monad_attempt].
      destruct (text_or_absent (dict_get place "district")) eqn:Hdistrict;
        [destruct (strip_of_text_or_absent _ _ Hdistrict) as [district ->]
        | rewrite (strip_of_not_text _ _ Hdistrict); reflexivity].
      cbn [Immowelt.strip_of bind Immowelt.Monad_attempt].
      destruct (text_or_absent (dict_get place "street")) eqn:Hstreet;
        [discriminate Hwf
        | rewrite (strip_of_not_text _ _ Hstreet); reflexivity].
Qed.

Lemma extraction_needs_well_formed (entry : pyval) (e : Immowelt.expose) :
  extract entry = inr e -> well_formed_entry entry = true.
Proof.
  intros He.
  destruct (extraction_outcome entry)
    as [[_ [Hfail _]]|[[_ Hfail]|[Hwf _]]]; congruence.
Qed.

(** The extraction returns an expose exactly for the well-formed
    entries; on every other entry it ends with [AttributeError], or with
    [UnicodeEncodeError] when the identifier holds a lone surrogate. *)
Theorem immowelt_extraction_succeeds_iff_well_formed :
  forall entry : pyval,
    ((exists e, extract entry = inr e) <-> well_formed_entry entry = true)
    /\ (well_formed_entry entry = false ->
        extract entry = inl Immowelt.AttributeError
        \/ extract entry = inl Immowelt.UnicodeEncodeError).
Proof.
  intros entry.
  destruct (extraction_outcome entry)
    as [[Hwf [Hfail _]]|[[Hwf Hfail]|[Hwf [e He]]]]; rewrite Hwf.
  - split; [|intros _; right; exact Hfail].
    split; [|discriminate]. intros [e He]. congruence.
  - split; [|intros _; left; exact Hfail].
    split; [|discriminate]. intros [e He]. congruence.
  - split; [|discriminate].
    split; [reflexivity | intros _; exists e; exact He].
Qed.

(** [UnicodeEncodeError] has one cause: the entry is an object whose
    [onlineId] is a text with a lone surrogate.  It is raised whatever
    the rest of the entry holds, the identifier being hashed before the
    place is read. *)
Theorem immowelt_unicode_error_is_the_identifier :
  forall entry : pyval,
    extract entry = inl Immowelt.UnicodeEncodeError
    <-> exists pairs s,
        entry = PyDict pairs
        /\ dict_get pairs "onlineId" = Some (PyStr s)
        /\ Immowelt.has_surrogate s = true.
Proof.
  intros entry. split.
  - intros He.
    destruct (extraction_outcome entry)
      as [[_ [_ Hcause]]|[[_ Hfail]|[_ [e Hsome]]]];
      [exact Hcause | congruence | congruence].
  - intros [pairs [s [-> [Hid Hsurrogate]]]].
    unfold extract, Immowelt.extract_entry_from_json.
    rewrite get_on_dict, Hid.
    cbn [bind Immowelt.Monad_attempt Immowelt.process_id].
    rewrite Hsurrogate. reflexivity.
Qed.

(** The identifier of an expose is below [10^16] and, like its URL, is
    fixed by the entry's [onlineId] alone; entries without an [onlineId]
    all get the identifier and the URL of the text [0]. *)
Theorem immowelt_id_and_url_come_from_online_id :
  forall (entry : pyval) (e : Immowelt.expose),
    extract entry = inr e ->
    (Immowelt.id e < 10 ^ 16)%N
    /\ exists pairs s,
        entry = PyDict pairs
        /\ match dict_get pairs "onlineId" with
           | Some v => v
           | None => PyStr "0"
           end = PyStr s
        /\ Immowelt.id e = (sha256 s mod 10 ^ 16)%N
        /\ Immowelt.url e = "https://www.immowelt.de/expose/" ++ s.
Proof.
  intros entry e He.
  pose proof (extraction_needs_well_formed _ _ He) as Hwf.
  destruct entry as [| b | n | s | items | pairs]; try discriminate Hwf.
  assert (Hshape : exists s,
             match dict_get pairs "onlineId" with
             | Some v => v
             | None => PyStr "0"
             end = PyStr s
             /\ Immowelt.id e = (sha256 s mod 10 ^ 16)%N
             /\ Immowelt.url e = "https://www.immowelt.de/expose/" ++ s).
  { revert He. unfold extract, Immowelt.extract_entry_from_json.
    cbn [well_formed_entry] in Hwf. rewrite get_on_dict.
    cbn [bind Immowelt.Monad_attempt].
    settle_field Hwf pairs "onlineId".
    - revert Hwf. destruct (Immowelt.has_surrogate s); intros Hwf;
        cbn [negb andb] in Hwf; [discriminate Hwf|].
      rewrite get_on_dict. settle_field Hwf pairs "place".
      + settle_place Hwf; intros He; injection He as <-;
          exists s; repeat split; reflexivity.
      + rewrite !get_on_dict.
        cbn [dict_get Immowelt.strip_of bind Immowelt.Monad_attempt].
        intros He; injection He as <-. exists s; repeat split; reflexivity.
    - rewrite get_on_dict. settle_field Hwf pairs "place".
      + settle_place Hwf; intros He; injection He as <-;
          exists "0"; repeat split; reflexivity.
      + rewrite !get_on_dict.
        cbn [dict_get Immowelt.strip_of bind Immowelt.Monad_attempt].
        intros He; injection He as <-.
        exists "0"; repeat split; reflexivity. }
  destruct Hshape as [s [Hid [Hnumber Hurl]]]. split.
  - rewrite Hnumber. apply N.mod_lt. discriminate.
  - exists pairs, s. repeat split; assumption.
Qed.

(** The address of an expose is never empty, and it is [N/A] for an
    entry that has no [place]. *)
Theorem immowelt_address_is_never_empty :
  forall (entry : pyval) (e : Immowelt.expose),
    extract entry = inr e ->
    Immowelt.address e <> ""
    /\ (forall pairs,
           entry = PyDict pairs ->
           dict_get pairs "place" = None ->
           Immowelt.address e = "N/A").
Proof.
  intros entry e He.
  assert (Hfilled : forall joined : string,
             (if Py.is_empty joined then "N/A" else joined) <> "").
  { intros [|c joined]; discriminate. }
  split.
  - revert He. unfold extract, Immowelt.extract_entry_from_json.
    unfold bind, Immowelt.Monad_attempt, ret.
    repeat match goal with
           | |- context [match ?c with inl _ => _ | inr _ => _ end] =>
               destruct c; [discriminate|]
           end.
    intros He; injection He as <-. apply Hfilled.
  - intros pairs -> Hplace. revert He.
    unfold extract, Immowelt.extract_entry_from_json.
    rewrite !get_on_dict, Hplace.
    cbn [bind Immowelt.Monad_attempt]. rewrite !get_on_dict.
    cbn [dict_get Immowelt.strip_of bind Immowelt.Monad_attempt].
    destruct (Immowelt.process_id _ _); [discriminate|].
    intros He; injection He as <-. reflexivity.
Qed.

(** With a street, a district and a postcode, the address reads: street,
    district, then postcode and city, each but the postcode stripped of
    the white space around it. *)
Theorem immowelt_address_of_a_full_place :
  forall (pairs place : list (string * pyval))
         (street district city postcode : string) (e : Immowelt.expose),
    dict_get pairs "place" = Some (PyDict place) ->
    dict_get place "street" = Some (PyStr street) ->
    dict_get place "district" = Some (PyStr district) ->
    dict_get place "city" = Some (PyStr city) ->
    dict_get place "postcode" = Some (PyStr postcode) ->
    Py.is_empty (Immowelt.strip street) = false ->
    Py.is_empty (Immowelt.strip district) = false ->
    Py.is_empty postcode = false ->
    extract (PyDict pairs) = inr e ->
    Immowelt.address e
    = Immowelt.strip street ++ ", " ++ Immowelt.strip district ++ ", "
      ++ postcode ++ " " ++ Immowelt.strip city.
Proof.
  intros pairs place street district city postcode e
         Hplace Hstreet Hdistrict Hcity Hpostcode
         Hstreet_filled Hdistrict_filled Hpostcode_filled.
  unfold extract, Immowelt.extract_entry_from_json.
  rewrite !get_on_dict, Hplace.
  cbn [bind Immowelt.Monad_attempt]. rewrite !get_on_dict.
  rewrite Hstreet, Hdistrict, Hcity, Hpostcode.
  cbn [Immowelt.strip_of bind Immowelt.Monad_attempt Immowelt.truthy
       Immowelt.text_of].
  destruct (Immowelt.process_id _ _); [discriminate|].
  intros He; injection He as <-.
  cbn [Immowelt.address filter]. rewrite Hpostcode_filled.
  rewrite Hstreet_filled, Hdistrict_filled.
  destruct postcode as [|c postcode]; [discriminate|].
  cbn [negb Immowelt.join String.append Py.is_empty].
  destruct (Immowelt.strip street) as [|c1 s1]; [discriminate|].
  reflexivity.
Qed.

End ImmoweltEntry.

Lemma immowelt_id_and_url_come_from_online_id_witness :
  exists e,
    Immowelt.extract_entry_from_json
      (fun s => N.of_nat (String.length s)) (fun _ => "") (fun _ => false)
      (fun _ => []) (fun _ => []) (fun _ => []) (fun _ => []) "Immowelt"
      sample_entry = inr e
    /\ (Immowelt.id e < 10 ^ 16)%N.
Proof.
  eexists. split; [reflexivity|].
  apply (immowelt_id_and_url_come_from_online_id
           (fun s => N.of_nat (String.length s)) (fun _ => "")
           (fun _ => false) (fun _ => []) (fun _ => []) (fun _ => [])
           (fun _ => []) "Immowelt" sample_entry _ eq_refl).
Defined.

Lemma immowelt_address_is_never_empty_witness :
  exists e,
    Immowelt.extract_entry_from_json
      (fun s => N.of_nat (String.length s)) (fun _ => "") (fun _ => false)
      (fun _ => []) (fun _ => []) (fun _ => []) (fun _ => []) "Immowelt"
      (PyDict [("onlineId", PyStr "2a9x54z")]) = inr e
    /\ Immowelt.address e = "N/A".
Proof.
  eexists. split; [reflexivity|].
  apply (proj2 (immowelt_address_is_never_empty
                  (fun s => N.of_nat (String.length s)) (fun _ => "")
                  (fun _ => false) (fun _ => []) (fun _ => [])
                  (fun _ => []) (fun _ => []) "Immowelt"
                  (PyDict [("onlineId", PyStr "2a9x54z")]) _ eq_refl)
               [("onlineId", PyStr "2a9x54z")] eq_refl eq_refl).
Defined.

Lemma immowelt_address_of_a_full_place_witness :
  exists e,
    Immowelt.extract_entry_from_json
      (fun s => N.of_nat (String.length s)) (fun _ => "") (fun _ => false)
      (fun _ => []) (fun _ => []) (fun _ => []) (fun _ => []) "Immowelt"
      sample_entry = inr e
    /\ Immowelt.address e = "Invalidenstr. 1, Mitte, 10115 Berlin".
Proof.
  eexists. split; [reflexivity|].
  pose proof (immowelt_address_of_a_full_place
                (fun s => N.of_nat (String.length s)) (fun _ => "")
                (fun _ => false) (fun _ => []) (fun _ => []) (fun _ => [])
                (fun _ => []) "Immowelt"
                [("onlineId", PyStr "2a9x54z"); ("title", PyStr "Altbau");
                 ("roomsMin", PyNum "2"); ("place", sample_place)]
                [("city", PyStr " Berlin ");
                 ("postcode", PyStr "10115");
                 ("district", PyStr "Mitte");
                 ("street", PyStr (String "009" "Invalidenstr. 1"))]
                (String "009" "Invalidenstr. 1") "Mitte" " Berlin " "10115"
                _ eq_refl eq_refl eq_refl eq_refl eq_refl
                eq_refl eq_refl eq_refl eq_refl) as Haddress.
  exact Haddress.
Defined.

(** Read from JSON text: an [onlineId] with a lone surrogate escape ends
    in [UnicodeEncodeError], a numeric one in [AttributeError]. *)
Example immowelt_lone_surrogate_identifier :
  match Json.loads cpython
                   ("{" ++ quoted "onlineId" ++ ":"
                        ++ quoted (String backslash "ud83d") ++ "}") with
  | inr entry =>
      Immowelt.extract_entry_from_json
        (fun s => N.of_nat (String.length s)) (fun _ => "") (fun _ => false)
        (fun _ => []) (fun _ => []) (fun _ => []) (fun _ => []) "Immowelt"
        entry
  | inl _ => inl Immowelt.AttributeError
  end = inl Immowelt.UnicodeEncodeError.
Proof. vm_compute. reflexivity. Qed.

Example immowelt_numeric_identifier :
  match Json.loads cpython ("{" ++ quoted "onlineId" ++ ":2954}") with
  | inr entry =>
      Immowelt.extract_entry_from_json
        (fun s => N.of_nat (String.length s)) (fun _ => "") (fun _ => false)
        (fun _ => []) (fun _ => []) (fun _ => []) (fun _ => []) "Immowelt"
        entry
  | inl _ => inl Immowelt.UnicodeEncodeError
  end = inl Immowelt.AttributeError.
Proof. vm_compute. reflexivity. Qed.
